(** * PCF8583 real-time clock: the I2C protocol decoder and register bank

    A shallow embedding of [src/vice/src/rtc/pcf8583.c] (VICE), and the
    properties its specification states about it.

    The C code mutates one [rtc_pcf8583_t] through a pointer; here every
    function takes the context and returns the updated one.  Reads of the
    host clock ([time(NULL)] inside the rtc backend) are made explicit: a
    function that can reach the host clock takes the reading [h] that the
    call observes.  *)

From Stdlib Require Import ZArith Lia Bool.
From stdpp Require Import base list strings.

Open Scope Z_scope.

(** ** Machine integers *)

(** [BYTE] is an unsigned 8-bit integer: a [Z] kept in [0, 256) by
    truncating on every store. [time_t] is a signed integer whose overflow
    is undefined in C: it is a plain [Z]. *)
Definition to_byte (x : Z) : Z := x mod 256.

Definition is_byte (x : Z) : Prop := 0 <= x < 256.

(** [d ? 1 : 0] on a BYTE argument. *)
Definition to_level (data : Z) : bool := negb (data =? 0).

(** ** Constants *)

(** Modelled from the spec: pcf8583.h is not part of the sources. The
    register block has 16 slots (addresses 0-15) and the RAM follows it;
    the header comment of pcf8583.c gives "240 x 8-bit RAM" and
    "registers 16-255: RAM". *)
Definition PCF8583_RAM_SIZE : Z := 240.
Definition PCF8583_REG_SIZE : Z := 16.

Definition PCF8583_REG_CONTROL : Z := 0.
Definition PCF8583_REG_100TH_SECONDS : Z := 1.
Definition PCF8583_REG_SECONDS : Z := 2.
Definition PCF8583_REG_MINUTES : Z := 3.
Definition PCF8583_REG_HOURS : Z := 4.
Definition PCF8583_REG_YEARS_MONTH_DAYS : Z := 5.
Definition PCF8583_REG_WEEK_DAYS_MONTHS : Z := 6.
Definition PCF8583_REG_TIMER_DAYS : Z := 7.
Definition PCF8583_REG_ALARM_CONTROL : Z := 8.
Definition PCF8583_REG_100TH_SECONDS_ALARM : Z := 9.
Definition PCF8583_REG_SECONDS_ALARM : Z := 10.
Definition PCF8583_REG_MINUTES_ALARM : Z := 11.
Definition PCF8583_REG_HOURS_ALARM : Z := 12.
Definition PCF8583_REG_DATE_ALARM : Z := 13.
Definition PCF8583_REG_MONTH_ALARM : Z := 14.
Definition PCF8583_REG_TIMER_ALARM : Z := 15.

(** ** The context *)

(** Modelled from the spec: the protocol states, an enum of pcf8583.h. *)
Inductive pcf8583_state : Set :=
  | PCF8583_IDLE
  | PCF8583_START_WAIT
  | PCF8583_GET_ADDRESS
  | PCF8583_GET_REG_NR
  | PCF8583_READ_REGS
  | PCF8583_WRITE_REGS
  | PCF8583_READ_ACK
  | PCF8583_ADDRESS_READ_ACK
  | PCF8583_REG_NR_ACK
  | PCF8583_WRITE_ACK
  | PCF8583_ADDRESS_WRITE_ACK.

#[global] Instance pcf8583_state_eq_dec : EqDecision pcf8583_state.
Proof. solve_decision. Defined.

(** Modelled from the spec: [struct rtc_pcf8583_s] of pcf8583.h, with the
    fields pcf8583.c uses. The flags and the two lines only ever hold 0 or
    1 and are booleans; [state] is the enum; [reg], [reg_ptr] and [bit] are
    BYTEs; the five buffers are byte arrays. *)
Record rtc_pcf8583_t : Type := mk_rtc_pcf8583 {
  clock_halt : bool;
  clock_halt_latch : Z;
  am_pm : bool;
  offset : Z;
  old_offset : Z;
  clock_regs : list Z;
  old_clock_regs : list Z;
  clock_regs_for_read : list Z;
  ram : list Z;
  old_ram : list Z;
  state : pcf8583_state;
  reg : Z;
  reg_ptr : Z;
  bit : Z;
  sclk_line : bool;
  data_line : bool;
  device : string
}.

(** Field assignments [context->f = v]. *)
Definition set_clock_halt (v : bool) (c : rtc_pcf8583_t) : rtc_pcf8583_t :=
  mk_rtc_pcf8583 v (clock_halt_latch c) (am_pm c) (offset c) (old_offset c)
    (clock_regs c) (old_clock_regs c) (clock_regs_for_read c) (ram c)
    (old_ram c) (state c) (reg c) (reg_ptr c) (bit c) (sclk_line c)
    (data_line c) (device c).

Definition set_clock_halt_latch (v : Z) (c : rtc_pcf8583_t) : rtc_pcf8583_t :=
  mk_rtc_pcf8583 (clock_halt c) v (am_pm c) (offset c) (old_offset c)
    (clock_regs c) (old_clock_regs c) (clock_regs_for_read c) (ram c)
    (old_ram c) (state c) (reg c) (reg_ptr c) (bit c) (sclk_line c)
    (data_line c) (device c).

Definition set_am_pm (v : bool) (c : rtc_pcf8583_t) : rtc_pcf8583_t :=
  mk_rtc_pcf8583 (clock_halt c) (clock_halt_latch c) v (offset c)
    (old_offset c) (clock_regs c) (old_clock_regs c) (clock_regs_for_read c)
    (ram c) (old_ram c) (state c) (reg c) (reg_ptr c) (bit c) (sclk_line c)
    (data_line c) (device c).

Definition set_offset (v : Z) (c : rtc_pcf8583_t) : rtc_pcf8583_t :=
  mk_rtc_pcf8583 (clock_halt c) (clock_halt_latch c) (am_pm c) v
    (old_offset c) (clock_regs c) (old_clock_regs c) (clock_regs_for_read c)
    (ram c) (old_ram c) (state c) (reg c) (reg_ptr c) (bit c) (sclk_line c)
    (data_line c) (device c).

Definition set_clock_regs (v : list Z) (c : rtc_pcf8583_t) : rtc_pcf8583_t :=
  mk_rtc_pcf8583 (clock_halt c) (clock_halt_latch c) (am_pm c) (offset c)
    (old_offset c) v (old_clock_regs c) (clock_regs_for_read c)
    (ram c) (old_ram c) (state c) (reg c) (reg_ptr c) (bit c) (sclk_line c)
    (data_line c) (device c).

Definition set_clock_regs_for_read (v : list Z) (c : rtc_pcf8583_t)
  : rtc_pcf8583_t :=
  mk_rtc_pcf8583 (clock_halt c) (clock_halt_latch c) (am_pm c) (offset c)
    (old_offset c) (clock_regs c) (old_clock_regs c) v
    (ram c) (old_ram c) (state c) (reg c) (reg_ptr c) (bit c) (sclk_line c)
    (data_line c) (device c).

Definition set_ram (v : list Z) (c : rtc_pcf8583_t) : rtc_pcf8583_t :=
  mk_rtc_pcf8583 (clock_halt c) (clock_halt_latch c) (am_pm c) (offset c)
    (old_offset c) (clock_regs c) (old_clock_regs c) (clock_regs_for_read c)
    v (old_ram c) (state c) (reg c) (reg_ptr c) (bit c) (sclk_line c)
    (data_line c) (device c).

Definition set_state (v : pcf8583_state) (c : rtc_pcf8583_t) : rtc_pcf8583_t :=
  mk_rtc_pcf8583 (clock_halt c) (clock_halt_latch c) (am_pm c) (offset c)
    (old_offset c) (clock_regs c) (old_clock_regs c) (clock_regs_for_read c)
    (ram c) (old_ram c) v (reg c) (reg_ptr c) (bit c) (sclk_line c)
    (data_line c) (device c).

Definition set_reg (v : Z) (c : rtc_pcf8583_t) : rtc_pcf8583_t :=
  mk_rtc_pcf8583 (clock_halt c) (clock_halt_latch c) (am_pm c) (offset c)
    (old_offset c) (clock_regs c) (old_clock_regs c) (clock_regs_for_read c)
    (ram c) (old_ram c) (state c) v (reg_ptr c) (bit c) (sclk_line c)
    (data_line c) (device c).

Definition set_reg_ptr (v : Z) (c : rtc_pcf8583_t) : rtc_pcf8583_t :=
  mk_rtc_pcf8583 (clock_halt c) (clock_halt_latch c) (am_pm c) (offset c)
    (old_offset c) (clock_regs c) (old_clock_regs c) (clock_regs_for_read c)
    (ram c) (old_ram c) (state c) (reg c) v (bit c) (sclk_line c)
    (data_line c) (device c).

Definition set_bit (v : Z) (c : rtc_pcf8583_t) : rtc_pcf8583_t :=
  mk_rtc_pcf8583 (clock_halt c) (clock_halt_latch c) (am_pm c) (offset c)
    (old_offset c) (clock_regs c) (old_clock_regs c) (clock_regs_for_read c)
    (ram c) (old_ram c) (state c) (reg c) (reg_ptr c) v (sclk_line c)
    (data_line c) (device c).

Definition set_sclk_line (v : bool) (c : rtc_pcf8583_t) : rtc_pcf8583_t :=
  mk_rtc_pcf8583 (clock_halt c) (clock_halt_latch c) (am_pm c) (offset c)
    (old_offset c) (clock_regs c) (old_clock_regs c) (clock_regs_for_read c)
    (ram c) (old_ram c) (state c) (reg c) (reg_ptr c) (bit c) v
    (data_line c) (device c).

Definition set_data_line (v : bool) (c : rtc_pcf8583_t) : rtc_pcf8583_t :=
  mk_rtc_pcf8583 (clock_halt c) (clock_halt_latch c) (am_pm c) (offset c)
    (old_offset c) (clock_regs c) (old_clock_regs c) (clock_regs_for_read c)
    (ram c) (old_ram c) (state c) (reg c) (reg_ptr c) (bit c) (sclk_line c)
    v (device c).

(** ** Byte arrays *)

(** [a[i]] and [a[i] = v] on a C array held as a list. An index outside
    the array is undefined behaviour in C; here the read gives 0 and the
    write does nothing, and the theorems on bounds show that the code never
    gets there. *)
Definition arr_get (a : list Z) (i : Z) : Z :=
  if i <? 0 then 0 else default 0 (a !! Z.to_nat i).

Definition arr_set (a : list Z) (i : Z) (v : Z) : list Z :=
  if i <? 0 then a else <[Z.to_nat i := v]> a.

(** Whether index [i] lies inside array [a]. *)
Definition in_bounds (a : list Z) (i : Z) : Prop :=
  0 <= i < Z.of_nat (length a).

(** [memcmp(a, b, n)]: zero when the first [n] bytes agree, otherwise the
    difference of the first pair that differs. *)
Fixpoint memcmp (a b : list Z) (n : nat) : Z :=
  match n, a, b with
  | S n', x :: a', y :: b' => if x =? y then memcmp a' b' n' else x - y
  | _, _, _ => 0
  end.

(** [memcpy(dst, src, n)] into a fresh array of [n] bytes. *)
Definition memcpy (src : list Z) (n : Z) : list Z := take (Z.to_nat n) src.

(** [lib_calloc(1, n)]. *)
Definition lib_calloc (n : Z) : list Z := replicate (Z.to_nat n) 0.

(** ** The host clock and the rtc backend *)

(** What one call can observe of the host: [time(NULL)] and the
    sub-second part of the host clock. *)
Record host_clock : Type := mk_host { host_time : Z; host_usec : Z }.

(** Modelled from the spec: [rtc_get_latch] of rtc.c, which is not part of
    the sources. The running virtual time is host time plus the offset. *)
Definition rtc_get_latch (h : host_clock) (offs : Z) : Z := host_time h + offs.

(** The calendar accessors of rtc.c are external to pcf8583.c: an
    interface. A getter decodes one field of a time value; an offset
    setter re-reads the host clock and returns the new offset; a latched
    setter works on a time value alone. The last argument is the BCD
    flag. *)
Class rtc_backend : Type := {
  rtc_get_centisecond : host_clock -> Z -> Z;
  rtc_get_second : Z -> Z -> Z;
  rtc_get_minute : Z -> Z -> Z;
  rtc_get_hour : Z -> Z -> Z;
  rtc_get_hour_am_pm : Z -> Z -> Z;
  rtc_get_day_of_month : Z -> Z -> Z;
  rtc_get_month : Z -> Z -> Z;
  rtc_get_year : Z -> Z -> Z;
  rtc_get_weekday : Z -> Z;
  rtc_set_second : host_clock -> Z -> Z -> Z -> Z;
  rtc_set_minute : host_clock -> Z -> Z -> Z -> Z;
  rtc_set_hour : host_clock -> Z -> Z -> Z -> Z;
  rtc_set_hour_am_pm : host_clock -> Z -> Z -> Z -> Z;
  rtc_set_day_of_month : host_clock -> Z -> Z -> Z -> Z;
  rtc_set_month : host_clock -> Z -> Z -> Z -> Z;
  rtc_set_year : host_clock -> Z -> Z -> Z -> Z;
  rtc_set_weekday : host_clock -> Z -> Z -> Z;
  rtc_set_latched_second : Z -> Z -> Z -> Z;
  rtc_set_latched_minute : Z -> Z -> Z -> Z;
  rtc_set_latched_hour : Z -> Z -> Z -> Z;
  rtc_set_latched_hour_am_pm : Z -> Z -> Z -> Z;
  rtc_set_latched_day_of_month : Z -> Z -> Z -> Z;
  rtc_set_latched_month : Z -> Z -> Z -> Z;
  rtc_set_latched_year : Z -> Z -> Z -> Z;
  rtc_set_latched_weekday : Z -> Z -> Z
}.

(** What [rtc_load_context] found for a device, when it found something:
    the buffers behind [rtc_get_loaded_ram], [rtc_get_loaded_offset] and
    [rtc_get_loaded_clockregs]. *)
Record rtc_loaded : Type := mk_loaded {
  loaded_ram : list Z;
  loaded_offset : Z;
  loaded_clockregs : list Z
}.

(** The arguments of one call of [rtc_save_context]. *)
Record rtc_save_args : Type := mk_save {
  save_ram : list Z;
  save_ram_size : Z;
  save_regs : list Z;
  save_reg_size : Z;
  save_device : string;
  save_offset : Z
}.

(** ** Creation and destruction *)

(** [pcf8583_init]. [loaded] is what [rtc_load_context] returned for the
    device: [None] when nothing was stored. [lib_calloc] zeroes every
    field that is not assigned. *)
Definition pcf8583_init (dev : string) (loaded : option rtc_loaded)
  : rtc_pcf8583_t :=
  let ram0 := match loaded with
              | Some l => loaded_ram l
              | None => lib_calloc PCF8583_RAM_SIZE
              end in
  let offset0 := match loaded with
                 | Some l => loaded_offset l
                 | None => 0
                 end in
  let regs0 := match loaded with
               | Some l => loaded_clockregs l
               | None => lib_calloc PCF8583_REG_SIZE
               end in
  {| clock_halt := false;
     clock_halt_latch := 0;
     am_pm := false;
     offset := offset0;
     old_offset := offset0;
     clock_regs := regs0;
     old_clock_regs := memcpy regs0 PCF8583_REG_SIZE;
     clock_regs_for_read := lib_calloc PCF8583_REG_SIZE;
     ram := ram0;
     old_ram := memcpy ram0 PCF8583_RAM_SIZE;
     state := PCF8583_IDLE;
     reg := 0;
     reg_ptr := 0;
     bit := 0;
     sclk_line := true;
     data_line := true;
     device := dev |}.

(** [pcf8583_destroy]. The frees leave nothing to observe; the result is
    the call of [rtc_save_context] the function makes, if it makes one. *)
Definition pcf8583_destroy (context : rtc_pcf8583_t) (save : Z)
  : option rtc_save_args :=
  if negb (save =? 0) then
    if negb (memcmp (ram context) (old_ram context)
               (Z.to_nat PCF8583_RAM_SIZE) =? 0)
       || negb (memcmp (clock_regs context) (old_clock_regs context)
                  (Z.to_nat PCF8583_REG_SIZE) =? 0)
       || negb (offset context =? old_offset context)
    then Some (mk_save (ram context) PCF8583_RAM_SIZE (clock_regs context)
                 PCF8583_REG_SIZE (device context) (offset context))
    else None
  else None.

(** ** The register bank *)

Section Chip.

Context {B : rtc_backend}.

(** The time value a START encodes: the latch while halted, the running
    time otherwise (first line of [pcf8583_i2c_start]). *)
Definition start_latch (h : host_clock) (context : rtc_pcf8583_t) : Z :=
  if clock_halt context then clock_halt_latch context
  else rtc_get_latch h (offset context).

(** The hours byte of the snapshot (lines 185-195). *)
Definition start_hours (latch : Z) (context : rtc_pcf8583_t) : Z :=
  let tmp := to_byte (Z.shiftl (Z.b2z (am_pm context)) 7) in
  if am_pm context then
    let tmp := to_byte (Z.lor tmp (rtc_get_hour_am_pm latch 1)) in
    if negb (Z.land tmp 0x20 =? 0) then
      let tmp := to_byte (Z.land tmp 0xdf) in
      to_byte (Z.lor tmp 0x40)
    else tmp
  else to_byte (Z.lor tmp (rtc_get_hour latch 1)).

(** The year and day-of-month byte (lines 196-200). *)
Definition start_years_month_days (latch : Z) : Z :=
  let tmp := to_byte (rtc_get_year latch 1) in
  let tmp := to_byte (Z.land tmp 3) in
  let tmp := to_byte (Z.shiftl tmp 6) in
  to_byte (Z.lor tmp (rtc_get_day_of_month latch 1)).

(** The weekday and month byte (lines 201-205). *)
Definition start_week_days_months (latch : Z) : Z :=
  let tmp := to_byte (rtc_get_weekday latch + 1) in
  let tmp := to_byte (Z.land tmp 7) in
  let tmp := to_byte (Z.shiftl tmp 5) in
  to_byte (Z.lor tmp (rtc_get_month latch 1)).

Definition pcf8583_i2c_start (h : host_clock) (context : rtc_pcf8583_t)
  : rtc_pcf8583_t :=
  let latch := start_latch h context in
  let r := clock_regs_for_read context in
  let r := arr_set r PCF8583_REG_CONTROL
             (arr_get (clock_regs context) PCF8583_REG_CONTROL) in
  let r := arr_set r PCF8583_REG_100TH_SECONDS
             (to_byte (rtc_get_centisecond h 1)) in
  let r := arr_set r PCF8583_REG_SECONDS
             (to_byte (rtc_get_second latch 1)) in
  let r := arr_set r PCF8583_REG_MINUTES
             (to_byte (rtc_get_minute latch 1)) in
  let r := arr_set r PCF8583_REG_HOURS (start_hours latch context) in
  let r := arr_set r PCF8583_REG_YEARS_MONTH_DAYS
             (start_years_month_days latch) in
  let r := arr_set r PCF8583_REG_WEEK_DAYS_MONTHS
             (start_week_days_months latch) in
  let r := arr_set r PCF8583_REG_TIMER_DAYS 0 in
  let r := foldl (fun r i => arr_set r i (arr_get (clock_regs context) i)) r
             (seqZ PCF8583_REG_ALARM_CONTROL
                (PCF8583_REG_TIMER_ALARM - PCF8583_REG_ALARM_CONTROL + 1)) in
  set_clock_regs_for_read r context.

Definition pcf8583_read_register (context : rtc_pcf8583_t) (addr : Z) : Z :=
  if addr <? PCF8583_REG_SIZE then arr_get (clock_regs_for_read context) addr
  else arr_get (ram context) (addr - PCF8583_REG_SIZE).

(** [pcf8583_write_register]; the cases are in the order of the switch. *)
Definition pcf8583_write_register (h : host_clock) (context : rtc_pcf8583_t)
    (addr val : Z) : rtc_pcf8583_t :=
  if addr =? PCF8583_REG_MINUTES then
    if clock_halt context then
      set_clock_halt_latch
        (rtc_set_latched_minute val (clock_halt_latch context) 1) context
    else set_offset (rtc_set_minute h val (offset context) 1) context
  else if addr =? PCF8583_REG_CONTROL then
    let context :=
      if clock_halt context then
        if Z.land val 0x80 =? 0 then
          let context :=
            set_offset
              (offset context
               - (rtc_get_latch h 0
                  - (clock_halt_latch context - offset context))) context in
          set_clock_halt false context
        else context
      else
        if negb (Z.land val 0x80 =? 0) then
          let context := set_clock_halt true context in
          set_clock_halt_latch (rtc_get_latch h (offset context)) context
        else context in
    set_clock_regs (arr_set (clock_regs context) PCF8583_REG_CONTROL val)
      context
  else if (addr =? PCF8583_REG_100TH_SECONDS)
          || (addr =? PCF8583_REG_TIMER_DAYS) then
    context
  else if addr =? PCF8583_REG_SECONDS then
    if clock_halt context then
      set_clock_halt_latch
        (rtc_set_latched_second val (clock_halt_latch context) 1) context
    else set_offset (rtc_set_second h val (offset context) 1) context
  else if addr =? PCF8583_REG_HOURS then
    if negb (Z.land val 0x80 =? 0) then
      let context :=
        if clock_halt context then
          set_clock_halt_latch
            (rtc_set_latched_hour_am_pm (Z.land val 0x3f)
               (clock_halt_latch context) 1) context
        else
          set_offset
            (rtc_set_hour_am_pm h (Z.land val 0x3f) (offset context) 1)
            context in
      set_am_pm true context
    else
      let context :=
        if clock_halt context then
          set_clock_halt_latch
            (rtc_set_latched_hour (Z.land val 0x3f)
               (clock_halt_latch context) 1) context
        else
          set_offset (rtc_set_hour h (Z.land val 0x3f) (offset context) 1)
            context in
      set_am_pm false context
  else if addr =? PCF8583_REG_YEARS_MONTH_DAYS then
    if clock_halt context then
      let context :=
        set_clock_halt_latch
          (rtc_set_latched_year (Z.shiftr (Z.land val 0xc0) 6)
             (clock_halt_latch context) 1) context in
      set_clock_halt_latch
        (rtc_set_latched_day_of_month (Z.land val 0x3f)
           (clock_halt_latch context) 1) context
    else
      let context :=
        set_offset
          (rtc_set_year h (Z.shiftr (Z.land val 0xc0) 6) (offset context) 1)
          context in
      set_offset
        (rtc_set_day_of_month h (Z.land val 0x3f) (offset context) 1) context
  else if addr =? PCF8583_REG_WEEK_DAYS_MONTHS then
    if clock_halt context then
      let context :=
        set_clock_halt_latch
          (rtc_set_latched_weekday (Z.shiftr (Z.land val 0xe0) 5 - 1)
             (clock_halt_latch context)) context in
      set_clock_halt_latch
        (rtc_set_latched_month (Z.land val 0x1f) (clock_halt_latch context) 1)
        context
    else
      let context :=
        set_offset
          (rtc_set_weekday h (Z.shiftr (Z.land val 0xe0) 5 - 1)
             (offset context)) context in
      set_offset (rtc_set_month h (Z.land val 0x1f) (offset context) 1)
        context
  else if (PCF8583_REG_ALARM_CONTROL <=? addr)
          && (addr <=? PCF8583_REG_TIMER_ALARM) then
    set_clock_regs (arr_set (clock_regs context) addr val) context
  else
    set_ram (arr_set (ram context) (addr - PCF8583_REG_SIZE) val) context.

(** ** The protocol state machine *)

(** [context->reg |= (context->data_line << (7 - context->bit));
    ++context->bit;], the common start of the three receiving steps. *)
Definition shift_in (context : rtc_pcf8583_t) : rtc_pcf8583_t :=
  let context :=
    set_reg
      (to_byte
         (Z.lor (reg context)
            (Z.shiftl (Z.b2z (data_line context)) (7 - bit context))))
      context in
  set_bit (to_byte (bit context + 1)) context.

Definition pcf8583_next_address_bit (context : rtc_pcf8583_t)
  : rtc_pcf8583_t :=
  let context := shift_in context in
  if bit context =? 8 then
    if reg context =? 0xa0 then set_state PCF8583_ADDRESS_WRITE_ACK context
    else if reg context =? 0xa1 then
      set_state PCF8583_ADDRESS_READ_ACK context
    else set_state PCF8583_IDLE context
  else context.

Definition pcf8583_next_reg_nr_bit (context : rtc_pcf8583_t)
  : rtc_pcf8583_t :=
  let context := shift_in context in
  if bit context =? 8 then
    let context := set_state PCF8583_REG_NR_ACK context in
    set_reg_ptr (reg context) context
  else context.

Definition pcf8583_next_read_bit (context : rtc_pcf8583_t) : rtc_pcf8583_t :=
  let context := set_bit (to_byte (bit context + 1)) context in
  if bit context =? 8 then set_state PCF8583_READ_ACK context else context.

Definition pcf8583_next_write_bit (h : host_clock) (context : rtc_pcf8583_t)
  : rtc_pcf8583_t :=
  let context := shift_in context in
  if bit context =? 8 then
    let context :=
      pcf8583_write_register h context (reg_ptr context) (reg context) in
    let context := set_state PCF8583_WRITE_ACK context in
    set_reg_ptr (to_byte (reg_ptr context + 1)) context
  else context.

Definition pcf8583_validate_read_ack (context : rtc_pcf8583_t)
  : rtc_pcf8583_t :=
  if negb (data_line context) then
    let context := set_state PCF8583_READ_REGS context in
    let context := set_bit 0 context in
    let context := set_reg_ptr (to_byte (reg_ptr context + 1)) context in
    set_reg (pcf8583_read_register context (reg_ptr context)) context
  else set_state PCF8583_IDLE context.

(** The [switch] of [pcf8583_set_clk_line], taken on a falling clock
    edge. [PCF8583_IDLE] has no case label. *)
Definition clk_falling_edge (h : host_clock) (context : rtc_pcf8583_t)
  : rtc_pcf8583_t :=
  match state context with
  | PCF8583_START_WAIT => set_state PCF8583_GET_ADDRESS context
  | PCF8583_GET_ADDRESS => pcf8583_next_address_bit context
  | PCF8583_GET_REG_NR => pcf8583_next_reg_nr_bit context
  | PCF8583_READ_REGS => pcf8583_next_read_bit context
  | PCF8583_WRITE_REGS => pcf8583_next_write_bit h context
  | PCF8583_READ_ACK => pcf8583_validate_read_ack context
  | PCF8583_ADDRESS_READ_ACK =>
      let context := set_state PCF8583_READ_REGS context in
      let context :=
        set_reg (pcf8583_read_register context (reg_ptr context)) context in
      set_bit 0 context
  | PCF8583_REG_NR_ACK | PCF8583_WRITE_ACK =>
      let context := set_state PCF8583_WRITE_REGS context in
      let context := set_reg 0 context in
      set_bit 0 context
  | PCF8583_ADDRESS_WRITE_ACK =>
      let context := set_state PCF8583_GET_REG_NR context in
      let context := set_reg 0 context in
      set_bit 0 context
  | PCF8583_IDLE => context
  end.

Definition pcf8583_set_clk_line (h : host_clock) (context : rtc_pcf8583_t)
    (data : Z) : rtc_pcf8583_t :=
  let val := to_level data in
  if bool_decide (sclk_line context = val) then context
  else
    let context :=
      if negb val then clk_falling_edge h context else context in
    set_sclk_line val context.

Definition pcf8583_set_data_line (h : host_clock) (context : rtc_pcf8583_t)
    (data : Z) : rtc_pcf8583_t :=
  let val := to_level data in
  if bool_decide (data_line context = val) then context
  else
    let context :=
      if sclk_line context then
        if val then set_state PCF8583_IDLE context
        else
          let context := pcf8583_i2c_start h context in
          let context := set_state PCF8583_START_WAIT context in
          let context := set_reg 0 context in
          set_bit 0 context
      else context in
    set_data_line val context.

(** [pcf8583_read_data_line] takes the context by pointer like the other
    entry points: it returns the level it drives and the context it leaves
    behind. *)
Definition pcf8583_read_data_line (context : rtc_pcf8583_t)
  : Z * rtc_pcf8583_t :=
  match state context with
  | PCF8583_READ_REGS =>
      (to_byte
         (Z.shiftr (Z.land (reg context) (Z.shiftl 1 (7 - bit context)))
            (7 - bit context)),
       context)
  | PCF8583_ADDRESS_READ_ACK
  | PCF8583_ADDRESS_WRITE_ACK
  | PCF8583_REG_NR_ACK
  | PCF8583_READ_ACK
  | PCF8583_WRITE_ACK => (0, context)
  | _ => (1, context)
  end.

(** ** Driving the bus *)

(** One call of an entry point that changes a line. *)
Inductive line_event : Set :=
  | SetClk (data : Z)
  | SetData (data : Z).

Definition step (h : host_clock) (e : line_event) (context : rtc_pcf8583_t)
  : rtc_pcf8583_t :=
  match e with
  | SetClk data => pcf8583_set_clk_line h context data
  | SetData data => pcf8583_set_data_line h context data
  end.

(** A sequence of calls; the [n]-th call overall observes the host clock
    [clk n], so host time moves freely between calls. *)
Fixpoint run (clk : nat -> host_clock) (n : nat) (es : list line_event)
    (context : rtc_pcf8583_t) : rtc_pcf8583_t :=
  match es with
  | [] => context
  | e :: es' => run clk (S n) es' (step (clk n) e context)
  end.

End Chip.

(** ** A test double for the backend *)

(** A small UTC calendar with 30-day months, enough to run the chip on
    concrete inputs: BCD fields, the PM flag of the 12-hour encoding in
    bit 5. *)
Definition int_to_bcd (x : Z) : Z := (x / 10) * 16 + x mod 10.
Definition bcd_to_int (x : Z) : Z := (x / 16) * 10 + x mod 16.
Definition enc (bcd x : Z) : Z := if bcd =? 0 then x else int_to_bcd x.
Definition dec (bcd x : Z) : Z := if bcd =? 0 then x else bcd_to_int x.

(** Replace the field of width [w] and period [p] of time value [t]. *)
Definition put_field (w p v t : Z) : Z := t - (t / w mod p) * w + v * w.

Definition hour12 (t : Z) : Z :=
  let hr := t / 3600 mod 24 in
  if hr =? 0 then 12 else if hr <=? 12 then hr else hr - 12.

Definition utc_backend : rtc_backend := {|
  rtc_get_centisecond := fun h bcd => enc bcd (host_usec h / 10000 mod 100);
  rtc_get_second := fun t bcd => enc bcd (t mod 60);
  rtc_get_minute := fun t bcd => enc bcd (t / 60 mod 60);
  rtc_get_hour := fun t bcd => enc bcd (t / 3600 mod 24);
  rtc_get_hour_am_pm := fun t bcd =>
    Z.lor (enc bcd (hour12 t))
      (Z.shiftl (if 12 <=? t / 3600 mod 24 then 1 else 0) 5);
  rtc_get_day_of_month := fun t bcd => enc bcd (t / 86400 mod 30 + 1);
  rtc_get_month := fun t bcd => enc bcd (t / 2592000 mod 12 + 1);
  rtc_get_year := fun t bcd => enc bcd (t / 31104000 mod 100);
  rtc_get_weekday := fun t => (t / 86400 + 4) mod 7;
  rtc_set_second := fun h v o bcd =>
    put_field 1 60 (dec bcd v) (host_time h + o) - host_time h;
  rtc_set_minute := fun h v o bcd =>
    put_field 60 60 (dec bcd v) (host_time h + o) - host_time h;
  rtc_set_hour := fun h v o bcd =>
    put_field 3600 24 (dec bcd v) (host_time h + o) - host_time h;
  rtc_set_hour_am_pm := fun h v o bcd =>
    put_field 3600 24
      (dec bcd (Z.land v 0x1f) mod 12 + (if Z.testbit v 5 then 12 else 0))
      (host_time h + o) - host_time h;
  rtc_set_day_of_month := fun h v o bcd =>
    put_field 86400 30 (dec bcd v - 1) (host_time h + o) - host_time h;
  rtc_set_month := fun h v o bcd =>
    put_field 2592000 12 (dec bcd v - 1) (host_time h + o) - host_time h;
  rtc_set_year := fun h v o bcd =>
    put_field 31104000 100 (dec bcd v) (host_time h + o) - host_time h;
  rtc_set_weekday := fun h v o => o;
  rtc_set_latched_second := fun v t bcd => put_field 1 60 (dec bcd v) t;
  rtc_set_latched_minute := fun v t bcd => put_field 60 60 (dec bcd v) t;
  rtc_set_latched_hour := fun v t bcd => put_field 3600 24 (dec bcd v) t;
  rtc_set_latched_hour_am_pm := fun v t bcd =>
    put_field 3600 24
      (dec bcd (Z.land v 0x1f) mod 12 + (if Z.testbit v 5 then 12 else 0)) t;
  rtc_set_latched_day_of_month := fun v t bcd =>
    put_field 86400 30 (dec bcd v - 1) t;
  rtc_set_latched_month := fun v t bcd =>
    put_field 2592000 12 (dec bcd v - 1) t;
  rtc_set_latched_year := fun v t bcd =>
    put_field 31104000 100 (dec bcd v) t;
  rtc_set_latched_weekday := fun v t => t
|}.

(** A host clock that ticks one second per call, from a Friday evening. *)
Definition ticking (n : nat) : host_clock := mk_host (1000072800 + Z.of_nat n) 0.

(** The context of a chip created without stored data. *)
Definition fresh : rtc_pcf8583_t := pcf8583_init "PCF8583" None.

(** ** Bus transactions *)

(** The eight levels of a byte, most significant first. *)
Definition bits_of_byte (v : Z) : list bool :=
  map (fun k => Z.testbit v (7 - Z.of_nat k)) (seq 0 8).

(** The first seven levels of a byte. *)
Definition bits7_of_byte (v : Z) : list bool :=
  map (fun k => Z.testbit v (7 - Z.of_nat k)) (seq 0 7).

(** The master puts a level on the data line while the clock is low and
    pulses the clock: the chip samples the level on the falling edge. *)
Definition clock_bit (b : bool) : list line_event :=
  [SetData (Z.b2z b); SetClk 1; SetClk 0].

Definition send_bits (bs : list bool) : list line_event :=
  concat (map clock_bit bs).

Definition send_byte (v : Z) : list line_event := send_bits (bits_of_byte v).

(** START with both lines high: the data line falls, then the clock. *)
Definition start_condition : list line_event := [SetData 0; SetClk 0].

(** The ninth clock pulse, during which the chip acknowledges; the master
    leaves the data line at level [d]. *)
Definition ack_pulse (d : bool) : list line_event := clock_bit d.

(** START, address 0xA1, ack: the chip is selected for reading. *)
Definition read_select : list line_event :=
  start_condition ++ send_byte 0xa1 ++ ack_pulse true.

(** The master releases the data line, clocks one byte out of the chip
    and acknowledges it by holding the data line low for the ninth
    pulse. *)
Definition read_byte_acked : list line_event :=
  [SetData 1] ++ concat (replicate 8 [SetClk 1; SetClk 0])
    ++ [SetData 0; SetClk 1; SetClk 0].

(** A write to the last address, 255, stopped with the clock high before
    the falling edge of the eighth data bit. *)
Definition last_address_write_pending : list line_event :=
  start_condition ++ send_byte 0xa0 ++ ack_pulse true ++ send_byte 255
    ++ ack_pulse true ++ send_bits (bits7_of_byte 0x5a)
    ++ [SetData 0; SetClk 1].

(** START, address 0xA0, ack, pointer byte [p], ack, data byte [v], ack. *)
Definition write_transaction (p v : Z) (d1 d2 d3 : bool) : list line_event :=
  start_condition ++ send_byte 0xa0 ++ ack_pulse d1
    ++ send_byte p ++ ack_pulse d2 ++ send_byte v ++ ack_pulse d3.

(** ** Predicates on contexts and runs *)

(** The five buffers have the sizes [pcf8583_init] gives them. *)
Definition buffers_sized (c : rtc_pcf8583_t) : Prop :=
  length (ram c) = Z.to_nat PCF8583_RAM_SIZE
  /\ length (old_ram c) = Z.to_nat PCF8583_RAM_SIZE
  /\ length (clock_regs c) = Z.to_nat PCF8583_REG_SIZE
  /\ length (old_clock_regs c) = Z.to_nat PCF8583_REG_SIZE
  /\ length (clock_regs_for_read c) = Z.to_nat PCF8583_REG_SIZE.

(** The states in which a byte is being shifted in or out. *)
Definition shifting (s : pcf8583_state) : bool :=
  match s with
  | PCF8583_START_WAIT | PCF8583_GET_ADDRESS | PCF8583_GET_REG_NR
  | PCF8583_READ_REGS | PCF8583_WRITE_REGS => true
  | _ => false
  end.

(** What every call preserves: buffer sizes, a pointer that is a BYTE,
    and a bit count below 8 while a byte is in flight. *)
Definition chip_inv (c : rtc_pcf8583_t) : Prop :=
  buffers_sized c
  /\ is_byte (reg_ptr c)
  /\ is_byte (bit c)
  /\ (shifting (state c) = true -> bit c <= 7).

(** The load result has the sizes [rtc_load_context] was asked for. *)
Definition loaded_sized (loaded : option rtc_loaded) : Prop :=
  match loaded with
  | Some l => length (loaded_ram l) = Z.to_nat PCF8583_RAM_SIZE
              /\ length (loaded_clockregs l) = Z.to_nat PCF8583_REG_SIZE
  | None => True
  end.

(** The contexts a chip can be in: created by [pcf8583_init], then driven
    through the two line setters at any host times. *)
Inductive reachable {B : rtc_backend} : rtc_pcf8583_t -> Prop :=
  | reach_init dev loaded :
      loaded_sized loaded -> reachable (pcf8583_init dev loaded)
  | reach_step h e c :
      reachable c -> reachable (step h e c).

(** The call [e] made in context [c] is a START condition: the data line
    falls while the clock line is high. *)
Definition is_start (c : rtc_pcf8583_t) (e : line_event) : bool :=
  match e with
  | SetData data => sclk_line c && data_line c && negb (to_level data)
  | SetClk _ => false
  end.

(** The call [e] made in context [c] is a STOP condition: the data line
    rises while the clock line is high. *)
Definition is_stop (c : rtc_pcf8583_t) (e : line_event) : bool :=
  match e with
  | SetData data => sclk_line c && negb (data_line c) && to_level data
  | SetClk _ => false
  end.

(** The call [e] made in context [c] commits a data byte: a falling clock
    edge that shifts the eighth bit in while in [PCF8583_WRITE_REGS]. *)
Definition is_commit (c : rtc_pcf8583_t) (e : line_event) : bool :=
  match e with
  | SetClk data =>
      sclk_line c && negb (to_level data)
      && bool_decide (state c = PCF8583_WRITE_REGS)
      && (to_byte (bit c + 1) =? 8)
  | SetData _ => false
  end.

(** No call of the run satisfies [p] in the context it is made in. *)
Fixpoint never {B : rtc_backend}
    (p : rtc_pcf8583_t -> line_event -> bool) (clk : nat -> host_clock)
    (n : nat) (es : list line_event) (c : rtc_pcf8583_t) : bool :=
  match es with
  | [] => true
  | e :: es' => negb (p c e) && never p clk (S n) es' (step (clk n) e c)
  end.

(** The time the chip shows at host clock [h]: the time value a START
    made then would encode. *)
Definition virtual_time (h : host_clock) (c : rtc_pcf8583_t) : Z :=
  start_latch h c.

(** A register write that touches no time field and does not resume the
    clock: not one of registers 2-6, and on the control register only with
    the halt bit set. *)
Definition keeps_halt (w : host_clock * Z * Z) : bool :=
  let '(_, addr, val) := w in
  if addr =? PCF8583_REG_CONTROL then negb (Z.land val 0x80 =? 0)
  else negb ((PCF8583_REG_SECONDS <=? addr)
             && (addr <=? PCF8583_REG_WEEK_DAYS_MONTHS)).

(** A sequence of register writes, each at its own host time. *)
Definition write_registers {B : rtc_backend}
    (ws : list (host_clock * Z * Z)) (c : rtc_pcf8583_t) : rtc_pcf8583_t :=
  foldl (fun c w => let '(h, addr, val) := w in
                    pcf8583_write_register h c addr val) c ws.

(** The value stored at address [addr]: a stored register below 16, a RAM
    cell from 16 on. *)
Definition stored_at (c : rtc_pcf8583_t) (addr : Z) : Z :=
  if addr <? PCF8583_REG_SIZE then arr_get (clock_regs c) addr
  else arr_get (ram c) (addr - PCF8583_REG_SIZE).

(** The array cell [pcf8583_read_register] or the default case and the
    alarm cases of [pcf8583_write_register] index at address [addr]. *)
Definition cell_in_bounds (c : rtc_pcf8583_t) (addr : Z) : Prop :=
  if addr <? PCF8583_REG_SIZE then
    in_bounds (clock_regs_for_read c) addr /\ in_bounds (clock_regs c) addr
  else in_bounds (ram c) (addr - PCF8583_REG_SIZE).


(** The states that shift the data line into [reg]. *)
Definition receiving (s : pcf8583_state) : bool :=
  match s with
  | PCF8583_GET_ADDRESS | PCF8583_GET_REG_NR | PCF8583_WRITE_REGS => true
  | _ => false
  end.

(** [reg] after the levels [bs] are shifted in from bit count [k]. *)
Fixpoint shift_bits (r k : Z) (bs : list bool) : Z :=
  match bs with
  | [] => r
  | b :: bs' =>
      shift_bits (to_byte (Z.lor r (Z.shiftl (Z.b2z b) (7 - k)))) (k + 1) bs'
  end.

(** Context [c] with the six fields of the bus state replaced: what the
    protocol decoder owns, as opposed to the register bank. *)
Definition with_bus (st : pcf8583_state) (r rp k : Z) (cl dl : bool)
    (c : rtc_pcf8583_t) : rtc_pcf8583_t :=
  mk_rtc_pcf8583 (clock_halt c) (clock_halt_latch c) (am_pm c) (offset c)
    (old_offset c) (clock_regs c) (old_clock_regs c) (clock_regs_for_read c)
    (ram c) (old_ram c) st r rp k cl dl (device c).

(** The call [e] made in context [c] takes one of the abort paths of the
    protocol: a STOP condition, the eighth bit of an address byte that is
    neither 0xA0 nor 0xA1, or a nack after a byte was read. *)
Definition is_abort (c : rtc_pcf8583_t) (e : line_event) : bool :=
  match e with
  | SetData _ => is_stop c e
  | SetClk data =>
      sclk_line c && negb (to_level data)
      && match state c with
         | PCF8583_GET_ADDRESS =>
             (bit (shift_in c) =? 8)
             && negb (reg (shift_in c) =? 0xa0)
             && negb (reg (shift_in c) =? 0xa1)
         | PCF8583_READ_ACK => data_line c
         | _ => false
         end
  end.

(** The register bank as the bus master can change it. *)
Definition bank (c : rtc_pcf8583_t)
  : list Z * list Z * Z * bool * Z * bool :=
  (ram c, clock_regs c, offset c, clock_halt c, clock_halt_latch c, am_pm c).

(** ** More bus traffic *)

(** STOP: with the clock low the data line goes low, the clock rises, and
    the data line rises while the clock is high. *)
Definition stop_condition : list line_event :=
  [SetData 0; SetClk 1; SetData 1].

(** With the clock low the master lets both lines go high, ready for a
    repeated START. *)
Definition bus_release : list line_event := [SetData 1; SetClk 1].

(** START, address 0xA0, ack, pointer byte [p], ack: the register
    pointer is set and the chip waits for data bytes. *)
Definition set_pointer (p : Z) (d1 d2 : bool) : list line_event :=
  start_condition ++ send_byte 0xa0 ++ ack_pulse d1
    ++ send_byte p ++ ack_pulse d2.

(** Data bytes, each followed by the acknowledge pulse with the master
    holding the data line at [d]. *)
Definition send_bytes (vs : list Z) (d : bool) : list line_event :=
  concat (map (fun v => send_byte v ++ ack_pulse d) vs).

(** The master acknowledges a byte it read: data line low across the
    ninth pulse, then released. *)
Definition master_ack : list line_event :=
  [SetData 0; SetClk 1; SetClk 0; SetData 1].

(** The master refuses further bytes: data line high across the ninth
    pulse. *)
Definition master_nack : list line_event := [SetData 1; SetClk 1; SetClk 0].

Section Reading.

Context {B : rtc_backend}.

(** The master clocks [k] bits out of the chip: it raises the clock,
    samples [pcf8583_read_data_line], lowers the clock. The result is the
    levels sampled and the context left. Call number [n] is the first. *)
Fixpoint clock_in (clk : nat -> host_clock) (n k : nat) (c : rtc_pcf8583_t)
  : list Z * rtc_pcf8583_t :=
  match k with
  | O => ([], c)
  | S k' =>
      let c1 := step (clk n) (SetClk 1) c in
      let '(d, c2) := pcf8583_read_data_line c1 in
      let c3 := step (clk (S n)) (SetClk 0) c2 in
      let '(ds, c4) := clock_in clk (S (S n)) k' c3 in
      (d :: ds, c4)
  end.

(** The master reads [m] bytes and acknowledges each. *)
Fixpoint read_burst (clk : nat -> host_clock) (n m : nat) (c : rtc_pcf8583_t)
  : list (list Z) * rtc_pcf8583_t :=
  match m with
  | O => ([], c)
  | S m' =>
      let '(ds, c1) := clock_in clk n 8 c in
      let c2 := run clk (n + 16) master_ack c1 in
      let '(bytes, c3) := read_burst clk (n + 20) m' c2 in
      (ds :: bytes, c3)
  end.

(** The register bank after the data bytes [vs] of a burst were committed
    from pointer [rp] on; the byte that starts at call [n] is committed by
    call [n + 23], and the next byte starts 27 calls later. *)
Fixpoint burst_bank (clk : nat -> host_clock) (n : nat) (rp : Z)
    (vs : list Z) (X : rtc_pcf8583_t) : rtc_pcf8583_t :=
  match vs with
  | [] => X
  | v :: vs' =>
      burst_bank clk (n + 27) (to_byte (rp + 1)) vs'
        (pcf8583_write_register (clk (n + 23)%nat) X rp v)
  end.

End Reading.

(** The levels of a byte as the data line read returns them. *)
Definition levels_of_byte (v : Z) : list Z := map Z.b2z (bits_of_byte v).

(** An address whose cell a register write stores the byte in: the
    control register, the alarm registers and the RAM. *)
Definition plain_address (addr : Z) : Prop :=
  addr = PCF8583_REG_CONTROL
  \/ PCF8583_REG_ALARM_CONTROL <= addr < PCF8583_REG_SIZE + PCF8583_RAM_SIZE.

(** * The libretro video glue

    [src/vice/src/arch/libretro/video.c]. Most of its functions are empty
    or return a constant; the two that do something set up a canvas and
    hand its palette to the renderer. The renderer is external: the calls
    made to it are the result, in order. *)

Module Video.

(** [unsigned int] is 32 bits wide. *)
Definition to_u32 (x : Z) : Z := x mod 2 ^ 32.

(** Modelled from the spec: palette.h and video.h are not part of the
    sources. A palette entry has its three colour channels; a palette is
    its entries, [num_entries] being their number; a canvas has the
    fields video.c uses, [rendermode] standing for
    [canvas->videoconfig->rendermode], and a NULL palette is [None]. *)
Record palette_entry_t : Type := mk_palette_entry {
  red : Z;
  green : Z;
  blue : Z
}.

Record video_canvas_t : Type := mk_video_canvas {
  rendermode : Z;
  depth : Z;
  palette : option (list palette_entry_t)
}.

(** One call into the renderer. *)
Inductive render_call : Type :=
  | video_render_setphysicalcolor (index col depth : Z)
  | video_render_setrawrgb (index r g b : Z)
  | video_render_initraw.

Section Arch.

(** [pix_bytes], the macro [RGB565] (libretro-core.h) and the constant
    [VIDEO_RENDER_RGB_1X1] (video.h) are declared outside the sources. *)
Variable pix_bytes : Z.
Variable RGB565 : Z -> Z -> Z -> Z.
Variable VIDEO_RENDER_RGB_1X1 : Z.

(** [col] for one palette entry (lines 124-127). *)
Definition physical_color (e : palette_entry_t) : Z :=
  if pix_bytes =? 2 then to_u32 (RGB565 (red e) (green e) (blue e))
  else
    to_u32
      (Z.lor (Z.lor (Z.shiftl (red e) 16) (Z.shiftl (green e) 8)) (blue e)).

(** The call of the second loop for index [i] (lines 132-135). *)
Definition raw_rgb_call (i : Z) : render_call :=
  if pix_bytes =? 2 then
    video_render_setrawrgb i (RGB565 i 0 0) (RGB565 0 i 0) (RGB565 0 0 i)
  else video_render_setrawrgb i i i i.

(** [video_canvas_set_palette]: the return value, the canvas and the
    renderer calls. *)
Definition video_canvas_set_palette (canvas : video_canvas_t)
    (pal : option (list palette_entry_t))
  : Z * video_canvas_t * list render_call :=
  match pal with
  | None => (0, canvas, [])
  | Some entries =>
      let canvas := mk_video_canvas (rendermode canvas) (depth canvas)
                      (Some entries) in
      (0, canvas,
       imap (fun i e =>
               video_render_setphysicalcolor (Z.of_nat i) (physical_color e)
                 (depth canvas)) entries
         ++ map raw_rgb_call (seqZ 0 256)
         ++ [video_render_initraw])
  end.

(** [video_canvas_create]: the canvas returned and the renderer calls.
    The width, height and mapped arguments are not used. *)
Definition video_canvas_create (canvas : video_canvas_t)
  : video_canvas_t * list render_call :=
  let canvas := mk_video_canvas VIDEO_RENDER_RGB_1X1 (depth canvas)
                  (palette canvas) in
  let canvas := mk_video_canvas (rendermode canvas) (8 * pix_bytes)
                  (palette canvas) in
  let '(_, canvas, calls) :=
    video_canvas_set_palette canvas (palette canvas) in
  (canvas, calls).

End Arch.

End Video.
(** * Properties *)

(** ** Bytes and bits *)

Lemma to_byte_range x : is_byte (to_byte x).
Proof. unfold is_byte, to_byte. apply Z.mod_pos_bound. lia. Qed.

Lemma to_byte_id x : is_byte x -> to_byte x = x.
Proof. unfold is_byte, to_byte. intros Hx. apply Z.mod_small. exact Hx. Qed.

Lemma to_byte_testbit x k :
  0 <= k < 8 -> Z.testbit (to_byte x) k = Z.testbit x k.
Proof.
  intros Hk. unfold to_byte. change 256 with (2 ^ 8).
  apply Z.mod_pow2_bits_low. lia.
Qed.

(** Testing a value against a one-bit mask is testing that bit. *)
Lemma land_pow2_eqb x k :
  0 <= k -> (Z.land x (2 ^ k) =? 0) = negb (Z.testbit x k).
Proof.
  intros Hk.
  assert (Hbit : Z.land x (2 ^ k) = Z.b2z (Z.testbit x k) * 2 ^ k).
  { apply Z.bits_inj'. intros n Hn.
    rewrite Z.land_spec, Z.pow2_bits_eqb by lia.
    destruct (Z.eqb_spec k n) as [->|Hne].
    - rewrite andb_true_r. destruct (Z.testbit x n) eqn:E; cbn [Z.b2z].
      + rewrite Z.mul_1_l, Z.pow2_bits_true by lia. reflexivity.
      + rewrite Z.mul_0_l, Z.bits_0. reflexivity.
    - rewrite andb_false_r. destruct (Z.testbit x k); cbn [Z.b2z].
      + rewrite Z.mul_1_l, Z.pow2_bits_false by lia. reflexivity.
      + rewrite Z.mul_0_l, Z.bits_0. reflexivity. }
  rewrite Hbit. pose proof (Z.pow_pos_nonneg 2 k ltac:(lia) Hk).
  destruct (Z.testbit x k); cbn [Z.b2z negb]; apply Z.eqb_neq || apply Z.eqb_eq;
    lia.
Qed.

(** ** Arrays *)

Lemma length_arr_set a i v : length (arr_set a i v) = length a.
Proof. unfold arr_set. destruct (i <? 0); [reflexivity | apply length_insert]. Qed.

Lemma arr_get_set_eq a i v :
  in_bounds a i -> arr_get (arr_set a i v) i = v.
Proof.
  unfold in_bounds, arr_get, arr_set. intros Hi.
  destruct (Z.ltb_spec i 0) as [Hneg|_]; [lia|].
  rewrite list_lookup_insert_eq by lia. reflexivity.
Qed.

Lemma arr_get_set_ne a i j v :
  i <> j -> arr_get (arr_set a i v) j = arr_get a j.
Proof.
  unfold arr_get, arr_set. intros Hne.
  destruct (Z.ltb_spec j 0) as [Hj|Hj]; [reflexivity|].
  destruct (Z.ltb_spec i 0) as [Hi|Hi]; [reflexivity|].
  rewrite list_lookup_insert_ne by lia. reflexivity.
Qed.

Lemma in_bounds_arr_set a i v j : in_bounds (arr_set a i v) j <-> in_bounds a j.
Proof. unfold in_bounds. rewrite length_arr_set. reflexivity. Qed.

Lemma memcmp_refl a n : memcmp a a n = 0.
Proof.
  revert a. induction n as [|n IH]; intros [|x a]; cbn; try reflexivity.
  rewrite Z.eqb_refl. apply IH.
Qed.

Lemma memcmp_take a b n : memcmp a (take n b) n = memcmp a b n.
Proof.
  revert a b. induction n as [|n IH]; intros [|x a] [|y b]; cbn;
    try reflexivity.
  rewrite IH. reflexivity.
Qed.

(** On two arrays of [n] bytes, [memcmp] is zero exactly when they are
    equal. *)
Lemma memcmp_zero_iff a b n :
  length a = n -> length b = n -> memcmp a b n = 0 <-> a = b.
Proof.
  revert a b. induction n as [|n IH]; intros [|x a] [|y b] Ha Hb;
    cbn in *; try discriminate; [tauto|].
  destruct (Z.eqb_spec x y) as [->|Hne].
  - rewrite IH by lia. split; [intros ->; reflexivity | congruence].
  - split; [lia | congruence].
Qed.

(** ** Assignments *)

Lemma set_data_line_same c : set_data_line (data_line c) c = c.
Proof. destruct c; reflexivity. Qed.

Lemma set_sclk_line_same c : set_sclk_line (sclk_line c) c = c.
Proof. destruct c; reflexivity. Qed.

Lemma to_level_b2z b : to_level (Z.b2z b) = b.
Proof. destruct b; reflexivity. Qed.

(** ** Ignored registers and the data line read *)

(** C9: a write to register 1 (hundredths of a second) or register 7
    (timer days) returns the context it was given: every field, and so every
    register, RAM cell, the offset, the halt latch and the flags, is
    unchanged, whatever the state and the byte. *)
Theorem write_register_ignored_fields {B : rtc_backend} h c val :
  pcf8583_write_register h c PCF8583_REG_100TH_SECONDS val = c
  /\ pcf8583_write_register h c PCF8583_REG_TIMER_DAYS val = c.
Proof. split; reflexivity. Qed.

(** C10: reading the data line leaves the context as it was, and a second
    read with no line change in between returns the same level. *)
Theorem read_data_line_pure c :
  snd (pcf8583_read_data_line c) = c
  /\ fst (pcf8583_read_data_line (snd (pcf8583_read_data_line c)))
     = fst (pcf8583_read_data_line c).
Proof.
  assert (Hsnd : snd (pcf8583_read_data_line c) = c).
  { unfold pcf8583_read_data_line. destruct (state c); reflexivity. }
  split; [exact Hsnd | rewrite Hsnd; reflexivity].
Qed.

(** ** Persistence on destruction *)

Lemma init_buffers_sized dev loaded :
  loaded_sized loaded -> buffers_sized (pcf8583_init dev loaded).
Proof.
  unfold buffers_sized, pcf8583_init, memcpy, lib_calloc.
  destruct loaded as [l|]; cbn.
  - intros [Hram Hregs]. rewrite !length_take, Hram, Hregs.
    repeat split; reflexivity.
  - intros _. repeat split; reflexivity.
Qed.

(** C8: with saving requested, [pcf8583_destroy] calls [rtc_save_context]
    (with the current RAM, registers, device name and offset) when the RAM,
    the stored registers or the offset differ from the baseline; when all
    three equal the baseline, or saving is not requested, it makes no
    call. *)
Theorem destroy_saves_iff_changed c save :
  buffers_sized c ->
  (save <> 0
   /\ (ram c <> old_ram c \/ clock_regs c <> old_clock_regs c
       \/ offset c <> old_offset c) ->
   pcf8583_destroy c save
   = Some (mk_save (ram c) PCF8583_RAM_SIZE (clock_regs c) PCF8583_REG_SIZE
             (device c) (offset c)))
  /\ (save = 0
      \/ (ram c = old_ram c /\ clock_regs c = old_clock_regs c
          /\ offset c = old_offset c) ->
      pcf8583_destroy c save = None).
Proof.
  intros (Hram & Hold_ram & Hregs & Hold_regs & _).
  pose proof (memcmp_zero_iff (ram c) (old_ram c) _ Hram Hold_ram) as Mram.
  pose proof (memcmp_zero_iff (clock_regs c) (old_clock_regs c) _
                Hregs Hold_regs) as Mregs.
  unfold pcf8583_destroy.
  destruct (Z.eqb_spec save 0) as [Hs|Hs]; cbn [negb].
  - split; [intros [Hne _]; contradiction | reflexivity].
  - destruct (Z.eqb_spec (memcmp (ram c) (old_ram c)
                            (Z.to_nat PCF8583_RAM_SIZE)) 0) as [E1|E1];
      destruct (Z.eqb_spec (memcmp (clock_regs c) (old_clock_regs c)
                              (Z.to_nat PCF8583_REG_SIZE)) 0) as [E2|E2];
      destruct (Z.eqb_spec (offset c) (old_offset c)) as [E3|E3];
      cbn [negb orb]; (split; intros Hcase); try reflexivity; exfalso;
      tauto.
Qed.

Lemma destroy_saves_iff_changed_witness :
  pcf8583_destroy (set_offset 5 fresh) 1
  = Some (mk_save (ram fresh) PCF8583_RAM_SIZE (clock_regs fresh)
            PCF8583_REG_SIZE "PCF8583" 5)
  /\ pcf8583_destroy fresh 1 = None.
Proof.
  split.
  - apply (destroy_saves_iff_changed (set_offset 5 fresh) 1).
    + repeat split; reflexivity.
    + split; [lia | right; right; cbn; lia].
  - apply (destroy_saves_iff_changed fresh 1).
    + repeat split; reflexivity.
    + right. repeat split; reflexivity.
Defined.

Lemma destroy_unmodified_skips_save dev loaded save :
  pcf8583_destroy (pcf8583_init dev loaded) save = None.
Proof.
  unfold pcf8583_destroy, pcf8583_init, memcpy; cbn.
  rewrite !memcmp_take, !memcmp_refl. cbn.
  destruct (save =? 0); cbn; [reflexivity|].
  rewrite Z.eqb_refl. reflexivity.
Qed.

(** ** Halting and resuming the clock *)

Section TimeModel.

Context {B : rtc_backend}.

(** While halted, a write that keeps the halt leaves the latch, the
    offset and the flag alone. *)
Lemma write_register_keeps_halt w c :
  clock_halt c = true -> keeps_halt w = true ->
  let '(h, addr, val) := w in
  let c' := pcf8583_write_register h c addr val in
  clock_halt c' = true
  /\ clock_halt_latch c' = clock_halt_latch c
  /\ offset c' = offset c.
Proof.
  destruct w as [[h addr] val]. intros Hhalt Hkeep.
  unfold keeps_halt in Hkeep. unfold pcf8583_write_register.
  unfold PCF8583_REG_MINUTES, PCF8583_REG_CONTROL, PCF8583_REG_SECONDS,
    PCF8583_REG_HOURS, PCF8583_REG_YEARS_MONTH_DAYS,
    PCF8583_REG_WEEK_DAYS_MONTHS, PCF8583_REG_100TH_SECONDS,
    PCF8583_REG_TIMER_DAYS, PCF8583_REG_ALARM_CONTROL,
    PCF8583_REG_TIMER_ALARM in *.
  destruct (Z.eqb_spec addr 0) as [->|H0].
  - cbn [Z.eqb]. rewrite Hhalt.
    destruct (Z.land val 128 =? 0); [discriminate|]. cbn. auto.
  - apply negb_true_iff, andb_false_iff in Hkeep.
    rewrite Z.leb_gt, Z.leb_gt in Hkeep.
    repeat match goal with
           | |- context [?a =? ?b] =>
               destruct (Z.eqb_spec a b); [lia|]
           end.
    cbn [orb].
    repeat match goal with
           | |- context [if ?b then _ else _] => destruct b
           end; cbn; auto.
Qed.

Lemma write_registers_keep_halt ws c :
  clock_halt c = true -> forallb keeps_halt ws = true ->
  let c' := write_registers ws c in
  clock_halt c' = true
  /\ clock_halt_latch c' = clock_halt_latch c
  /\ offset c' = offset c.
Proof.
  revert c. induction ws as [|w ws IH]; intros c Hhalt Hall; cbn in *.
  - auto.
  - apply andb_true_iff in Hall as [Hw Hws].
    pose proof (write_register_keeps_halt w c Hhalt Hw) as Hstep.
    destruct w as [[h addr] val]. destruct Hstep as (H1 & H2 & H3).
    specialize (IH _ H1 Hws). cbn in IH. unfold write_registers in IH.
    rewrite H2, H3 in IH. exact IH.
Qed.

(** C3: from a running clock, a control write with bit 7 set halts it;
    after any host-time advance and any writes that touch no time field,
    a control write with bit 7 clear sets the offset to
    offset - (now(0) - (halt_latch - offset_before_halt)), and the time
    shown right after the resume is the time shown when the clock was
    halted. *)
Theorem halt_resume_round_trip h1 h2 c v1 v2 ws :
  clock_halt c = false ->
  Z.land v1 0x80 <> 0 ->
  Z.land v2 0x80 = 0 ->
  forallb keeps_halt ws = true ->
  let c1 := pcf8583_write_register h1 c PCF8583_REG_CONTROL v1 in
  let c2 := write_registers ws c1 in
  let c3 := pcf8583_write_register h2 c2 PCF8583_REG_CONTROL v2 in
  clock_halt c1 = true
  /\ clock_halt_latch c1 = rtc_get_latch h1 (offset c)
  /\ clock_halt c3 = false
  /\ offset c3
     = offset c2 - (rtc_get_latch h2 0 - (clock_halt_latch c2 - offset c))
  /\ virtual_time h2 c3 = virtual_time h1 c.
Proof.
  intros Hrun Hv1 Hv2 Hws c1 c2 c3.
  assert (Hc1 : clock_halt c1 = true
                /\ clock_halt_latch c1 = rtc_get_latch h1 (offset c)
                /\ offset c1 = offset c).
  { subst c1. unfold pcf8583_write_register. cbn [Z.eqb PCF8583_REG_MINUTES
      PCF8583_REG_CONTROL]. rewrite Hrun.
    destruct (Z.eqb_spec (Z.land v1 128) 0) as [E|_]; [contradiction|].
    cbn. auto. }
  destruct Hc1 as (Hh1 & Hl1 & Ho1).
  destruct (write_registers_keep_halt ws c1 Hh1 Hws) as (Hh2 & Hl2 & Ho2).
  fold c2 in Hh2, Hl2, Ho2.
  assert (Hc3 : clock_halt c3 = false
                /\ offset c3
                   = offset c2
                     - (rtc_get_latch h2 0
                        - (clock_halt_latch c2 - offset c2))).
  { subst c3. unfold pcf8583_write_register. cbn [Z.eqb PCF8583_REG_MINUTES
      PCF8583_REG_CONTROL]. rewrite Hh2. change 128 with 0x80 in *.
    rewrite Hv2. cbn. auto. }
  destruct Hc3 as (Hh3 & Ho3).
  repeat split; try assumption.
  - rewrite Ho3, Ho2, Ho1. reflexivity.
  - unfold virtual_time, start_latch. rewrite Hh3, Hrun, Ho3, Hl2, Hl1, Ho2, Ho1.
    unfold rtc_get_latch. lia.
Qed.

End TimeModel.

Lemma halt_resume_round_trip_witness :
  let c1 := pcf8583_write_register (B:=utc_backend) (ticking 0) fresh 0 0x80 in
  let c2 := write_registers (B:=utc_backend) [(ticking 5, 20, 7)] c1 in
  let c3 := pcf8583_write_register (B:=utc_backend) (ticking 900) c2 0 0 in
  clock_halt c1 = true
  /\ clock_halt_latch c1 = rtc_get_latch (ticking 0) (offset fresh)
  /\ clock_halt c3 = false
  /\ offset c3
     = offset c2
       - (rtc_get_latch (ticking 900) 0 - (clock_halt_latch c2 - offset fresh))
  /\ virtual_time (ticking 900) c3 = virtual_time (ticking 0) fresh.
Proof.
  apply (halt_resume_round_trip (B:=utc_backend) (ticking 0) (ticking 900)
           fresh 0x80 0 [(ticking 5, 20, 7)]).
  - reflexivity.
  - vm_compute. discriminate.
  - reflexivity.
  - reflexivity.
Defined.

(** ** The read snapshot *)

Section Snapshot.

Context {B : rtc_backend}.

(** The sixteen bytes a START leaves in the snapshot. *)
Lemma i2c_start_snapshot h c :
  length (clock_regs_for_read c) = Z.to_nat PCF8583_REG_SIZE ->
  clock_regs_for_read (pcf8583_i2c_start h c)
  = [ arr_get (clock_regs c) PCF8583_REG_CONTROL;
      to_byte (rtc_get_centisecond h 1);
      to_byte (rtc_get_second (start_latch h c) 1);
      to_byte (rtc_get_minute (start_latch h c) 1);
      start_hours (start_latch h c) c;
      start_years_month_days (start_latch h c);
      start_week_days_months (start_latch h c);
      0;
      arr_get (clock_regs c) PCF8583_REG_ALARM_CONTROL;
      arr_get (clock_regs c) PCF8583_REG_100TH_SECONDS_ALARM;
      arr_get (clock_regs c) PCF8583_REG_SECONDS_ALARM;
      arr_get (clock_regs c) PCF8583_REG_MINUTES_ALARM;
      arr_get (clock_regs c) PCF8583_REG_HOURS_ALARM;
      arr_get (clock_regs c) PCF8583_REG_DATE_ALARM;
      arr_get (clock_regs c) PCF8583_REG_MONTH_ALARM;
      arr_get (clock_regs c) PCF8583_REG_TIMER_ALARM ].
Proof.
  intros Hlen. unfold pcf8583_i2c_start.
  destruct (clock_regs_for_read c) as [|x l]; [discriminate|].
  do 15 (destruct l as [|? l]; [discriminate|]).
  destruct l; [|discriminate]. reflexivity.
Qed.

(** A START changes the snapshot and nothing else. *)
Lemma i2c_start_frame h c :
  pcf8583_i2c_start h c
  = set_clock_regs_for_read
      (clock_regs_for_read (pcf8583_i2c_start h c)) c.
Proof. reflexivity. Qed.

(** The hours byte in 12-hour mode: the mode bit is set, and a raw bit 5
    moves to bit 6. *)
Lemma start_hours_12h latch c :
  am_pm c = true ->
  Z.testbit (start_hours latch c) 7 = true
  /\ (Z.testbit (rtc_get_hour_am_pm latch 1) 5 = true ->
      Z.testbit (start_hours latch c) 5 = false
      /\ Z.testbit (start_hours latch c) 6 = true).
Proof.
  intros Ham. unfold start_hours. rewrite Ham. cbn [Z.b2z].
  change (to_byte (Z.shiftl 1 7)) with 128.
  set (raw := rtc_get_hour_am_pm latch 1).
  set (tmp := to_byte (Z.lor 128 raw)).
  assert (Htmp : forall k, 0 <= k < 8 ->
                   Z.testbit tmp k = Z.testbit 128 k || Z.testbit raw k).
  { intros k Hk. unfold tmp. rewrite to_byte_testbit, Z.lor_spec by lia.
    reflexivity. }
  change 0x20 with (2 ^ 5). rewrite land_pow2_eqb, negb_involutive by lia.
  rewrite (Htmp 5) by lia. change (Z.testbit 128 5) with false. cbn [orb].
  destruct (Z.testbit raw 5) eqn:Hraw.
  - rewrite !to_byte_testbit, !Z.lor_spec, !to_byte_testbit, !Z.land_spec,
      !Htmp by lia.
    rewrite Hraw. change (Z.testbit 64 6) with true.
    repeat split; try reflexivity. apply orb_true_r.
  - rewrite (Htmp 7) by lia. split; [reflexivity | discriminate].
Qed.

End Snapshot.

Ltac unfold_regs :=
  unfold PCF8583_REG_MINUTES, PCF8583_REG_CONTROL, PCF8583_REG_SECONDS,
    PCF8583_REG_HOURS, PCF8583_REG_YEARS_MONTH_DAYS,
    PCF8583_REG_WEEK_DAYS_MONTHS, PCF8583_REG_100TH_SECONDS,
    PCF8583_REG_TIMER_DAYS, PCF8583_REG_ALARM_CONTROL,
    PCF8583_REG_TIMER_ALARM, PCF8583_REG_SIZE, PCF8583_RAM_SIZE in *.

(** ** Single calls *)

Section Protocol.

Context {B : rtc_backend}.

Lemma run_app clk n es1 es2 c :
  run clk n (es1 ++ es2) c = run clk (n + length es1) es2 (run clk n es1 c).
Proof.
  revert n c. induction es1 as [|e es1 IH]; intros n c; cbn [app run length].
  - rewrite Nat.add_0_r. reflexivity.
  - rewrite IH. f_equal. lia.
Qed.

(** With the clock low the data line just takes the level. *)
Lemma set_data_line_low h c data :
  sclk_line c = false ->
  pcf8583_set_data_line h c data = set_data_line (to_level data) c.
Proof.
  intros Hclk. unfold pcf8583_set_data_line. rewrite Hclk.
  case_bool_decide as Hsame; [|reflexivity].
  rewrite <- Hsame. symmetry. apply set_data_line_same.
Qed.

(** A rising clock edge changes the clock line alone. *)
Lemma set_clk_line_rise h c data :
  to_level data = true ->
  pcf8583_set_clk_line h c data = set_sclk_line true c.
Proof.
  intros Hval. unfold pcf8583_set_clk_line. rewrite Hval. cbn [negb].
  case_bool_decide as Hsame; [|reflexivity].
  rewrite <- Hsame. symmetry. apply set_sclk_line_same.
Qed.

(** A falling clock edge runs the switch. *)
Lemma set_clk_line_fall h c data :
  sclk_line c = true -> to_level data = false ->
  pcf8583_set_clk_line h c data = set_sclk_line false (clk_falling_edge h c).
Proof.
  intros Hclk Hval. unfold pcf8583_set_clk_line. rewrite Hval, Hclk.
  case_bool_decide; [discriminate | reflexivity].
Qed.

(** A START condition: the data line falls while the clock is high. *)
Lemma set_data_line_start h c data :
  sclk_line c = true -> data_line c = true -> to_level data = false ->
  pcf8583_set_data_line h c data
  = set_data_line false
      (set_bit 0 (set_reg 0 (set_state PCF8583_START_WAIT
                               (pcf8583_i2c_start h c)))).
Proof.
  intros Hclk Hdata Hval. unfold pcf8583_set_data_line.
  rewrite Hval, Hclk, Hdata. case_bool_decide; [discriminate | reflexivity].
Qed.

(** One bit cell: level, clock up, clock down. *)
Lemma run_clock_bit clk n b c :
  sclk_line c = false ->
  run clk n (clock_bit b) c
  = set_sclk_line false
      (clk_falling_edge (clk (S (S n)))
         (set_sclk_line true (set_data_line b c))).
Proof.
  intros Hclk. unfold clock_bit. cbn [run step].
  rewrite set_data_line_low, to_level_b2z by exact Hclk.
  rewrite (set_clk_line_rise _ _ 1) by reflexivity.
  rewrite (set_clk_line_fall _ _ 0) by reflexivity. reflexivity.
Qed.

(** ** What a register write leaves alone *)

Lemma write_register_frame h c addr val :
  let c' := pcf8583_write_register h c addr val in
  clock_regs_for_read c' = clock_regs_for_read c
  /\ state c' = state c /\ reg c' = reg c /\ reg_ptr c' = reg_ptr c
  /\ bit c' = bit c /\ sclk_line c' = sclk_line c
  /\ data_line c' = data_line c /\ old_ram c' = old_ram c
  /\ old_clock_regs c' = old_clock_regs c /\ old_offset c' = old_offset c
  /\ device c' = device c
  /\ length (ram c') = length (ram c)
  /\ length (clock_regs c') = length (clock_regs c).
Proof.
  unfold pcf8583_write_register.
  repeat case_match; cbn -[arr_set]; rewrite ?length_arr_set;
    repeat split; reflexivity.
Qed.

Lemma write_register_buffers_sized h c addr val :
  buffers_sized c -> buffers_sized (pcf8583_write_register h c addr val).
Proof.
  unfold buffers_sized.
  destruct (write_register_frame h c addr val)
    as (E1 & _ & _ & _ & _ & _ & _ & E2 & E3 & _ & _ & E4 & E5).
  rewrite E1, E2, E3, E4, E5. tauto.
Qed.

Lemma i2c_start_buffers_sized h c :
  buffers_sized c -> buffers_sized (pcf8583_i2c_start h c).
Proof.
  intros (H1 & H2 & H3 & H4 & H5). unfold buffers_sized.
  rewrite i2c_start_snapshot by exact H5. cbn. tauto.
Qed.

End Protocol.

(** ** The invariant of the chip *)

Section Invariant.

Context {B : rtc_backend}.

Lemma init_chip_inv dev loaded :
  loaded_sized loaded -> chip_inv (pcf8583_init dev loaded).
Proof.
  intros Hl. split; [apply init_buffers_sized, Hl|].
  cbn. unfold is_byte. repeat split; lia.
Qed.

Lemma bit_advance b :
  is_byte b -> b <= 7 -> to_byte (b + 1) = b + 1.
Proof. unfold is_byte. intros Hb Hle. apply to_byte_id. unfold is_byte. lia. Qed.

(** Only the fields the invariant reads matter to it. *)
Lemma chip_inv_eq c c' :
  chip_inv c ->
  length (ram c') = length (ram c) ->
  length (old_ram c') = length (old_ram c) ->
  length (clock_regs c') = length (clock_regs c) ->
  length (old_clock_regs c') = length (old_clock_regs c) ->
  length (clock_regs_for_read c') = length (clock_regs_for_read c) ->
  is_byte (reg_ptr c') -> is_byte (bit c') ->
  (shifting (state c') = true -> bit c' <= 7) ->
  chip_inv c'.
Proof.
  intros ((H1 & H2 & H3 & H4 & H5) & _) E1 E2 E3 E4 E5 Hp Hb Hs.
  unfold chip_inv, buffers_sized. rewrite E1, E2, E3, E4, E5. tauto.
Qed.

Ltac close_inv c :=
  apply (chip_inv_eq c); [assumption | cbn -[arr_set arr_get to_byte]..];
  try reflexivity; try assumption; try apply to_byte_range;
  try (unfold is_byte in *; lia);
  try (intros; unfold is_byte in *; first [discriminate | lia]).

Lemma falling_edge_chip_inv h c :
  chip_inv c -> chip_inv (clk_falling_edge h c).
Proof.
  intros Hinv. pose proof Hinv as (Hsz & Hp & Hb & Hle).
  unfold clk_falling_edge.
  destruct (state c) eqn:Hst; cbn [shifting] in Hle;
    try specialize (Hle eq_refl); try exact Hinv.
  - (* START_WAIT *) close_inv c.
  - (* GET_ADDRESS *)
    unfold pcf8583_next_address_bit.
    cbn [shift_in bit set_bit set_reg reg]. rewrite bit_advance by assumption.
    destruct (Z.eqb_spec (bit c + 1) 8); repeat case_match; close_inv c.
    all: try (intros _; rewrite ?bit_advance by assumption; lia).
  - (* GET_REG_NR *)
    unfold pcf8583_next_reg_nr_bit.
    cbn [shift_in bit set_bit set_reg reg]. rewrite bit_advance by assumption.
    destruct (Z.eqb_spec (bit c + 1) 8); close_inv c.
    all: try (intros _; rewrite ?bit_advance by assumption; lia).
  - (* READ_REGS *)
    unfold pcf8583_next_read_bit.
    cbn [bit set_bit]. rewrite bit_advance by assumption.
    destruct (Z.eqb_spec (bit c + 1) 8); close_inv c.
    all: try (intros _; rewrite ?bit_advance by assumption; lia).
  - (* WRITE_REGS *)
    unfold pcf8583_next_write_bit.
    cbn [shift_in bit set_bit set_reg reg reg_ptr].
    rewrite bit_advance by assumption.
    destruct (Z.eqb_spec (bit c + 1) 8).
    + match goal with
      | |- context [pcf8583_write_register ?h ?c1 ?a ?v] =>
          destruct (write_register_frame h c1 a v)
            as (E1 & _ & _ & _ & E2 & _ & _ & E3 & E4 & _ & _ & E5 & E6)
      end.
      apply (chip_inv_eq c); [assumption | cbn -[arr_set arr_get to_byte]..];
        rewrite ?E1, ?E2, ?E3, ?E4, ?E5, ?E6; try reflexivity;
        try apply to_byte_range; try discriminate.
    + close_inv c.
      all: try (intros _; rewrite ?bit_advance by assumption; lia).
  - (* READ_ACK *)
    unfold pcf8583_validate_read_ack. destruct (data_line c); cbn [negb];
      close_inv c.
  - close_inv c.
  - close_inv c.
  - close_inv c.
  - close_inv c.
Qed.

Lemma step_chip_inv h e c : chip_inv c -> chip_inv (step h e c).
Proof.
  intros Hinv. destruct e as [data|data]; cbn [step].
  - unfold pcf8583_set_clk_line. case_bool_decide; [exact Hinv|].
    destruct (to_level data); cbn [negb].
    + pose proof Hinv as (_ & ? & ? & ?). close_inv c.
    + pose proof (falling_edge_chip_inv h c Hinv) as Hf.
      pose proof Hf as (_ & ? & ? & ?).
      close_inv (clk_falling_edge h c).
  - unfold pcf8583_set_data_line. case_bool_decide; [exact Hinv|].
    pose proof Hinv as (Hsz & ? & ? & ?).
    destruct (sclk_line c); [destruct (to_level data)|];
      try solve [close_inv c].
    pose proof (i2c_start_buffers_sized h c Hsz) as (_ & _ & _ & _ & E).
    destruct Hsz as (_ & _ & _ & _ & E').
    apply (chip_inv_eq c); [assumption | ..]; try reflexivity.
    + change (length (clock_regs_for_read (pcf8583_i2c_start h c))
              = length (clock_regs_for_read c)). congruence.
    + assumption.
    + cbn. unfold is_byte. lia.
    + intros _. cbn. lia.
Qed.

Lemma reachable_chip_inv c : reachable c -> chip_inv c.
Proof.
  induction 1 as [dev loaded Hl | h e c _ IH].
  - apply init_chip_inv, Hl.
  - apply step_chip_inv, IH.
Qed.

Lemma run_chip_inv clk n es c : chip_inv c -> chip_inv (run clk n es c).
Proof.
  revert n c. induction es as [|e es IH]; intros n c Hinv; cbn [run].
  - exact Hinv.
  - apply IH, step_chip_inv, Hinv.
Qed.

Lemma run_reachable clk n es c : reachable c -> reachable (run clk n es c).
Proof.
  revert n c. induction es as [|e es IH]; intros n c Hr; cbn [run].
  - exact Hr.
  - apply IH, reach_step, Hr.
Qed.

End Invariant.

(** ** The level the chip drives *)

(** Masking one bit and shifting it down gives that bit. *)
Lemma extract_bit x k :
  0 <= k -> Z.shiftr (Z.land x (Z.shiftl 1 k)) k = Z.b2z (Z.testbit x k).
Proof.
  intros Hk. apply Z.bits_inj'. intros n Hn.
  rewrite Z.shiftr_spec, Z.land_spec, Z.shiftl_spec by lia.
  replace (n + k - k) with n by lia.
  destruct (Z.eq_dec n 0) as [->|Hn0].
  - cbn [Z.add]. change (Z.testbit 1 0) with true. rewrite andb_true_r.
    symmetry. apply Z.b2z_bit0.
  - change 1 with (2 ^ 0) at 1. rewrite Z.pow2_bits_false, andb_false_r by lia.
    destruct (Z.testbit x k); cbn [Z.b2z].
    + change 1 with (2 ^ 0). rewrite Z.pow2_bits_false by lia. reflexivity.
    + rewrite Z.bits_0. reflexivity.
Qed.

(** C4: in every reachable state, the data line read returns bit
    [7 - bit] of [reg] (a position from 0 to 7) in [PCF8583_READ_REGS],
    0 in each of the five acknowledge states, and 1 in every other
    state. *)
Theorem read_data_line_contract {B : rtc_backend} c :
  reachable c ->
  (state c = PCF8583_READ_REGS ->
   0 <= 7 - bit c <= 7
   /\ fst (pcf8583_read_data_line c) = Z.b2z (Z.testbit (reg c) (7 - bit c)))
  /\ (state c ∈ [PCF8583_ADDRESS_WRITE_ACK; PCF8583_ADDRESS_READ_ACK;
                 PCF8583_REG_NR_ACK; PCF8583_READ_ACK; PCF8583_WRITE_ACK] ->
      fst (pcf8583_read_data_line c) = 0)
  /\ (state c ∈ [PCF8583_IDLE; PCF8583_START_WAIT; PCF8583_GET_ADDRESS;
                 PCF8583_GET_REG_NR; PCF8583_WRITE_REGS] ->
      fst (pcf8583_read_data_line c) = 1).
Proof.
  intros Hr. destruct (reachable_chip_inv c Hr) as (_ & _ & Hb & Hle).
  unfold pcf8583_read_data_line. split; [|split].
  - intros Hst. rewrite Hst in *. specialize (Hle eq_refl).
    unfold is_byte in Hb. split; [lia|]. cbn [fst].
    rewrite extract_bit by lia. apply to_byte_id.
    unfold is_byte. destruct (Z.testbit (reg c) (7 - bit c)); cbn; lia.
  - intros Hin. rewrite !elem_of_cons, elem_of_nil in Hin.
    destruct (state c); try reflexivity; exfalso;
      intuition discriminate.
  - intros Hin. rewrite !elem_of_cons, elem_of_nil in Hin.
    destruct (state c); try reflexivity; exfalso;
      intuition discriminate.
Qed.

Lemma read_data_line_contract_witness :
  let c := run (B:=utc_backend) ticking 0 read_select fresh in
  state c = PCF8583_READ_REGS
  /\ fst (pcf8583_read_data_line c) = Z.b2z (Z.testbit (reg c) (7 - bit c))
  /\ fst (pcf8583_read_data_line fresh) = 1.
Proof.
  split; [reflexivity | split].
  - destruct (read_data_line_contract (B:=utc_backend)
                (run (B:=utc_backend) ticking 0 read_select fresh))
      as (Hread & _ & _).
    + apply run_reachable, reach_init. exact I.
    + apply Hread. reflexivity.
  - destruct (read_data_line_contract (B:=utc_backend) fresh)
      as (_ & _ & Hidle).
    + apply reach_init. exact I.
    + apply Hidle. apply list_elem_of_here.
Defined.

(** ** The register pointer *)

(** The pointer of a context that satisfies the invariant indexes inside
    the register blocks or the RAM. *)
Lemma chip_inv_cell_in_bounds c addr :
  chip_inv c -> is_byte addr -> cell_in_bounds c addr.
Proof.
  intros ((H1 & _ & H3 & _ & H5) & _) Ha.
  unfold cell_in_bounds, in_bounds, is_byte in *. rewrite H1, H3, H5.
  unfold PCF8583_REG_SIZE, PCF8583_RAM_SIZE.
  destruct (Z.ltb_spec addr 16); lia.
Qed.

Section PointerCommits.

Context {B : rtc_backend}.

Lemma shift_in_bit c : bit c = 7 -> bit (shift_in c) = 8.
Proof. intros Hb. cbn. rewrite Hb. reflexivity. Qed.

Lemma falling_edge_address_byte h c :
  state c = PCF8583_GET_ADDRESS -> bit c = 7 ->
  clk_falling_edge h c
  = set_state
      (if reg (shift_in c) =? 0xa0 then PCF8583_ADDRESS_WRITE_ACK
       else if reg (shift_in c) =? 0xa1 then PCF8583_ADDRESS_READ_ACK
       else PCF8583_IDLE) (shift_in c).
Proof.
  intros Hst Hb. unfold clk_falling_edge. rewrite Hst.
  unfold pcf8583_next_address_bit. cbv zeta. rewrite shift_in_bit by exact Hb.
  cbn [Z.eqb Pos.eqb]. repeat case_match; reflexivity.
Qed.

Lemma falling_edge_pointer_commit h c :
  state c = PCF8583_GET_REG_NR -> bit c = 7 ->
  clk_falling_edge h c
  = set_reg_ptr (reg (shift_in c))
      (set_state PCF8583_REG_NR_ACK (shift_in c)).
Proof.
  intros Hst Hb. unfold clk_falling_edge. rewrite Hst.
  unfold pcf8583_next_reg_nr_bit. cbv zeta. rewrite shift_in_bit by exact Hb.
  reflexivity.
Qed.

Lemma falling_edge_write_commit h c :
  state c = PCF8583_WRITE_REGS -> bit c = 7 ->
  clk_falling_edge h c
  = set_reg_ptr (to_byte (reg_ptr c + 1))
      (set_state PCF8583_WRITE_ACK
         (pcf8583_write_register h (shift_in c) (reg_ptr c)
            (reg (shift_in c)))).
Proof.
  intros Hst Hb. unfold clk_falling_edge. rewrite Hst.
  unfold pcf8583_next_write_bit. cbv zeta. rewrite shift_in_bit by exact Hb.
  cbn [Z.eqb Pos.eqb].
  destruct (write_register_frame h (shift_in c) (reg_ptr (shift_in c))
              (reg (shift_in c))) as (_ & _ & _ & E & _).
  cbn [reg_ptr set_state] in *. rewrite E. reflexivity.
Qed.

Lemma falling_edge_read_ack h c :
  state c = PCF8583_READ_ACK -> data_line c = false ->
  let c1 := set_reg_ptr (to_byte (reg_ptr c + 1))
              (set_bit 0 (set_state PCF8583_READ_REGS c)) in
  clk_falling_edge h c
  = set_reg (pcf8583_read_register c1 (reg_ptr c1)) c1.
Proof.
  intros Hst Hd. unfold clk_falling_edge. rewrite Hst.
  unfold pcf8583_validate_read_ack. rewrite Hd. reflexivity.
Qed.

End PointerCommits.

(** C7: on a falling clock edge that completes a byte, the pointer is
    reduced modulo the 16 + 240 addresses: a pointer commit stores the
    received byte, a write commit and an acknowledged read byte store the
    old pointer plus one modulo the address space. The pointer of every
    reachable state lies in the address space, and the cells a register
    read or write indexes through it lie inside the buffers. *)
Theorem reg_ptr_wraps_in_bounds {B : rtc_backend} h c :
  reachable c ->
  let c' := clk_falling_edge h c in
  let space := PCF8583_REG_SIZE + PCF8583_RAM_SIZE in
  (state c = PCF8583_GET_REG_NR -> bit c = 7 ->
   state c' = PCF8583_REG_NR_ACK
   /\ reg_ptr c' = reg c' /\ reg_ptr c' = reg c' mod space)
  /\ (state c = PCF8583_WRITE_REGS -> bit c = 7 ->
      state c' = PCF8583_WRITE_ACK
      /\ reg_ptr c' = (reg_ptr c + 1) mod space)
  /\ (state c = PCF8583_READ_ACK -> data_line c = false ->
      state c' = PCF8583_READ_REGS
      /\ reg_ptr c' = (reg_ptr c + 1) mod space)
  /\ 0 <= reg_ptr c < space
  /\ cell_in_bounds c (reg_ptr c)
  /\ 0 <= reg_ptr c' < space
  /\ cell_in_bounds c' (reg_ptr c').
Proof.
  intros Hr c' space.
  pose proof (reachable_chip_inv c Hr) as Hinv.
  pose proof (falling_edge_chip_inv h c Hinv) as Hinv'. fold c' in Hinv'.
  pose proof Hinv as (_ & Hp & _). pose proof Hinv' as (_ & Hp' & _).
  split; [|split; [|split; [|split; [|split; [|split]]]]].
  - intros Hst Hb. subst c'.
    rewrite falling_edge_pointer_commit by assumption.
    cbn [state reg reg_ptr set_reg_ptr set_state shift_in set_bit set_reg].
    repeat split. symmetry. apply Z.mod_small.
    apply (to_byte_range _).
  - intros Hst Hb. subst c'.
    rewrite falling_edge_write_commit by assumption.
    split; reflexivity.
  - intros Hst Hd. subst c'.
    rewrite falling_edge_read_ack by assumption.
    split; reflexivity.
  - exact Hp.
  - apply chip_inv_cell_in_bounds; assumption.
  - exact Hp'.
  - apply chip_inv_cell_in_bounds; assumption.
Qed.


Lemma reg_ptr_wraps_in_bounds_witness :
  let c := run (B:=utc_backend) ticking 0 last_address_write_pending fresh in
  let c' := clk_falling_edge (B:=utc_backend) (ticking 100) c in
  state c = PCF8583_WRITE_REGS /\ bit c = 7 /\ reg_ptr c = 255
  /\ state c' = PCF8583_WRITE_ACK
  /\ reg_ptr c' = (255 + 1) mod (PCF8583_REG_SIZE + PCF8583_RAM_SIZE)
  /\ cell_in_bounds c' (reg_ptr c').
Proof.
  intros c c'.
  assert (Hst : state c = PCF8583_WRITE_REGS) by (vm_compute; reflexivity).
  assert (Hbit : bit c = 7) by (vm_compute; reflexivity).
  assert (Hptr : reg_ptr c = 255) by (vm_compute; reflexivity).
  destruct (reg_ptr_wraps_in_bounds (B:=utc_backend) (ticking 100) c)
    as (_ & Hcommit & _ & _ & _ & _ & Hcell).
  - apply run_reachable, reach_init. exact I.
  - destruct (Hcommit Hst Hbit) as [Hst' Hptr'].
    fold c' in Hst', Hptr', Hcell. rewrite Hptr in Hptr'.
    split; [exact Hst | split; [exact Hbit | split; [exact Hptr|]]].
    split; [exact Hst' | split; [exact Hptr' | exact Hcell]].
Defined.

(** ** What the protocol decoder leaves alone *)

Section Frames.

Context {B : rtc_backend}.

(** A falling clock edge never writes the snapshot, and writes the
    register bank only when it commits a data byte. *)
Lemma falling_edge_frame h c :
  let c' := clk_falling_edge h c in
  clock_regs_for_read c' = clock_regs_for_read c
  /\ ((state c = PCF8583_WRITE_REGS /\ to_byte (bit c + 1) = 8)
      \/ bank c' = bank c).
Proof.
  unfold clk_falling_edge.
  destruct (state c) eqn:Hst;
    try (split; [reflexivity | right; reflexivity]).
  - unfold pcf8583_next_address_bit.
    repeat case_match; split; try reflexivity; right; reflexivity.
  - unfold pcf8583_next_reg_nr_bit.
    repeat case_match; split; try reflexivity; right; reflexivity.
  - unfold pcf8583_next_read_bit.
    repeat case_match; split; try reflexivity; right; reflexivity.
  - unfold pcf8583_next_write_bit. cbv zeta.
    destruct (Z.eqb_spec (bit (shift_in c)) 8) as [E|E].
    + split; [|left; split; [reflexivity | exact E]].
      destruct (write_register_frame h (shift_in c) (reg_ptr (shift_in c))
                  (reg (shift_in c))) as (E1 & _).
      cbn [clock_regs_for_read set_reg_ptr set_state]. rewrite E1.
      reflexivity.
    + split; [reflexivity | right; reflexivity].
  - unfold pcf8583_validate_read_ack.
    repeat case_match; split; try reflexivity; right; reflexivity.
Qed.

(** A call that is not a START leaves the snapshot alone. *)
Lemma step_snapshot h e c :
  is_start c e = false ->
  clock_regs_for_read (step h e c) = clock_regs_for_read c.
Proof.
  destruct e as [data|data]; cbn [step is_start]; intros Hns.
  - unfold pcf8583_set_clk_line. case_bool_decide; [reflexivity|].
    destruct (to_level data); cbn [negb]; [reflexivity|].
    cbn [clock_regs_for_read set_sclk_line].
    apply (falling_edge_frame h c).
  - unfold pcf8583_set_data_line. case_bool_decide as Hd; [reflexivity|].
    destruct (sclk_line c); [|reflexivity].
    destruct (to_level data); [reflexivity|].
    destruct (data_line c); [discriminate | contradiction].
Qed.

(** A call that commits no data byte leaves the register bank alone. *)
Lemma step_bank h e c :
  is_commit c e = false -> bank (step h e c) = bank c.
Proof.
  destruct e as [data|data]; cbn [step is_commit]; intros Hnc.
  - unfold pcf8583_set_clk_line.
    destruct (bool_decide_reflect (sclk_line c = to_level data)) as [Hclk|Hclk];
      [reflexivity|].
    destruct (to_level data); cbn [negb] in *; [reflexivity|].
    destruct (falling_edge_frame h c) as (_ & [[Hst Hb]|Hbank]).
    + exfalso. destruct (sclk_line c); [|contradiction].
      rewrite Hst, Hb in Hnc. rewrite bool_decide_eq_true_2 in Hnc by done.
      discriminate.
    + exact Hbank.
  - unfold pcf8583_set_data_line. case_bool_decide as Hd; [reflexivity|].
    destruct (sclk_line c); [|reflexivity].
    destruct (to_level data); reflexivity.
Qed.

Lemma run_snapshot clk n es c :
  never is_start clk n es c = true ->
  clock_regs_for_read (run clk n es c) = clock_regs_for_read c.
Proof.
  revert n c. induction es as [|e es IH]; intros n c Hnever;
    cbn [run never] in *; [reflexivity|].
  apply andb_true_iff in Hnever as [He Hes].
  rewrite IH by exact Hes. apply step_snapshot.
  apply negb_true_iff, He.
Qed.

Lemma run_bank clk n es c :
  never is_commit clk n es c = true -> bank (run clk n es c) = bank c.
Proof.
  revert n c. induction es as [|e es IH]; intros n c Hnever;
    cbn [run never] in *; [reflexivity|].
  apply andb_true_iff in Hnever as [He Hes].
  rewrite IH by exact Hes. apply step_bank.
  apply negb_true_iff, He.
Qed.

(** A call on an abort path ends in [PCF8583_IDLE]. *)
Lemma step_abort h e c :
  is_abort c e = true -> state (step h e c) = PCF8583_IDLE.
Proof.
  destruct e as [data|data]; cbn [step is_abort is_stop]; intros Ha.
  - apply andb_true_iff in Ha as [Hedge Hcase].
    apply andb_true_iff in Hedge as [Hclk Hval].
    apply negb_true_iff in Hval.
    rewrite set_clk_line_fall by assumption.
    cbn [state set_sclk_line]. unfold clk_falling_edge.
    destruct (state c); try discriminate.
    + apply andb_true_iff in Hcase as [Hcase Ha1].
      apply andb_true_iff in Hcase as [Hb Ha0].
      unfold pcf8583_next_address_bit. cbv zeta.
      apply negb_true_iff in Ha0, Ha1. rewrite Hb, Ha0, Ha1. reflexivity.
    + unfold pcf8583_validate_read_ack. rewrite Hcase. reflexivity.
  - apply andb_true_iff in Ha as [Hedge Hval].
    apply andb_true_iff in Hedge as [Hclk Hd].
    apply negb_true_iff in Hd.
    unfold pcf8583_set_data_line. rewrite Hval, Hclk, Hd.
    case_bool_decide; [discriminate | reflexivity].
Qed.

End Frames.

(** C2: the snapshot changes only on a START condition. Over any calls
    without a START, at whatever host times they are made, the snapshot
    stays as it is, so a read of a register address below 16 returns the
    byte it returned before. *)
Theorem snapshot_frozen_between_starts {B : rtc_backend} clk n es c addr :
  never is_start clk n es c = true ->
  0 <= addr < PCF8583_REG_SIZE ->
  (forall h e,
     clock_regs_for_read (step h e c) <> clock_regs_for_read c ->
     is_start c e = true)
  /\ clock_regs_for_read (run clk n es c) = clock_regs_for_read c
  /\ pcf8583_read_register (run clk n es c) addr
     = pcf8583_read_register c addr.
Proof.
  intros Hnever Haddr.
  pose proof (run_snapshot clk n es c Hnever) as Hsnap.
  split; [|split; [exact Hsnap|]].
  - intros h e Hchg. destruct (is_start c e) eqn:Hs; [reflexivity|].
    exfalso. apply Hchg, step_snapshot, Hs.
  - unfold pcf8583_read_register.
    destruct (Z.ltb_spec addr PCF8583_REG_SIZE) as [_|Hge]; [|lia].
    rewrite Hsnap. reflexivity.
Qed.

Lemma snapshot_frozen_between_starts_witness :
  let c := run (B:=utc_backend) ticking 0 read_select fresh in
  let c' := run (B:=utc_backend) ticking 5000 (read_byte_acked ++ read_byte_acked) c in
  state c = PCF8583_READ_REGS
  /\ clock_regs_for_read c' = clock_regs_for_read c
  /\ pcf8583_read_register c' PCF8583_REG_SECONDS
     = pcf8583_read_register c PCF8583_REG_SECONDS.
Proof.
  split; [reflexivity|].
  apply (snapshot_frozen_between_starts (B:=utc_backend) ticking 5000
           (read_byte_acked ++ read_byte_acked)
           (run (B:=utc_backend) ticking 0 read_select fresh)
           PCF8583_REG_SECONDS).
  - vm_compute. reflexivity.
  - unfold PCF8583_REG_SECONDS, PCF8583_REG_SIZE. lia.
Defined.

(** ** Sequences that commit nothing *)

Section Lines.

Context {B : rtc_backend}.

Lemma set_clk_line_level h c data :
  sclk_line (pcf8583_set_clk_line h c data) = to_level data.
Proof.
  unfold pcf8583_set_clk_line. case_bool_decide as Hsame; [exact Hsame|].
  reflexivity.
Qed.

Lemma set_data_line_level h c data :
  data_line (pcf8583_set_data_line h c data) = to_level data.
Proof.
  unfold pcf8583_set_data_line. case_bool_decide as Hsame; [exact Hsame|].
  reflexivity.
Qed.

Lemma set_state_same c : set_state (state c) c = c.
Proof. destruct c; reflexivity. Qed.

(** In [PCF8583_IDLE] a call that is not a START changes a line level
    and nothing else. *)
Lemma step_idle h e c :
  state c = PCF8583_IDLE -> is_start c e = false ->
  step h e c
  = with_bus PCF8583_IDLE (reg c) (reg_ptr c) (bit c)
      (sclk_line (step h e c)) (data_line (step h e c)) c.
Proof.
  intros Hst Hns. destruct e as [data|data]; cbn [step is_start] in *.
  - unfold pcf8583_set_clk_line.
    destruct (bool_decide_reflect (sclk_line c = to_level data)) as [E|E].
    + destruct c; cbn in *; subst; reflexivity.
    + unfold clk_falling_edge. rewrite Hst.
      destruct (to_level data); cbn [negb]; destruct c; cbn in *; subst;
        reflexivity.
  - unfold pcf8583_set_data_line.
    destruct (bool_decide_reflect (data_line c = to_level data)) as [E|E].
    + destruct c; cbn in *; subst; reflexivity.
    + destruct (sclk_line c) eqn:Hclk.
      * destruct (to_level data) eqn:Hval.
        -- destruct c; cbn in *; subst; reflexivity.
        -- destruct (data_line c); [discriminate | contradiction].
      * destruct c; cbn in *; subst; reflexivity.
Qed.

End Lines.

Section OpenTransactions.

Context {B : rtc_backend}.

(** A START leaves the decoder waiting for the first clock edge. *)
Lemma step_start h e c :
  is_start c e = true -> state (step h e c) = PCF8583_START_WAIT.
Proof.
  destruct e as [data|data]; cbn [step is_start]; [discriminate|].
  intros Hs. apply andb_true_iff in Hs as [Hlines Hval].
  apply andb_true_iff in Hlines as [Hclk Hdata].
  apply negb_true_iff in Hval.
  rewrite set_data_line_start by assumption. reflexivity.
Qed.

(** Only an abort path leads back to [PCF8583_IDLE]. *)
Lemma step_not_idle h e c :
  state c <> PCF8583_IDLE -> is_abort c e = false ->
  state (step h e c) <> PCF8583_IDLE.
Proof.
  intros Hst Hab. destruct e as [data|data]; cbn [step is_abort is_stop] in *.
  - unfold pcf8583_set_clk_line.
    destruct (bool_decide_reflect (sclk_line c = to_level data)) as [E|E];
      [exact Hst|].
    destruct (to_level data); cbn [negb] in *; [exact Hst|].
    destruct (sclk_line c); [|contradiction]. cbn [andb] in Hab.
    cbn [state set_sclk_line]. unfold clk_falling_edge.
    destruct (state c) eqn:Hs; try discriminate; try contradiction.
    + unfold pcf8583_next_address_bit. cbv zeta.
      destruct (bit (shift_in c) =? 8);
        [|cbn [state shift_in set_bit set_reg]; rewrite Hs; discriminate].
      destruct (reg (shift_in c) =? 0xa0); [discriminate|].
      destruct (reg (shift_in c) =? 0xa1); discriminate.
    + unfold pcf8583_next_reg_nr_bit. cbv zeta.
      destruct (bit (shift_in c) =? 8); cbn [state shift_in set_bit set_reg
        set_reg_ptr set_state]; rewrite ?Hs; discriminate.
    + unfold pcf8583_next_read_bit. cbv zeta.
      match goal with |- context [if ?b then _ else _] => destruct b end;
        cbn [state set_bit set_state]; rewrite ?Hs; discriminate.
    + unfold pcf8583_next_write_bit. cbv zeta.
      destruct (bit (shift_in c) =? 8);
        cbn [state shift_in set_bit set_reg set_reg_ptr set_state];
        rewrite ?Hs; discriminate.
    + unfold pcf8583_validate_read_ack. rewrite Hab. discriminate.
  - unfold pcf8583_set_data_line.
    destruct (bool_decide_reflect (data_line c = to_level data)) as [E|E];
      [exact Hst|].
    destruct (sclk_line c); [|exact Hst].
    destruct (to_level data); [|discriminate].
    destruct (data_line c); [contradiction | discriminate].
Qed.

(** Over calls without a START the decoder ends idle exactly when it
    was idle before them or one of them took an abort path. *)
Lemma start_free_idle_iff clk es : forall n c,
  never is_start clk n es c = true ->
  state (run clk n es c) = PCF8583_IDLE
  <-> state c = PCF8583_IDLE \/ never is_abort clk n es c = false.
Proof.
  induction es as [|e es IH]; intros n c Hns; cbn [run never] in *.
  - split; [left; assumption | intros [H|H]; [exact H | discriminate]].
  - apply andb_true_iff in Hns as [He Hes]. apply negb_true_iff in He.
    rewrite (IH _ _ Hes).
    destruct (decide (state c = PCF8583_IDLE)) as [Hidle|Hbusy].
    + split; [left; exact Hidle | intros _; left].
      rewrite (step_idle (clk n) e c Hidle He). reflexivity.
    + destruct (is_abort c e) eqn:Hab; cbn [negb andb].
      * split; [right; reflexivity | intros _; left].
        apply step_abort, Hab.
      * pose proof (step_not_idle (clk n) e c Hbusy Hab) as Hstep. tauto.
Qed.

(** A sequence has no START, or it has a last one. *)
Lemma last_start_split clk es : forall n c,
  never is_start clk n es c = true
  \/ exists es0 e es1,
       es = es0 ++ e :: es1
       /\ is_start (run clk n es0 c) e = true
       /\ never is_start clk (S (n + length es0)) es1
            (step (clk (n + length es0)%nat) e (run clk n es0 c)) = true.
Proof.
  induction es as [|e es IH]; intros n c; [left; reflexivity|].
  destruct (IH (S n) (step (clk n) e c)) as [Htail|(es0 & e' & es1 & H)].
  - destruct (is_start c e) eqn:Hs.
    + right. exists [], e, es. cbn [app run length].
      rewrite Nat.add_0_r. auto.
    + left. cbn [never]. rewrite Hs, Htail. reflexivity.
  - right. destruct H as (-> & Hs & Hns).
    exists (e :: es0), e', es1. cbn [app run length].
    rewrite Nat.add_succ_r. auto.
Qed.

End OpenTransactions.

(** C6, as stated, fails: from the idle chip a bare START condition
    ([SetData 0] with both lines high) commits nothing, forms no address
    byte, and leaves the decoder in [PCF8583_START_WAIT], not in
    [PCF8583_IDLE]. *)
Lemma bare_start_not_idle :
  ~ (never (B:=utc_backend) is_commit ticking 0 [SetData 0] fresh = true ->
     state (run (B:=utc_backend) ticking 0 [SetData 0] fresh) = PCF8583_IDLE
     /\ ram (run (B:=utc_backend) ticking 0 [SetData 0] fresh) = ram fresh
     /\ clock_regs (run (B:=utc_backend) ticking 0 [SetData 0] fresh)
        = clock_regs fresh).
Proof. intros Hclaim. destruct (Hclaim eq_refl) as [Hidle _]. discriminate Hidle. Qed.

(** C6, amended: over any calls that commit no data byte, the RAM and the
    16 stored registers keep their values, and the decoder ends in
    [PCF8583_IDLE] exactly when no transaction is left open. A sequence
    without a START condition ends idle exactly when the chip was idle
    before it or one of its calls took an abort path (a STOP condition,
    the eighth bit of an unrecognized address byte, or a nack after a read
    byte); a sequence with a START ends idle exactly when an abort path is
    taken after its last START, and otherwise ends in the intermediate
    state the decoder reached, which is not [PCF8583_IDLE]. Every sequence
    is of one of the two kinds. *)
Theorem no_commit_keeps_registers {B : rtc_backend} clk n es c :
  never is_commit clk n es c = true ->
  let c' := run clk n es c in
  ram c' = ram c
  /\ clock_regs c' = clock_regs c
  /\ (never is_start clk n es c = true ->
      state c' = PCF8583_IDLE
      <-> state c = PCF8583_IDLE \/ never is_abort clk n es c = false)
  /\ (forall es0 e es1,
        es = es0 ++ e :: es1 ->
        let c0 := run clk n es0 c in
        let c1 := step (clk (n + length es0)%nat) e c0 in
        is_start c0 e = true ->
        never is_start clk (S (n + length es0)) es1 c1 = true ->
        state c1 = PCF8583_START_WAIT
        /\ (state c' = PCF8583_IDLE
            <-> never is_abort clk (S (n + length es0)) es1 c1 = false))
  /\ (never is_start clk n es c = true
      \/ exists es0 e es1,
           es = es0 ++ e :: es1
           /\ is_start (run clk n es0 c) e = true
           /\ never is_start clk (S (n + length es0)) es1
                (step (clk (n + length es0)%nat) e (run clk n es0 c)) = true).
Proof.
  intros Hnever c'. pose proof (run_bank clk n es c Hnever) as Hbank.
  fold c' in Hbank. unfold bank in Hbank.
  split; [congruence | split; [congruence|]].
  split; [|split].
  - intros Hns. apply start_free_idle_iff, Hns.
  - intros es0 e es1 -> c0 c1 Hs Hns.
    pose proof (step_start (clk (n + length es0)%nat) e c0 Hs) as Hwait.
    fold c1 in Hwait. split; [exact Hwait|].
    subst c'. rewrite run_app. cbn [run]. fold c0. fold c1.
    rewrite (start_free_idle_iff clk es1 _ c1 Hns), Hwait.
    split; [intros [H|H]; [discriminate | exact H] | intros H; right; exact H].
  - apply last_start_split.
Qed.

Lemma no_commit_keeps_registers_witness :
  let es := start_condition ++ send_byte 0x42 ++ clock_bit true in
  let c' := run (B:=utc_backend) ticking 0 es fresh in
  let c'' := run (B:=utc_backend) ticking 0 (SetClk 0 :: clock_bit false)
               fresh in
  ram c' = ram fresh
  /\ clock_regs c' = clock_regs fresh
  /\ state c' = PCF8583_IDLE
  /\ state c'' = PCF8583_IDLE.
Proof.
  intros es c' c''.
  destruct (no_commit_keeps_registers (B:=utc_backend) ticking 0 es fresh)
    as (Hram & Hregs & _ & Hopen & _); [vm_compute; reflexivity|].
  destruct (no_commit_keeps_registers (B:=utc_backend) ticking 0
              (SetClk 0 :: clock_bit false) fresh)
    as (_ & _ & Hfree & _); [vm_compute; reflexivity|].
  split; [exact Hram | split; [exact Hregs | split]].
  - destruct (Hopen [] (SetData 0)
                (SetClk 0 :: send_byte 0x42 ++ clock_bit true) eq_refl
                eq_refl) as [_ Hiff]; [vm_compute; reflexivity|].
    apply Hiff. vm_compute. reflexivity.
  - apply Hfree; [vm_compute; reflexivity | left; reflexivity].
Defined.

(** ** Receiving a byte *)

Lemma last_cons_default {A} (b : A) bs d :
  List.last (b :: bs) d = List.last bs b.
Proof.
  revert b d. induction bs as [|a bs IH]; intros b d; [reflexivity|].
  change (List.last (b :: a :: bs) d) with (List.last (a :: bs) d).
  rewrite (IH a d), (IH a b). reflexivity.
Qed.

Lemma shift_bits_app r k bs b :
  shift_bits r k (bs ++ [b])
  = to_byte
      (Z.lor (shift_bits r k bs)
         (Z.shiftl (Z.b2z b) (7 - (k + Z.of_nat (length bs))))).
Proof.
  revert r k. induction bs as [|a bs IH]; intros r k; cbn [app shift_bits length].
  - rewrite Z.add_0_r. reflexivity.
  - rewrite IH. do 3 f_equal. lia.
Qed.

Lemma bits_of_byte_split v :
  bits_of_byte v = bits7_of_byte v ++ [Z.testbit v 0].
Proof. reflexivity. Qed.

(** Shifting the eight levels of a byte in, most significant first,
    rebuilds the byte. *)
Lemma shift_bits_of_byte v :
  is_byte v -> shift_bits 0 0 (bits_of_byte v) = v.
Proof.
  intros Hv.
  assert (Hall : forallb (fun x => shift_bits 0 0 (bits_of_byte x) =? x)
                   (seqZ 0 256) = true) by (vm_compute; reflexivity).
  rewrite forallb_forall in Hall. apply Z.eqb_eq, Hall.
  apply list_elem_of_In, elem_of_seqZ. unfold is_byte in Hv. lia.
Qed.

Lemma shift_last_bit v :
  is_byte v ->
  to_byte
    (Z.lor (shift_bits 0 0 (bits7_of_byte v))
       (Z.shiftl (Z.b2z (Z.testbit v 0)) (7 - 7))) = v.
Proof.
  intros Hv. rewrite <- (shift_bits_of_byte v Hv) at 3.
  rewrite bits_of_byte_split, shift_bits_app. reflexivity.
Qed.

Section Receive.

Context {B : rtc_backend}.

Variable clk : nat -> host_clock.

Lemma run_clock_bit_with_bus n b st r rp k dl X :
  run clk n (clock_bit b) (with_bus st r rp k false dl X)
  = set_sclk_line false
      (clk_falling_edge (clk (S (S n))) (with_bus st r rp k true b X)).
Proof. rewrite run_clock_bit by reflexivity. reflexivity. Qed.

(** Before the eighth bit a receiving state only shifts. *)
Lemma falling_edge_receive h st r rp k dl X :
  receiving st = true -> 0 <= k < 7 ->
  set_sclk_line false (clk_falling_edge h (with_bus st r rp k true dl X))
  = with_bus st (to_byte (Z.lor r (Z.shiftl (Z.b2z dl) (7 - k)))) rp (k + 1)
      false dl X.
Proof.
  intros Hst Hk.
  assert (Hk1 : to_byte (k + 1) = k + 1)
    by (apply to_byte_id; unfold is_byte; lia).
  assert (Hk8 : (k + 1 =? 8) = false) by (apply Z.eqb_neq; lia).
  assert (Hs : shift_in (with_bus st r rp k true dl X)
               = with_bus st (to_byte (Z.lor r (Z.shiftl (Z.b2z dl) (7 - k))))
                   rp (k + 1) true dl X).
  { unfold shift_in. cbn [bit reg data_line set_bit set_reg with_bus].
    rewrite Hk1. reflexivity. }
  unfold clk_falling_edge.
  destruct st; try discriminate; cbn [state with_bus];
    unfold pcf8583_next_address_bit, pcf8583_next_reg_nr_bit,
      pcf8583_next_write_bit; cbv zeta; rewrite Hs; cbn [bit with_bus];
    rewrite Hk8; reflexivity.
Qed.

Lemma run_send_bits_receive bs : forall n st r rp k dl X,
  receiving st = true -> 0 <= k -> k + Z.of_nat (length bs) <= 7 ->
  run clk n (send_bits bs) (with_bus st r rp k false dl X)
  = with_bus st (shift_bits r k bs) rp (k + Z.of_nat (length bs)) false
      (List.last bs dl) X.
Proof.
  induction bs as [|b bs IH]; intros n st r rp k dl X Hst Hk Hlen.
  - cbn. rewrite Z.add_0_r. reflexivity.
  - change (send_bits (b :: bs)) with (clock_bit b ++ send_bits bs).
    cbn [length] in Hlen.
    rewrite run_app, run_clock_bit_with_bus, falling_edge_receive
      by (assumption || lia).
    rewrite IH by (assumption || lia).
    rewrite last_cons_default. cbn [shift_bits length].
    f_equal. lia.
Qed.


Lemma send_byte_split v :
  send_byte v = send_bits (bits7_of_byte v) ++ clock_bit (Z.testbit v 0).
Proof. reflexivity. Qed.

Lemma length_bits7_of_byte v : length (bits7_of_byte v) = 7%nat.
Proof. reflexivity. Qed.

Lemma length_send_bits bs : length (send_bits bs) = (3 * length bs)%nat.
Proof.
  induction bs as [|b bs IH]; [reflexivity|].
  change (send_bits (b :: bs)) with (clock_bit b ++ send_bits bs).
  rewrite length_app, IH. cbn [length clock_bit]. lia.
Qed.

Lemma run_send_byte n st rp dl X v :
  receiving st = true ->
  run clk n (send_byte v) (with_bus st 0 rp 0 false dl X)
  = set_sclk_line false
      (clk_falling_edge (clk (n + 23))
         (with_bus st (shift_bits 0 0 (bits7_of_byte v)) rp 7 true
            (Z.testbit v 0) X)).
Proof.
  intros Hst. rewrite send_byte_split, run_app.
  rewrite run_send_bits_receive;
    [| assumption | lia | rewrite length_bits7_of_byte; lia].
  rewrite length_send_bits, !length_bits7_of_byte.
  rewrite run_clock_bit_with_bus.
  replace (S (S (n + 3 * 7)))%nat with (n + 23)%nat by lia.
  reflexivity.
Qed.

End Receive.

(** ** The write transaction *)

Section WriteTransaction.

Context {B : rtc_backend}.

Variable clk : nat -> host_clock.

(** The register bank does not look at the bus state. *)
Lemma write_register_with_bus h st r rp k cl dl X addr val :
  pcf8583_write_register h (with_bus st r rp k cl dl X) addr val
  = with_bus st r rp k cl dl (pcf8583_write_register h X addr val).
Proof.
  unfold pcf8583_write_register.
  cbn [clock_halt clock_halt_latch offset clock_regs ram with_bus set_offset
         set_clock_halt set_clock_halt_latch].
  repeat case_match; reflexivity.
Qed.

(** A write to the control register, an alarm register or the RAM stores
    the byte in the addressed cell. *)
Lemma write_register_stores h c addr val :
  buffers_sized c -> is_byte addr ->
  addr = PCF8583_REG_CONTROL \/ PCF8583_REG_ALARM_CONTROL <= addr ->
  stored_at (pcf8583_write_register h c addr val) addr = val.
Proof.
  intros (Hram & _ & Hregs & _) Haddr Hcase.
  unfold stored_at, pcf8583_write_register, is_byte in *. unfold_regs.
  destruct Hcase as [->|Hge].
  - cbn [Z.eqb Z.ltb Z.compare].
    repeat case_match; cbn [clock_regs set_clock_regs set_clock_halt
      set_clock_halt_latch set_offset];
      apply arr_get_set_eq; unfold in_bounds; rewrite Hregs; lia.
  - repeat match goal with
           | |- context [addr =? ?b] =>
               destruct (Z.eqb_spec addr b); [lia|]
           end.
    cbn [orb].
    destruct (Z.leb_spec 8 addr); [|lia].
    destruct (Z.leb_spec addr 15); cbn [andb].
    + destruct (Z.ltb_spec addr 16); [|lia].
      apply arr_get_set_eq. unfold in_bounds. rewrite Hregs. lia.
    + destruct (Z.ltb_spec addr 16); [lia|].
      apply arr_get_set_eq. unfold in_bounds. rewrite Hram. lia.
Qed.

Lemma shift_in_with_bus st r rp k cl dl X :
  shift_in (with_bus st r rp k cl dl X)
  = with_bus st (to_byte (Z.lor r (Z.shiftl (Z.b2z dl) (7 - k)))) rp
      (to_byte (k + 1)) cl dl X.
Proof. reflexivity. Qed.

(** START with both lines high, then the clock falls. *)
Lemma run_start_condition n c :
  sclk_line c = true -> data_line c = true ->
  run clk n start_condition c
  = with_bus PCF8583_GET_ADDRESS 0 (reg_ptr c) 0 false false
      (pcf8583_i2c_start (clk n) c).
Proof.
  intros Hclk Hdata. unfold start_condition. cbn [run step].
  rewrite set_data_line_start by (assumption || reflexivity).
  rewrite set_clk_line_fall by (assumption || reflexivity).
  reflexivity.
Qed.

(** The address byte 0xA0 selects the chip for writing. *)
Lemma run_address_write n rp dl X :
  run clk n (send_byte 0xa0)
    (with_bus PCF8583_GET_ADDRESS 0 rp 0 false dl X)
  = with_bus PCF8583_ADDRESS_WRITE_ACK 0xa0 rp 8 false false X.
Proof.
  rewrite run_send_byte by reflexivity.
  rewrite falling_edge_address_byte by reflexivity. reflexivity.
Qed.

(** The address byte 0xA1 selects the chip for reading. *)
Lemma run_address_read n rp dl X :
  run clk n (send_byte 0xa1)
    (with_bus PCF8583_GET_ADDRESS 0 rp 0 false dl X)
  = with_bus PCF8583_ADDRESS_READ_ACK 0xa1 rp 8 false true X.
Proof.
  rewrite run_send_byte by reflexivity.
  rewrite falling_edge_address_byte by reflexivity. reflexivity.
Qed.

(** The acknowledge pulse after the address byte. *)
Lemma run_ack_address_write n r rp k dl X d :
  run clk n (ack_pulse d)
    (with_bus PCF8583_ADDRESS_WRITE_ACK r rp k false dl X)
  = with_bus PCF8583_GET_REG_NR 0 rp 0 false d X.
Proof. unfold ack_pulse. rewrite run_clock_bit_with_bus. reflexivity. Qed.

(** The pointer byte. *)
Lemma run_pointer_byte n rp dl X p :
  is_byte p ->
  run clk n (send_byte p) (with_bus PCF8583_GET_REG_NR 0 rp 0 false dl X)
  = with_bus PCF8583_REG_NR_ACK p p 8 false (Z.testbit p 0) X.
Proof.
  intros Hp. rewrite run_send_byte by reflexivity.
  rewrite falling_edge_pointer_commit by reflexivity.
  unfold shift_in. cbn [reg bit data_line set_reg set_bit with_bus].
  rewrite shift_last_bit by exact Hp. reflexivity.
Qed.

(** The acknowledge pulse after the pointer byte or after a data byte. *)
Lemma run_ack_write n st r rp k dl X d :
  st = PCF8583_REG_NR_ACK \/ st = PCF8583_WRITE_ACK ->
  run clk n (ack_pulse d) (with_bus st r rp k false dl X)
  = with_bus PCF8583_WRITE_REGS 0 rp 0 false d X.
Proof.
  intros [-> | ->]; unfold ack_pulse; rewrite run_clock_bit_with_bus;
    reflexivity.
Qed.

(** A data byte: the eighth falling edge commits it. *)
Lemma run_data_byte n rp dl X v :
  is_byte v ->
  run clk n (send_byte v) (with_bus PCF8583_WRITE_REGS 0 rp 0 false dl X)
  = with_bus PCF8583_WRITE_ACK v (to_byte (rp + 1)) 8 false (Z.testbit v 0)
      (pcf8583_write_register (clk (n + 23)) X rp v).
Proof.
  intros Hv. rewrite run_send_byte by reflexivity.
  rewrite falling_edge_write_commit by reflexivity.
  rewrite shift_in_with_bus. cbn [reg reg_ptr with_bus].
  rewrite shift_last_bit by exact Hv.
  rewrite write_register_with_bus. reflexivity.
Qed.

End WriteTransaction.

Lemma length_send_byte v : length (send_byte v) = 24%nat.
Proof. reflexivity. Qed.



(** ** The hours byte in 12-hour mode *)

Section Hours.

Context {B : rtc_backend}.

Lemma write_hours_sets_am_pm h c val :
  Z.testbit val 7 = true ->
  am_pm (pcf8583_write_register h c PCF8583_REG_HOURS val) = true.
Proof.
  intros Hbit. unfold pcf8583_write_register. unfold_regs. cbn [Z.eqb Pos.eqb orb].
  change 0x80 with (2 ^ 7). rewrite land_pow2_eqb, Hbit by lia. cbn [negb].
  destruct (clock_halt c); reflexivity.
Qed.

Lemma start_reads_hours h c :
  buffers_sized c -> sclk_line c = true -> data_line c = true ->
  let c' := pcf8583_set_data_line h c 0 in
  state c' = PCF8583_START_WAIT
  /\ pcf8583_read_register c' PCF8583_REG_HOURS
     = start_hours (start_latch h c) c.
Proof.
  intros (_ & _ & _ & _ & Hlen) Hclk Hdata c'. subst c'.
  rewrite set_data_line_start by (assumption || reflexivity).
  split; [reflexivity|]. unfold pcf8583_read_register.
  cbn [clock_regs_for_read set_data_line set_bit set_reg set_state].
  rewrite i2c_start_snapshot by exact Hlen. reflexivity.
Qed.

End Hours.

(** C5: a START made while the stored 12-hour flag is set puts an hours
    byte with bit 7 set in the snapshot, and when the raw 12-hour encoding
    the backend returns has bit 5 (0x20) set, the byte has bit 5 clear and
    bit 6 (0x40) set. A written hour with the mode bit set stores the
    flag, so it reads back that way. *)
Theorem start_snapshot_hours_12h {B : rtc_backend} h c :
  buffers_sized c -> sclk_line c = true -> data_line c = true ->
  (am_pm c = true ->
   let c' := pcf8583_set_data_line h c 0 in
   let hours := pcf8583_read_register c' PCF8583_REG_HOURS in
   state c' = PCF8583_START_WAIT
   /\ Z.testbit hours 7 = true
   /\ (Z.testbit (rtc_get_hour_am_pm (start_latch h c) 1) 5 = true ->
       Z.testbit hours 5 = false /\ Z.testbit hours 6 = true))
  /\ (forall h0 val,
        Z.testbit val 7 = true ->
        let cw := pcf8583_write_register h0 c PCF8583_REG_HOURS val in
        let hours :=
          pcf8583_read_register (pcf8583_set_data_line h cw 0)
            PCF8583_REG_HOURS in
        am_pm cw = true
        /\ Z.testbit hours 7 = true
        /\ (Z.testbit (rtc_get_hour_am_pm (start_latch h cw) 1) 5 = true ->
            Z.testbit hours 5 = false /\ Z.testbit hours 6 = true)).
Proof.
  intros Hsz Hclk Hdata.
  assert (HA : forall c0, buffers_sized c0 -> sclk_line c0 = true ->
                 data_line c0 = true -> am_pm c0 = true ->
                 let c' := pcf8583_set_data_line h c0 0 in
                 let hours := pcf8583_read_register c' PCF8583_REG_HOURS in
                 state c' = PCF8583_START_WAIT
                 /\ Z.testbit hours 7 = true
                 /\ (Z.testbit (rtc_get_hour_am_pm (start_latch h c0) 1) 5
                     = true ->
                     Z.testbit hours 5 = false /\ Z.testbit hours 6 = true)).
  { intros c0 Hsz0 Hclk0 Hdata0 Ham c' hours.
    destruct (start_reads_hours h c0 Hsz0 Hclk0 Hdata0) as [Hst Hread].
    subst hours c'. rewrite Hread. split; [exact Hst|].
    apply start_hours_12h, Ham. }
  split; [apply HA; assumption|].
  intros h0 val Hbit cw hours.
  destruct (write_register_frame h0 c PCF8583_REG_HOURS val)
    as (_ & _ & _ & _ & _ & Ec & Ed & _).
  pose proof (write_hours_sets_am_pm h0 c val Hbit) as Ham.
  split; [exact Ham|].
  apply (HA cw); [apply write_register_buffers_sized, Hsz | | | exact Ham];
    subst cw; congruence.
Qed.

Lemma start_snapshot_hours_12h_witness :
  let cw := pcf8583_write_register (B:=utc_backend) (ticking 0) fresh
              PCF8583_REG_HOURS 0xb0 in
  let hours :=
    pcf8583_read_register
      (pcf8583_set_data_line (B:=utc_backend) (ticking 1) cw 0)
      PCF8583_REG_HOURS in
  rtc_get_hour_am_pm (rtc_backend:=utc_backend) (start_latch (ticking 1) cw) 1
  = 0x30
  /\ am_pm cw = true
  /\ Z.testbit hours 7 = true
  /\ Z.testbit hours 5 = false /\ Z.testbit hours 6 = true.
Proof.
  destruct (start_snapshot_hours_12h (B:=utc_backend) (ticking 1) fresh)
    as [_ HB]; try reflexivity.
  - repeat split; reflexivity.
  - destruct (HB (ticking 0) 0xb0 eq_refl) as (Ham & H7 & H56).
    split; [vm_compute; reflexivity|].
    split; [exact Ham | split; [exact H7|]].
    apply H56. vm_compute. reflexivity.
Defined.

(** * Further properties of the chip *)

(** A boolean property checked on every value below [n] holds below
    [n]. *)
Lemma forall_below (p : Z -> bool) n :
  forallb p (seqZ 0 n) = true -> forall x, 0 <= x < n -> p x = true.
Proof.
  intros Hall x Hx. rewrite forallb_forall in Hall. apply Hall.
  apply list_elem_of_In, elem_of_seqZ. lia.
Qed.

(** ** Register writes *)

Lemma stored_at_write_other {B : rtc_backend} h c addr val j :
  addr <> j \/ 1 <= addr <= 7 ->
  stored_at (pcf8583_write_register h c addr val) j = stored_at c j.
Proof.
  intros Hcase. unfold stored_at, pcf8583_write_register. unfold_regs.
  destruct (j <? 16) eqn:Hj;
    repeat case_match;
    cbn [clock_regs ram set_clock_regs set_ram set_offset set_am_pm
           set_clock_halt set_clock_halt_latch];
    try reflexivity;
    rewrite ?andb_true_iff, ?andb_false_iff, ?orb_true_iff, ?orb_false_iff,
      ?Z.eqb_eq, ?Z.eqb_neq, ?Z.leb_le, ?Z.leb_gt, ?Z.ltb_lt, ?Z.ltb_ge in *;
    apply arr_get_set_ne; lia.
Qed.

(** X1: a register write changes no cell but the addressed one: the
    value stored at any other address is what it was, a write to one of
    the registers 1 to 7 changes no stored cell at all, and no write
    changes what a read of an address below 16 returns before the next
    START. *)
Theorem write_register_other_cells {B : rtc_backend} h c addr val j :
  addr <> j \/ 1 <= addr <= 7 ->
  stored_at (pcf8583_write_register h c addr val) j = stored_at c j
  /\ (forall a, a < PCF8583_REG_SIZE ->
      pcf8583_read_register (pcf8583_write_register h c addr val) a
      = pcf8583_read_register c a).
Proof.
  intros Hcase. split; [apply stored_at_write_other, Hcase|].
  intros a Ha. unfold pcf8583_read_register.
  destruct (Z.ltb_spec a PCF8583_REG_SIZE); [|lia].
  destruct (write_register_frame h c addr val) as (E & _). rewrite E.
  reflexivity.
Qed.

Lemma write_register_other_cells_witness :
  stored_at (pcf8583_write_register (B:=utc_backend) (ticking 0) fresh 20 7)
    21 = stored_at fresh 21
  /\ stored_at (pcf8583_write_register (B:=utc_backend) (ticking 0) fresh 3 7)
       3 = stored_at fresh 3.
Proof.
  split.
  - destruct (write_register_other_cells (B:=utc_backend) (ticking 0) fresh
                20 7 21) as [Hcell _]; [left; lia | exact Hcell].
  - destruct (write_register_other_cells (B:=utc_backend) (ticking 0) fresh
                3 7 3) as [Hcell _]; [right; lia | exact Hcell].
Defined.



(** ** Writing a snapshot byte back *)

Section WriteBack.

Context {B : rtc_backend}.

Lemma hours_24h_bits raw :
  0 <= raw < 64 ->
  let H := to_byte (Z.lor (to_byte (Z.shiftl 0 7)) raw) in
  (Z.land H 0x80 =? 0) = true /\ Z.land H 0x3f = raw.
Proof.
  intros Hraw.
  pose proof (forall_below
    (fun x => let H := to_byte (Z.lor (to_byte (Z.shiftl 0 7)) x) in
              (Z.land H 0x80 =? 0) && (Z.land H 0x3f =? x)) 64
    ltac:(vm_compute; reflexivity) raw Hraw) as Hp.
  cbv zeta in *. apply andb_true_iff in Hp as [H1 H2].
  split; [exact H1 | apply Z.eqb_eq, H2].
Qed.

Lemma hours_12h_am_bits raw :
  0 <= raw < 32 ->
  let tmp := to_byte (Z.lor (to_byte (Z.shiftl 1 7)) raw) in
  (Z.land tmp 0x20 =? 0) = true
  /\ (Z.land tmp 0x80 =? 0) = false /\ Z.land tmp 0x3f = raw.
Proof.
  intros Hraw.
  pose proof (forall_below
    (fun x => let tmp := to_byte (Z.lor (to_byte (Z.shiftl 1 7)) x) in
              (Z.land tmp 0x20 =? 0) && negb (Z.land tmp 0x80 =? 0)
              && (Z.land tmp 0x3f =? x)) 32
    ltac:(vm_compute; reflexivity) raw Hraw) as Hp.
  cbv zeta in *. apply andb_true_iff in Hp as [Hp H3].
  apply andb_true_iff in Hp as [H1 H2]. apply negb_true_iff in H2.
  split; [exact H1 | split; [exact H2 | apply Z.eqb_eq, H3]].
Qed.

Lemma hours_12h_pm_bits r :
  0 <= r < 32 ->
  let tmp := to_byte (Z.lor (to_byte (Z.shiftl 1 7)) (r + 0x20)) in
  let H := to_byte (Z.lor (to_byte (Z.land tmp 0xdf)) 0x40) in
  (Z.land tmp 0x20 =? 0) = false
  /\ (Z.land H 0x80 =? 0) = false /\ Z.land H 0x3f = r.
Proof.
  intros Hr.
  pose proof (forall_below
    (fun x => let tmp := to_byte (Z.lor (to_byte (Z.shiftl 1 7)) (x + 0x20)) in
              let H := to_byte (Z.lor (to_byte (Z.land tmp 0xdf)) 0x40) in
              negb (Z.land tmp 0x20 =? 0) && negb (Z.land H 0x80 =? 0)
              && (Z.land H 0x3f =? x)) 32
    ltac:(vm_compute; reflexivity) r Hr) as Hp.
  cbv zeta in *. apply andb_true_iff in Hp as [Hp H3].
  apply andb_true_iff in Hp as [H1 H2]. apply negb_true_iff in H1, H2.
  split; [exact H1 | split; [exact H2 | apply Z.eqb_eq, H3]].
Qed.

End WriteBack.

(** X3: writing the hours byte of the snapshot back hands the backend the
    hour it returned, in the mode it was read in: in 24-hour mode for a raw
    hour below 64, in 12-hour mode for a raw hour below 32 (PM flag
    clear). The write goes to the latch while halted and to the offset
    while running. *)
Theorem hours_write_back_round_trip {B : rtc_backend} h latch c :
  (am_pm c = false ->
   0 <= rtc_get_hour latch 1 < 64 ->
   pcf8583_write_register h c PCF8583_REG_HOURS (start_hours latch c)
   = set_am_pm false
       (if clock_halt c then
          set_clock_halt_latch
            (rtc_set_latched_hour (rtc_get_hour latch 1)
               (clock_halt_latch c) 1) c
        else set_offset (rtc_set_hour h (rtc_get_hour latch 1) (offset c) 1) c))
  /\ (am_pm c = true ->
      0 <= rtc_get_hour_am_pm latch 1 < 32 ->
      pcf8583_write_register h c PCF8583_REG_HOURS (start_hours latch c)
      = set_am_pm true
          (if clock_halt c then
             set_clock_halt_latch
               (rtc_set_latched_hour_am_pm (rtc_get_hour_am_pm latch 1)
                  (clock_halt_latch c) 1) c
           else
             set_offset
               (rtc_set_hour_am_pm h (rtc_get_hour_am_pm latch 1)
                  (offset c) 1) c)).
Proof.
  split; intros Hmode Hraw.
  - destruct (hours_24h_bits _ Hraw) as [H1 H2].
    unfold pcf8583_write_register, start_hours. unfold_regs.
    rewrite Hmode. cbn [Z.eqb Pos.eqb orb Z.b2z]. cbv zeta in H1, H2.
    rewrite H1, H2. cbn [negb]. destruct (clock_halt c); reflexivity.
  - destruct (hours_12h_am_bits _ Hraw) as (H1 & H2 & H3).
    unfold pcf8583_write_register, start_hours. unfold_regs.
    rewrite Hmode. cbn [Z.eqb Pos.eqb orb Z.b2z]. cbv zeta in H1, H2, H3.
    rewrite H1. cbn [negb]. rewrite H2, H3. cbn [negb].
    destruct (clock_halt c); reflexivity.
Qed.

Lemma hours_write_back_round_trip_witness :
  pcf8583_write_register (B:=utc_backend) (ticking 9) fresh PCF8583_REG_HOURS
    (start_hours (B:=utc_backend) 1000072800 fresh)
  = set_am_pm false
      (set_offset
         (rtc_set_hour (rtc_backend:=utc_backend) (ticking 9) 0x22
            (offset fresh) 1) fresh).
Proof.
  destruct (hours_write_back_round_trip (B:=utc_backend) (ticking 9)
              1000072800 fresh) as [H24 _].
  apply H24; [reflexivity | vm_compute; split; [discriminate | reflexivity]].
Defined.

(** X4: in 12-hour mode the snapshot carries the PM flag in bit 6, and
    the hours write masks the byte with 0x3f: writing back the hours byte
    read for a PM hour (raw value [r + 0x20], [r] below 32) hands the
    backend [r], without the PM flag in bit 5. *)
Theorem hours_write_back_drops_pm {B : rtc_backend} h latch c r :
  am_pm c = true ->
  0 <= r < 32 ->
  rtc_get_hour_am_pm latch 1 = r + 0x20 ->
  pcf8583_write_register h c PCF8583_REG_HOURS (start_hours latch c)
  = set_am_pm true
      (if clock_halt c then
         set_clock_halt_latch
           (rtc_set_latched_hour_am_pm r (clock_halt_latch c) 1) c
       else set_offset (rtc_set_hour_am_pm h r (offset c) 1) c).
Proof.
  intros Hmode Hr Hraw. destruct (hours_12h_pm_bits _ Hr) as (H1 & H2 & H3).
  unfold pcf8583_write_register, start_hours. unfold_regs.
  rewrite Hmode, Hraw. cbn [Z.eqb Pos.eqb orb Z.b2z]. cbv zeta in H1, H2, H3.
  rewrite H1. cbn [negb]. rewrite H2, H3. cbn [negb].
  destruct (clock_halt c); reflexivity.
Qed.

Lemma hours_write_back_drops_pm_witness :
  let c := set_am_pm true fresh in
  rtc_get_hour_am_pm (rtc_backend:=utc_backend) 1000072800 1 = 0x10 + 0x20
  /\ pcf8583_write_register (B:=utc_backend) (ticking 9) c PCF8583_REG_HOURS
       (start_hours (B:=utc_backend) 1000072800 c)
     = set_am_pm true
         (set_offset
            (rtc_set_hour_am_pm (rtc_backend:=utc_backend) (ticking 9) 0x10
               (offset c) 1) c).
Proof.
  split; [vm_compute; reflexivity|].
  apply (hours_write_back_drops_pm (B:=utc_backend) (ticking 9) 1000072800
           (set_am_pm true fresh) 0x10).
  - reflexivity.
  - lia.
  - vm_compute. reflexivity.
Defined.

Lemma land_to_byte_low x : Z.land (to_byte x) 3 = Z.land x 3.
Proof.
  apply Z.bits_inj'. intros n Hn. rewrite !Z.land_spec.
  destruct (Z.lt_ge_cases n 8) as [Hlt|Hge].
  - rewrite to_byte_testbit by lia. reflexivity.
  - change 3 with (Z.ones 2). rewrite Z.ones_spec_high by lia.
    rewrite !andb_false_r. reflexivity.
Qed.

Lemma date_byte_bits y dom :
  0 <= y < 256 -> 0 <= dom < 64 ->
  let Y := to_byte (Z.lor (to_byte (Z.shiftl (to_byte (Z.land y 3)) 6)) dom) in
  Z.shiftr (Z.land Y 0xc0) 6 = Z.land y 3 /\ Z.land Y 0x3f = dom.
Proof.
  intros Hy Hdom.
  pose proof (forall_below
    (fun a => forallb
       (fun d =>
          let Y := to_byte (Z.lor (to_byte (Z.shiftl (to_byte (Z.land a 3)) 6))
                              d) in
          (Z.shiftr (Z.land Y 0xc0) 6 =? Z.land a 3) && (Z.land Y 0x3f =? d))
       (seqZ 0 64)) 256 ltac:(vm_compute; reflexivity) y Hy) as Hp.
  pose proof (forall_below _ 64 Hp dom Hdom) as Hq. cbv zeta in *.
  apply andb_true_iff in Hq as [H1 H2].
  split; apply Z.eqb_eq; assumption.
Qed.

Lemma weekday_byte_bits wd month :
  0 <= wd < 7 -> 0 <= month < 32 ->
  let W := to_byte
             (Z.lor
                (to_byte (Z.shiftl (to_byte (Z.land (to_byte (wd + 1)) 7)) 5))
                month) in
  Z.shiftr (Z.land W 0xe0) 5 - 1 = wd /\ Z.land W 0x1f = month.
Proof.
  intros Hwd Hmonth.
  pose proof (forall_below
    (fun a => forallb
       (fun m =>
          let W := to_byte
                     (Z.lor
                        (to_byte
                           (Z.shiftl (to_byte (Z.land (to_byte (a + 1)) 7)) 5))
                        m) in
          (Z.shiftr (Z.land W 0xe0) 5 - 1 =? a) && (Z.land W 0x1f =? m))
       (seqZ 0 32)) 7 ltac:(vm_compute; reflexivity) wd Hwd) as Hp.
  pose proof (forall_below _ 32 Hp month Hmonth) as Hq. cbv zeta in *.
  apply andb_true_iff in Hq as [H1 H2].
  split; apply Z.eqb_eq; assumption.
Qed.

(** X5: the date byte of the snapshot packs the two low bits of the year
    above a day of the month below 64, and the date write unpacks them:
    writing the byte back hands the backend those two year bits, then that
    day, on the latch while halted and on the offset while running. *)
Theorem date_write_back_round_trip {B : rtc_backend} h latch c :
  0 <= rtc_get_day_of_month latch 1 < 64 ->
  let year := Z.land (rtc_get_year latch 1) 3 in
  let dom := rtc_get_day_of_month latch 1 in
  pcf8583_write_register h c PCF8583_REG_YEARS_MONTH_DAYS
    (start_years_month_days latch)
  = if clock_halt c then
      set_clock_halt_latch
        (rtc_set_latched_day_of_month dom
           (rtc_set_latched_year year (clock_halt_latch c) 1) 1) c
    else
      set_offset
        (rtc_set_day_of_month h dom (rtc_set_year h year (offset c) 1) 1) c.
Proof.
  intros Hdom year dom.
  destruct (date_byte_bits (to_byte (rtc_get_year latch 1))
              (rtc_get_day_of_month latch 1)
              (to_byte_range _) Hdom) as [H1 H2].
  cbv zeta in H1, H2.
  unfold pcf8583_write_register, start_years_month_days. unfold_regs.
  cbn [Z.eqb Pos.eqb orb]. rewrite H1, H2, land_to_byte_low.
  destruct (clock_halt c); reflexivity.
Qed.

Lemma date_write_back_round_trip_witness :
  pcf8583_write_register (B:=utc_backend) (ticking 9) fresh
    PCF8583_REG_YEARS_MONTH_DAYS
    (start_years_month_days (B:=utc_backend) 1000072800)
  = set_offset
      (rtc_set_day_of_month (rtc_backend:=utc_backend) (ticking 9) 0x25
         (rtc_set_year (rtc_backend:=utc_backend) (ticking 9) 2
            (offset fresh) 1) 1) fresh.
Proof.
  apply (date_write_back_round_trip (B:=utc_backend) (ticking 9) 1000072800
           fresh).
  vm_compute. split; [discriminate | reflexivity].
Defined.

(** X6: the weekday and month byte of the snapshot packs the weekday plus
    one above a month below 32, and the write unpacks them: for a weekday
    from 0 to 6, writing the byte back hands the backend that weekday, then
    that month. *)
Theorem weekday_month_write_back_round_trip {B : rtc_backend} h latch c :
  0 <= rtc_get_weekday latch < 7 ->
  0 <= rtc_get_month latch 1 < 32 ->
  let wd := rtc_get_weekday latch in
  let month := rtc_get_month latch 1 in
  pcf8583_write_register h c PCF8583_REG_WEEK_DAYS_MONTHS
    (start_week_days_months latch)
  = if clock_halt c then
      set_clock_halt_latch
        (rtc_set_latched_month month
           (rtc_set_latched_weekday wd (clock_halt_latch c)) 1) c
    else
      set_offset (rtc_set_month h month (rtc_set_weekday h wd (offset c)) 1) c.
Proof.
  intros Hwd Hmonth wd month.
  destruct (weekday_byte_bits _ _ Hwd Hmonth) as [H1 H2].
  cbv zeta in H1, H2.
  unfold pcf8583_write_register, start_week_days_months. unfold_regs.
  cbn [Z.eqb Pos.eqb orb]. rewrite H1, H2.
  destruct (clock_halt c); reflexivity.
Qed.

Lemma weekday_month_write_back_round_trip_witness :
  pcf8583_write_register (B:=utc_backend) (ticking 9) fresh
    PCF8583_REG_WEEK_DAYS_MONTHS
    (start_week_days_months (B:=utc_backend) 1000072800)
  = set_offset
      (rtc_set_month (rtc_backend:=utc_backend) (ticking 9) 0x02
         (rtc_set_weekday (rtc_backend:=utc_backend) (ticking 9) 0
            (offset fresh)) 1) fresh.
Proof.
  apply (weekday_month_write_back_round_trip (B:=utc_backend) (ticking 9)
           1000072800 fresh).
  - vm_compute. split; [discriminate | reflexivity].
  - vm_compute. split; [discriminate | reflexivity].
Defined.

(** ** What a START puts in the snapshot *)

Section StartSnapshot.

Context {B : rtc_backend}.

Lemma small_cases a :
  0 <= a < 16 ->
  a = 0 \/ a = 1 \/ a = 2 \/ a = 3 \/ a = 4 \/ a = 5 \/ a = 6 \/ a = 7
  \/ a = 8 \/ a = 9 \/ a = 10 \/ a = 11 \/ a = 12 \/ a = 13 \/ a = 14
  \/ a = 15.
Proof. lia. Qed.

(** After a START, a read of the control register, an alarm register or
    a RAM cell returns the stored byte. *)
Lemma read_after_start h c a :
  buffers_sized c -> plain_address a ->
  pcf8583_read_register (pcf8583_i2c_start h c) a = stored_at c a.
Proof.
  intros (_ & _ & _ & _ & Hlen) Ha.
  unfold pcf8583_read_register, stored_at, plain_address in *. unfold_regs.
  destruct (Z.ltb_spec a 16) as [Hlt|Hge]; [|reflexivity].
  rewrite i2c_start_snapshot by exact Hlen.
  destruct (small_cases a ltac:(lia)) as
    [->|[->|[->|[->|[->|[->|[->|[->|[->|[->|[->|[->|[->|[->|[->| ->]]]]]]]]]]]]]]];
    try lia; reflexivity.
Qed.

Lemma i2c_start_bank h c : bank (pcf8583_i2c_start h c) = bank c.
Proof. reflexivity. Qed.

Lemma stored_at_i2c_start h c a :
  stored_at (pcf8583_i2c_start h c) a = stored_at c a.
Proof. reflexivity. Qed.

End StartSnapshot.

(** X7: a START with both lines high copies the control register and the
    eight alarm registers into the snapshot and leaves the RAM readable
    directly: a register read at such an address returns the stored byte.
    The timer-days register reads 0, whatever was written to it. *)
Theorem start_exposes_stored_registers {B : rtc_backend} h c a :
  buffers_sized c -> sclk_line c = true -> data_line c = true ->
  plain_address a ->
  let c' := pcf8583_set_data_line h c 0 in
  pcf8583_read_register c' a = stored_at c a
  /\ pcf8583_read_register c' PCF8583_REG_TIMER_DAYS = 0.
Proof.
  intros Hsz Hclk Hdata Ha c'. subst c'.
  rewrite set_data_line_start by (assumption || reflexivity).
  change (pcf8583_read_register (pcf8583_i2c_start h c) a = stored_at c a
          /\ pcf8583_read_register (pcf8583_i2c_start h c)
               PCF8583_REG_TIMER_DAYS = 0).
  split; [apply read_after_start; assumption|].
  destruct Hsz as (_ & _ & _ & _ & Hlen).
  unfold pcf8583_read_register. cbn [Z.ltb Z.compare PCF8583_REG_TIMER_DAYS
    PCF8583_REG_SIZE Pos.compare Pos.compare_cont].
  rewrite i2c_start_snapshot by exact Hlen. reflexivity.
Qed.

Lemma start_exposes_stored_registers_witness :
  let c := pcf8583_write_register (B:=utc_backend) (ticking 0) fresh 9 0x77 in
  let c' := pcf8583_set_data_line (B:=utc_backend) (ticking 1) c 0 in
  pcf8583_read_register c' 9 = 0x77
  /\ pcf8583_read_register c' PCF8583_REG_TIMER_DAYS = 0.
Proof.
  apply (start_exposes_stored_registers (B:=utc_backend) (ticking 1)
           (pcf8583_write_register (B:=utc_backend) (ticking 0) fresh 9 0x77)
           9).
  - repeat split; reflexivity.
  - reflexivity.
  - reflexivity.
  - right. unfold PCF8583_REG_ALARM_CONTROL, PCF8583_REG_SIZE,
      PCF8583_RAM_SIZE. lia.
Defined.

(** X8: while the clock is halted a START encodes the halt latch: two
    STARTs at different host times give the same byte at every address but
    the hundredths of a second, which always come from the host clock of
    the START. *)
Theorem halted_snapshot_frozen {B : rtc_backend} h1 h2 c a :
  buffers_sized c -> clock_halt c = true ->
  0 <= a -> a <> PCF8583_REG_100TH_SECONDS ->
  pcf8583_read_register (pcf8583_i2c_start h1 c) a
  = pcf8583_read_register (pcf8583_i2c_start h2 c) a
  /\ pcf8583_read_register (pcf8583_i2c_start h1 c) PCF8583_REG_100TH_SECONDS
     = to_byte (rtc_get_centisecond h1 1).
Proof.
  intros (_ & _ & _ & _ & Hlen) Hhalt Ha Hne.
  unfold pcf8583_read_register. unfold_regs.
  rewrite !i2c_start_snapshot by exact Hlen. unfold start_latch.
  rewrite Hhalt. split; [|reflexivity].
  destruct (Z.ltb_spec a 16) as [Hlt|Hge]; [|reflexivity].
  destruct (small_cases a ltac:(lia)) as
    [->|[->|[->|[->|[->|[->|[->|[->|[->|[->|[->|[->|[->|[->|[->| ->]]]]]]]]]]]]]]];
    try lia; reflexivity.
Qed.

Lemma halted_snapshot_frozen_witness :
  let c := pcf8583_write_register (B:=utc_backend) (ticking 0) fresh
             PCF8583_REG_CONTROL 0x80 in
  pcf8583_read_register (pcf8583_i2c_start (B:=utc_backend) (ticking 5) c)
    PCF8583_REG_SECONDS
  = pcf8583_read_register
      (pcf8583_i2c_start (B:=utc_backend) (ticking 5000) c)
      PCF8583_REG_SECONDS.
Proof.
  apply (halted_snapshot_frozen (B:=utc_backend) (ticking 5) (ticking 5000)
           (pcf8583_write_register (B:=utc_backend) (ticking 0) fresh
              PCF8583_REG_CONTROL 0x80) PCF8583_REG_SECONDS).
  - repeat split; reflexivity.
  - reflexivity.
  - unfold PCF8583_REG_SECONDS. lia.
  - unfold PCF8583_REG_SECONDS, PCF8583_REG_100TH_SECONDS. lia.
Defined.

(** ** The baseline and the save on destruction *)

Section Baseline.

Context {B : rtc_backend}.

Lemma falling_edge_baseline h c :
  let c' := clk_falling_edge h c in
  old_ram c' = old_ram c /\ old_clock_regs c' = old_clock_regs c
  /\ old_offset c' = old_offset c /\ device c' = device c.
Proof.
  unfold clk_falling_edge.
  destruct (state c); try (repeat split; reflexivity).
  - unfold pcf8583_next_address_bit. repeat case_match; repeat split;
      reflexivity.
  - unfold pcf8583_next_reg_nr_bit. repeat case_match; repeat split;
      reflexivity.
  - unfold pcf8583_next_read_bit. repeat case_match; repeat split;
      reflexivity.
  - unfold pcf8583_next_write_bit. cbv zeta.
    destruct (bit (shift_in c) =? 8); [|repeat split; reflexivity].
    destruct (write_register_frame h (shift_in c) (reg_ptr (shift_in c))
                (reg (shift_in c)))
      as (_ & _ & _ & _ & _ & _ & _ & E1 & E2 & E3 & E4 & _).
    cbn [old_ram old_clock_regs old_offset device set_reg_ptr set_state].
    rewrite E1, E2, E3, E4. repeat split; reflexivity.
  - unfold pcf8583_validate_read_ack. repeat case_match; repeat split;
      reflexivity.
Qed.

Lemma step_baseline h e c :
  let c' := step h e c in
  old_ram c' = old_ram c /\ old_clock_regs c' = old_clock_regs c
  /\ old_offset c' = old_offset c /\ device c' = device c.
Proof.
  destruct e as [data|data]; cbn [step].
  - unfold pcf8583_set_clk_line. case_bool_decide; [repeat split; reflexivity|].
    destruct (to_level data); cbn [negb]; [repeat split; reflexivity|].
    apply (falling_edge_baseline h c).
  - unfold pcf8583_set_data_line. case_bool_decide; [repeat split; reflexivity|].
    destruct (sclk_line c); [destruct (to_level data)|];
      repeat split; reflexivity.
Qed.

Lemma run_baseline clk n es c :
  let c' := run clk n es c in
  old_ram c' = old_ram c /\ old_clock_regs c' = old_clock_regs c
  /\ old_offset c' = old_offset c /\ device c' = device c.
Proof.
  revert n c. induction es as [|e es IH]; intros n c; cbn [run].
  - repeat split; reflexivity.
  - destruct (IH (S n) (step (clk n) e c)) as (E1 & E2 & E3 & E4).
    destruct (step_baseline (clk n) e c) as (F1 & F2 & F3 & F4).
    cbv zeta. rewrite E1, E2, E3, E4. auto.
Qed.

(** [pcf8583_destroy] looks at the bank, the baseline and the device
    name only. *)
Lemma destroy_ext c1 c2 save :
  ram c1 = ram c2 -> clock_regs c1 = clock_regs c2 -> offset c1 = offset c2 ->
  old_ram c1 = old_ram c2 -> old_clock_regs c1 = old_clock_regs c2 ->
  old_offset c1 = old_offset c2 -> device c1 = device c2 ->
  pcf8583_destroy c1 save = pcf8583_destroy c2 save.
Proof.
  intros E1 E2 E3 E4 E5 E6 E7. unfold pcf8583_destroy.
  rewrite E1, E2, E3, E4, E5, E6, E7. reflexivity.
Qed.

End Baseline.

(** X9: no call of the line setters changes the baseline copies taken at
    creation or the device name. *)
Theorem baseline_never_changes {B : rtc_backend} clk n es c :
  let c' := run clk n es c in
  old_ram c' = old_ram c /\ old_clock_regs c' = old_clock_regs c
  /\ old_offset c' = old_offset c /\ device c' = device c.
Proof.
  revert n c. induction es as [|e es IH]; intros n c; cbn [run].
  - repeat split; reflexivity.
  - destruct (IH (S n) (step (clk n) e c)) as (E1 & E2 & E3 & E4).
    destruct (step_baseline (clk n) e c) as (F1 & F2 & F3 & F4).
    cbv zeta. rewrite E1, E2, E3, E4. auto.
Qed.

(** X10: a chip that is created, driven by any calls that commit no data
    byte, and destroyed makes no call of [rtc_save_context], whether or not
    saving is requested and whatever was loaded at creation. *)
Theorem commit_free_traffic_never_saves {B : rtc_backend}
    clk n es dev loaded save :
  never is_commit clk n es (pcf8583_init dev loaded) = true ->
  pcf8583_destroy (run clk n es (pcf8583_init dev loaded)) save = None.
Proof.
  intros Hnever.
  pose proof (run_bank clk n es _ Hnever) as Hbank. unfold bank in Hbank.
  destruct (run_baseline clk n es (pcf8583_init dev loaded))
    as (E1 & E2 & E3 & E4).
  rewrite <- (destroy_unmodified_skips_save dev loaded save).
  apply destroy_ext; congruence.
Qed.

Lemma commit_free_traffic_never_saves_witness :
  pcf8583_destroy
    (run (B:=utc_backend) ticking 0
       (read_select ++ read_byte_acked ++ stop_condition) fresh) 1 = None.
Proof.
  apply (commit_free_traffic_never_saves (B:=utc_backend) ticking 0
           (read_select ++ read_byte_acked ++ stop_condition) "PCF8583" None 1).
  vm_compute. reflexivity.
Defined.

(** ** Line levels *)

(** X11: setting a line to the level it already has changes nothing:
    a second call with an argument of the same level, at any host time,
    returns the context the first call left, for the clock line and for
    the data line. *)
Theorem line_set_idempotent {B : rtc_backend} h1 h2 c d1 d2 :
  to_level d1 = to_level d2 ->
  pcf8583_set_clk_line h2 (pcf8583_set_clk_line h1 c d1) d2
  = pcf8583_set_clk_line h1 c d1
  /\ pcf8583_set_data_line h2 (pcf8583_set_data_line h1 c d1) d2
     = pcf8583_set_data_line h1 c d1.
Proof.
  intros Hlevel. split.
  - unfold pcf8583_set_clk_line at 1. rewrite set_clk_line_level, Hlevel.
    rewrite bool_decide_eq_true_2 by reflexivity. reflexivity.
  - unfold pcf8583_set_data_line at 1. rewrite set_data_line_level, Hlevel.
    rewrite bool_decide_eq_true_2 by reflexivity. reflexivity.
Qed.

Lemma line_set_idempotent_witness :
  pcf8583_set_clk_line (B:=utc_backend) (ticking 1)
    (pcf8583_set_clk_line (B:=utc_backend) (ticking 0) fresh 0) 0
  = pcf8583_set_clk_line (B:=utc_backend) (ticking 0) fresh 0
  /\ pcf8583_set_data_line (B:=utc_backend) (ticking 1)
       (pcf8583_set_data_line (B:=utc_backend) (ticking 0) fresh 0) 0
     = pcf8583_set_data_line (B:=utc_backend) (ticking 0) fresh 0.
Proof.
  apply (line_set_idempotent (B:=utc_backend) (ticking 0) (ticking 1) fresh
           0 0).
  reflexivity.
Defined.

(** X12: an idle chip ignores the bus until a START: over any calls
    without a START condition, a context in [PCF8583_IDLE] stays there and
    only its two line levels change. *)
Theorem idle_ignores_traffic {B : rtc_backend} clk n es c :
  state c = PCF8583_IDLE ->
  never is_start clk n es c = true ->
  let c' := run clk n es c in
  c' = with_bus PCF8583_IDLE (reg c) (reg_ptr c) (bit c)
         (sclk_line c') (data_line c') c.
Proof.
  revert n c. induction es as [|e es IH]; intros n c Hst Hnever;
    cbn [run never] in *.
  - destruct c; cbn in *; subst; reflexivity.
  - apply andb_true_iff in Hnever as [He Hes]. apply negb_true_iff in He.
    pose proof (step_idle (clk n) e c Hst He) as Hstep.
    assert (Hst1 : state (step (clk n) e c) = PCF8583_IDLE)
      by (rewrite Hstep; reflexivity).
    specialize (IH (S n) _ Hst1 Hes). cbv zeta in IH |- *.
    remember (step (clk n) e c) as c1 eqn:Hc1. clear Hc1.
    remember (run clk (S n) es c1) as cf eqn:Hcf. clear Hcf.
    etransitivity; [exact IH|]. rewrite Hstep. reflexivity.
Qed.

Lemma idle_ignores_traffic_witness :
  let es := clock_bit true ++ send_byte 0xa0 ++ stop_condition in
  let c := set_data_line false (set_sclk_line false fresh) in
  let c' := run (B:=utc_backend) ticking 0 es c in
  state c' = PCF8583_IDLE /\ bank c' = bank c /\ reg_ptr c' = reg_ptr c.
Proof.
  intros es c c'.
  pose proof (idle_ignores_traffic (B:=utc_backend) ticking 0 es c
                eq_refl) as Hidle.
  assert (Hnever : never (B:=utc_backend) is_start ticking 0 es c = true)
    by (vm_compute; reflexivity).
  specialize (Hidle Hnever). cbv zeta in Hidle. fold c' in Hidle.
  rewrite Hidle. repeat split; reflexivity.
Defined.

(** ** Address byte and STOP *)

(** X13: after a START the chip answers exactly two address bytes: 0xA0
    selects it for writing, 0xA1 for reading, and any other byte sends it
    back to idle. During the ninth clock it drives the data line low for
    its two addresses and leaves it high otherwise; the register bank is
    untouched. *)
Theorem address_byte_selects {B : rtc_backend} clk n c A :
  sclk_line c = true -> data_line c = true -> is_byte A ->
  let c' := run clk n (start_condition ++ send_byte A) c in
  state c'
  = (if A =? 0xa0 then PCF8583_ADDRESS_WRITE_ACK
     else if A =? 0xa1 then PCF8583_ADDRESS_READ_ACK
     else PCF8583_IDLE)
  /\ fst (pcf8583_read_data_line c')
     = (if (A =? 0xa0) || (A =? 0xa1) then 0 else 1)
  /\ bank c' = bank c.
Proof.
  intros Hclk Hdata HA c'. subst c'.
  rewrite run_app, run_start_condition by assumption.
  rewrite run_send_byte by reflexivity.
  rewrite falling_edge_address_byte by reflexivity.
  rewrite shift_in_with_bus. cbn [reg with_bus].
  rewrite shift_last_bit by exact HA.
  unfold pcf8583_read_data_line. cbn [state set_sclk_line set_state with_bus].
  destruct (A =? 0xa0); [repeat split; reflexivity|].
  destruct (A =? 0xa1); repeat split; reflexivity.
Qed.

Lemma address_byte_selects_witness :
  let c' := run (B:=utc_backend) ticking 0
              (start_condition ++ send_byte 0xa2) fresh in
  state c' = PCF8583_IDLE /\ fst (pcf8583_read_data_line c') = 1
  /\ bank c' = bank fresh.
Proof.
  apply (address_byte_selects (B:=utc_backend) ticking 0 fresh 0xa2);
    try reflexivity.
  unfold is_byte. lia.
Defined.

(** X14: a STOP condition issued with the clock low (data low, clock
    high, data high) sends the chip to idle from any state and changes
    nothing else but the two line levels: a byte that was being received
    is dropped without a register write. *)
Theorem stop_condition_aborts {B : rtc_backend} clk n c :
  sclk_line c = false ->
  run clk n stop_condition c
  = with_bus PCF8583_IDLE (reg c) (reg_ptr c) (bit c) true true c.
Proof.
  intros Hclk. unfold stop_condition. cbn [run step].
  rewrite (set_data_line_low (clk n) c 0) by exact Hclk.
  rewrite (set_clk_line_rise _ _ 1) by reflexivity.
  unfold pcf8583_set_data_line.
  cbn [data_line sclk_line set_data_line set_sclk_line to_level Z.eqb negb].
  rewrite bool_decide_eq_false_2 by discriminate. reflexivity.
Qed.

Lemma stop_condition_aborts_witness :
  let c := run (B:=utc_backend) ticking 0
             (set_pointer 20 true true ++ send_bits (bits7_of_byte 0x5a))
             fresh in
  state c = PCF8583_WRITE_REGS /\ bit c = 7
  /\ run (B:=utc_backend) ticking 100 stop_condition c
     = with_bus PCF8583_IDLE (reg c) (reg_ptr c) (bit c) true true c.
Proof.
  split; [vm_compute; reflexivity | split; [vm_compute; reflexivity|]].
  apply (stop_condition_aborts (B:=utc_backend) ticking 100).
  vm_compute. reflexivity.
Defined.

(** ** Burst writes *)

Section Burst.

Context {B : rtc_backend}.

Variable clk : nat -> host_clock.

Lemma length_set_pointer p d1 d2 : length (set_pointer p d1 d2) = 56%nat.
Proof. reflexivity. Qed.

(** START, 0xA0, ack, pointer byte, ack. *)
Lemma run_set_pointer n c p d1 d2 :
  sclk_line c = true -> data_line c = true -> is_byte p ->
  run clk n (set_pointer p d1 d2) c
  = with_bus PCF8583_WRITE_REGS 0 p 0 false d2 (pcf8583_i2c_start (clk n) c).
Proof.
  intros Hclk Hdata Hp. unfold set_pointer. rewrite !run_app.
  rewrite run_start_condition by assumption.
  rewrite run_address_write, run_ack_address_write.
  rewrite run_pointer_byte by exact Hp.
  rewrite (run_ack_write _ _ PCF8583_REG_NR_ACK) by (left; reflexivity).
  reflexivity.
Qed.

Lemma to_byte_succ_add rp k :
  to_byte (to_byte (rp + 1) + k) = to_byte (rp + (1 + k)).
Proof.
  unfold to_byte. rewrite Z.add_mod_idemp_l by lia. f_equal. lia.
Qed.

(** Data bytes, each acknowledged: the pointer advances by one per byte
    and the bank takes the writes in order. *)
Lemma run_send_bytes vs d : forall n rp dl X,
  Forall is_byte vs -> is_byte rp ->
  run clk n (send_bytes vs d) (with_bus PCF8583_WRITE_REGS 0 rp 0 false dl X)
  = with_bus PCF8583_WRITE_REGS 0 (to_byte (rp + Z.of_nat (length vs))) 0
      false (match vs with [] => dl | _ => d end)
      (burst_bank clk n rp vs X).
Proof.
  induction vs as [|v vs IH]; intros n rp dl X Hvs Hrp.
  - cbn. rewrite Z.add_0_r, to_byte_id by exact Hrp. reflexivity.
  - apply Forall_cons in Hvs as [Hv Hvs].
    change (send_bytes (v :: vs) d)
      with ((send_byte v ++ ack_pulse d) ++ send_bytes vs d).
    rewrite run_app, run_app. rewrite run_data_byte by exact Hv.
    rewrite (run_ack_write _ _ PCF8583_WRITE_ACK) by (right; reflexivity).
    rewrite length_app, length_send_byte.
    change (length (ack_pulse d)) with 3%nat.
    rewrite IH by (exact Hvs || apply to_byte_range).
    cbn [burst_bank length]. rewrite to_byte_succ_add.
    replace (n + (24 + 3))%nat with (n + 27)%nat by lia.
    replace (1 + Z.of_nat (length vs)) with (Z.of_nat (S (length vs))) by lia.
    destruct vs; reflexivity.
Qed.

Lemma burst_bank_buffers_sized vs : forall n rp X,
  buffers_sized X -> buffers_sized (burst_bank clk n rp vs X).
Proof.
  induction vs as [|v vs IH]; intros n rp X HX; cbn [burst_bank];
    [exact HX|].
  apply IH, write_register_buffers_sized, HX.
Qed.

(** A burst into the alarm registers and the RAM that does not run past
    the last address leaves each byte in its cell, and the cells below
    the burst as they were. *)
Lemma burst_bank_cells vs : forall n rp X,
  buffers_sized X ->
  PCF8583_REG_ALARM_CONTROL <= rp ->
  rp + Z.of_nat (length vs) <= PCF8583_REG_SIZE + PCF8583_RAM_SIZE ->
  (forall i v, vs !! i = Some v ->
               stored_at (burst_bank clk n rp vs X) (rp + Z.of_nat i) = v)
  /\ (forall j, j < rp ->
                stored_at (burst_bank clk n rp vs X) j = stored_at X j).
Proof.
  unfold PCF8583_REG_ALARM_CONTROL, PCF8583_REG_SIZE, PCF8583_RAM_SIZE.
  induction vs as [|v vs IH]; intros n rp X HX Hlo Hhi; cbn [burst_bank].
  - split; [intros i v Hi; rewrite lookup_nil in Hi; discriminate|].
    reflexivity.
  - cbn [length] in Hhi.
    set (X1 := pcf8583_write_register (clk (n + 23)%nat) X rp v).
    assert (HX1 : buffers_sized X1)
      by apply write_register_buffers_sized, HX.
    assert (Hcell : stored_at X1 rp = v).
    { apply write_register_stores; [exact HX | unfold is_byte; lia|].
      right. unfold PCF8583_REG_ALARM_CONTROL. lia. }
    assert (Hother : forall j, j < rp -> stored_at X1 j = stored_at X j).
    { intros j Hj. apply stored_at_write_other. left. lia. }
    destruct vs as [|v2 vs].
    + cbn [burst_bank]. split.
      * intros [|i] w Hi; [|rewrite lookup_cons, lookup_nil in Hi; discriminate].
        cbn in Hi. injection Hi as <-. rewrite Z.add_0_r. exact Hcell.
      * exact Hother.
    + cbn [length] in Hhi.
      assert (Hnext : to_byte (rp + 1) = rp + 1)
        by (apply to_byte_id; unfold is_byte; lia).
      rewrite Hnext.
      destruct (IH (n + 27)%nat (rp + 1) X1 HX1 ltac:(lia)
                  ltac:(cbn [length]; lia)) as [Hcells Hbelow].
      split.
      * intros [|i] w Hi.
        -- cbn in Hi. injection Hi as <-. rewrite Z.add_0_r.
           rewrite Hbelow by lia. exact Hcell.
        -- rewrite lookup_cons in Hi.
           replace (rp + Z.of_nat (S i)) with (rp + 1 + Z.of_nat i) by lia.
           apply Hcells, Hi.
      * intros j Hj. rewrite Hbelow by lia. apply Hother, Hj.
Qed.

End Burst.

(** X15: a burst write (START, 0xA0, ack, pointer byte [P], ack, then
    data bytes, each acknowledged) into the alarm registers and the RAM
    that ends at or before the last address stores each byte at its own
    address, [P], [P + 1], ...; the cells below [P] keep their values, and
    the pointer ends just past the burst, modulo the address space. *)
Theorem write_burst_fills_cells {B : rtc_backend} clk n c P vs d1 d2 d :
  sclk_line c = true -> data_line c = true -> buffers_sized c ->
  Forall is_byte vs ->
  PCF8583_REG_ALARM_CONTROL <= P < PCF8583_REG_SIZE + PCF8583_RAM_SIZE ->
  P + Z.of_nat (length vs) <= PCF8583_REG_SIZE + PCF8583_RAM_SIZE ->
  let c' := run clk n (set_pointer P d1 d2 ++ send_bytes vs d) c in
  (forall i v, vs !! i = Some v -> stored_at c' (P + Z.of_nat i) = v)
  /\ (forall j, j < P -> stored_at c' j = stored_at c j)
  /\ reg_ptr c'
     = (P + Z.of_nat (length vs)) mod (PCF8583_REG_SIZE + PCF8583_RAM_SIZE)
  /\ state c' = PCF8583_WRITE_REGS.
Proof.
  intros Hclk Hdata Hsz Hvs Hlo Hhi c'.
  assert (HP : is_byte P).
  { unfold is_byte, PCF8583_REG_ALARM_CONTROL, PCF8583_REG_SIZE,
      PCF8583_RAM_SIZE in *. lia. }
  subst c'. rewrite run_app, run_set_pointer by assumption.
  rewrite run_send_bytes by assumption.
  destruct (burst_bank_cells clk vs (n + length (set_pointer P d1 d2))%nat P
              (pcf8583_i2c_start (clk n) c)
              (i2c_start_buffers_sized _ _ Hsz) (proj1 Hlo) Hhi)
    as [Hcells Hbelow].
  split; [exact Hcells | split; [exact Hbelow | split; reflexivity]].
Qed.

Lemma write_burst_fills_cells_witness :
  let c' := run (B:=utc_backend) ticking 0
              (set_pointer 254 true true ++ send_bytes [0x11; 0x22] true)
              fresh in
  stored_at c' 254 = 0x11 /\ stored_at c' 255 = 0x22 /\ reg_ptr c' = 0.
Proof.
  destruct (write_burst_fills_cells (B:=utc_backend) ticking 0 fresh 254
              [0x11; 0x22] true true true)
    as (Hcells & _ & Hptr & _).
  - reflexivity.
  - reflexivity.
  - repeat split; reflexivity.
  - repeat constructor; unfold is_byte; lia.
  - unfold PCF8583_REG_ALARM_CONTROL, PCF8583_REG_SIZE, PCF8583_RAM_SIZE. lia.
  - unfold PCF8583_REG_SIZE, PCF8583_RAM_SIZE. cbn [length]. lia.
  - split; [exact (Hcells 0%nat 0x11 eq_refl)|].
    split; [exact (Hcells 1%nat 0x22 eq_refl) | exact Hptr].
Defined.

(** ** Reading bytes *)

Section ReadBurst.

Context {B : rtc_backend}.

Variable clk : nat -> host_clock.

Lemma read_data_line_read_regs r rp k cl dl X :
  0 <= k <= 7 ->
  pcf8583_read_data_line (with_bus PCF8583_READ_REGS r rp k cl dl X)
  = (Z.b2z (Z.testbit r (7 - k)), with_bus PCF8583_READ_REGS r rp k cl dl X).
Proof.
  intros Hk. unfold pcf8583_read_data_line. cbn [state reg bit with_bus].
  rewrite extract_bit by lia. rewrite to_byte_id; [reflexivity|].
  unfold is_byte. destruct (Z.testbit r (7 - k)); cbn; lia.
Qed.

(** The chip shifts its byte out, most significant bit first, and waits
    for the acknowledge once the eighth bit is out. *)
Lemma clock_in_read k : forall j n r rp dl X,
  0 <= j <= 7 -> j + Z.of_nat k <= 8 ->
  clock_in clk n k (with_bus PCF8583_READ_REGS r rp j false dl X)
  = (map (fun i => Z.b2z (Z.testbit r (7 - (j + Z.of_nat i)))) (seq 0 k),
     with_bus (if j + Z.of_nat k =? 8 then PCF8583_READ_ACK
               else PCF8583_READ_REGS) r rp (j + Z.of_nat k) false dl X).
Proof.
  induction k as [|k IH]; intros j n r rp dl X Hj Hjk.
  - cbn [clock_in seq map Z.of_nat]. rewrite Z.add_0_r.
    destruct (Z.eqb_spec j 8); [lia | reflexivity].
  - cbn [clock_in step].
    rewrite (set_clk_line_rise _ _ 1) by reflexivity.
    change (set_sclk_line true
              (with_bus PCF8583_READ_REGS r rp j false dl X))
      with (with_bus PCF8583_READ_REGS r rp j true dl X).
    rewrite read_data_line_read_regs by exact Hj.
    rewrite (set_clk_line_fall _ _ 0) by reflexivity.
    unfold clk_falling_edge. cbn [state with_bus].
    unfold pcf8583_next_read_bit. cbv zeta. cbn [bit set_bit with_bus].
    rewrite (to_byte_id (j + 1)) by (unfold is_byte; lia).
    destruct (Z.eqb_spec (j + 1) 8) as [E|E].
    + assert (k = 0%nat) by lia. subst k. cbn [clock_in seq map].
      replace (j + Z.of_nat 1) with (j + 1) by lia.
      rewrite (proj2 (Z.eqb_eq (j + 1) 8) E).
      replace (j + Z.of_nat 0) with j by lia. reflexivity.
    + change (set_sclk_line false
                (set_bit (j + 1)
                   (with_bus PCF8583_READ_REGS r rp j true dl X)))
        with (with_bus PCF8583_READ_REGS r rp (j + 1) false dl X).
      rewrite IH by lia.
      replace (j + 1 + Z.of_nat k) with (j + Z.of_nat (S k)) by lia.
      f_equal. cbn [seq map]. f_equal; [f_equal; f_equal; lia|].
      rewrite <- seq_shift, map_map. apply map_ext. intros i.
      do 3 f_equal. lia.
Qed.

(** The master's acknowledge moves the pointer on and loads the next
    byte. *)
Lemma run_master_ack n r rp k dl X :
  run clk n master_ack (with_bus PCF8583_READ_ACK r rp k false dl X)
  = with_bus PCF8583_READ_REGS (pcf8583_read_register X (to_byte (rp + 1)))
      (to_byte (rp + 1)) 0 false true X.
Proof.
  unfold master_ack. cbn [run step].
  rewrite (set_data_line_low _ _ 0) by reflexivity.
  rewrite (set_clk_line_rise _ _ 1) by reflexivity.
  rewrite (set_clk_line_fall _ _ 0) by reflexivity.
  rewrite (set_data_line_low _ _ 1) by reflexivity.
  reflexivity.
Qed.

(** The master's nack ends the transfer. *)
Lemma run_master_nack n r rp k dl X :
  run clk n master_nack (with_bus PCF8583_READ_ACK r rp k false dl X)
  = with_bus PCF8583_IDLE r rp k false true X.
Proof.
  unfold master_nack. cbn [run step].
  rewrite (set_data_line_low _ _ 1) by reflexivity.
  rewrite (set_clk_line_rise _ _ 1) by reflexivity.
  rewrite (set_clk_line_fall _ _ 0) by reflexivity.
  reflexivity.
Qed.

(** START, 0xA1, ack: the byte at the pointer is loaded. *)
Lemma run_read_select n c :
  sclk_line c = true -> data_line c = true ->
  let X := pcf8583_i2c_start (clk n) c in
  run clk n read_select c
  = with_bus PCF8583_READ_REGS (pcf8583_read_register X (reg_ptr c))
      (reg_ptr c) 0 false true X.
Proof.
  intros Hclk Hdata X. unfold read_select. rewrite !run_app.
  rewrite run_start_condition by assumption.
  rewrite run_address_read. unfold ack_pulse.
  rewrite run_clock_bit_with_bus. reflexivity.
Qed.

Lemma clock_in_byte n r rp dl X :
  clock_in clk n 8 (with_bus PCF8583_READ_REGS r rp 0 false dl X)
  = (levels_of_byte r, with_bus PCF8583_READ_ACK r rp 8 false dl X).
Proof. rewrite clock_in_read by lia. reflexivity. Qed.

Lemma run_read_burst m : forall n rp X,
  is_byte rp ->
  read_burst clk n m
    (with_bus PCF8583_READ_REGS (pcf8583_read_register X rp) rp 0 false true X)
  = (map (fun i => levels_of_byte
                     (pcf8583_read_register X (to_byte (rp + Z.of_nat i))))
       (seq 0 m),
     with_bus PCF8583_READ_REGS
       (pcf8583_read_register X (to_byte (rp + Z.of_nat m)))
       (to_byte (rp + Z.of_nat m)) 0 false true X).
Proof.
  induction m as [|m IH]; intros n rp X Hrp.
  - cbn [read_burst seq map Z.of_nat]. rewrite Z.add_0_r.
    rewrite to_byte_id by exact Hrp. reflexivity.
  - cbn [read_burst]. rewrite clock_in_byte, run_master_ack.
    rewrite IH by apply to_byte_range.
    cbn [seq map]. f_equal.
    + f_equal.
      * cbn [Z.of_nat]. rewrite Z.add_0_r, to_byte_id by exact Hrp.
        reflexivity.
      * rewrite <- seq_shift, map_map. apply map_ext. intros i.
        rewrite to_byte_succ_add. do 3 f_equal. lia.
    + rewrite to_byte_succ_add.
      replace (1 + Z.of_nat m) with (Z.of_nat (S m)) by lia. reflexivity.
Qed.

End ReadBurst.

(** X16: a read transaction (START, 0xA1, ack, then [m] bytes clocked
    out, each acknowledged by the master) returns, most significant bit
    first, the bytes a register read gives at the pointer, the pointer
    plus one, ..., modulo the 256 addresses, all taken from the context
    the START left; the pointer ends [m] further and the register bank is
    the one the START left. *)
Theorem read_burst_returns_registers {B : rtc_backend} clk n c m :
  sclk_line c = true -> data_line c = true -> is_byte (reg_ptr c) ->
  let X := pcf8583_i2c_start (clk n) c in
  let space := PCF8583_REG_SIZE + PCF8583_RAM_SIZE in
  let '(bytes, c') := read_burst clk (n + 29) m (run clk n read_select c) in
  bytes
  = map (fun i => levels_of_byte
                    (pcf8583_read_register X
                       ((reg_ptr c + Z.of_nat i) mod space))) (seq 0 m)
  /\ reg_ptr c' = (reg_ptr c + Z.of_nat m) mod space
  /\ state c' = PCF8583_READ_REGS
  /\ bank c' = bank c
  /\ clock_regs_for_read c' = clock_regs_for_read X.
Proof.
  intros Hclk Hdata Hptr X space.
  rewrite run_read_select by assumption. fold X.
  rewrite run_read_burst by exact Hptr.
  repeat split; reflexivity.
Qed.

Lemma read_burst_returns_registers_witness :
  let c := run (B:=utc_backend) ticking 0
             (set_pointer 255 true true ++ send_bytes [0xc3] true
                ++ bus_release ++ set_pointer 255 true true ++ bus_release)
             fresh in
  fst (read_burst (B:=utc_backend) ticking (200 + 29) 2
         (run (B:=utc_backend) ticking 200 read_select c))
  = [levels_of_byte 0xc3; levels_of_byte 0].
Proof.
  intros c.
  assert (Hclk : sclk_line c = true) by (vm_compute; reflexivity).
  assert (Hdata : data_line c = true) by (vm_compute; reflexivity).
  assert (Hptr : is_byte (reg_ptr c))
    by (vm_compute; split; [discriminate | reflexivity]).
  pose proof (read_burst_returns_registers (B:=utc_backend) ticking 200 c 2
                Hclk Hdata Hptr) as Hread.
  cbv zeta in Hread.
  destruct (read_burst (B:=utc_backend) ticking (200 + 29) 2
              (run (B:=utc_backend) ticking 200 read_select c))
    as [bytes c'].
  destruct Hread as (Hbytes & _). cbn [fst]. rewrite Hbytes.
  vm_compute. reflexivity.
Defined.

(** X17: when the master answers a byte it read with a nack (data line
    high across the ninth clock), the transfer ends: the chip is idle and
    the pointer stays on the byte just read. *)
Theorem read_nack_ends_transfer {B : rtc_backend} clk n c :
  sclk_line c = true -> data_line c = true ->
  let X := pcf8583_i2c_start (clk n) c in
  let '(levels, c1) := clock_in clk (n + 29) 8 (run clk n read_select c) in
  let c' := run clk (n + 45) master_nack c1 in
  levels = levels_of_byte (pcf8583_read_register X (reg_ptr c))
  /\ state c1 = PCF8583_READ_ACK
  /\ state c' = PCF8583_IDLE
  /\ reg_ptr c' = reg_ptr c
  /\ bank c' = bank c.
Proof.
  intros Hclk Hdata X.
  rewrite run_read_select by assumption. fold X.
  rewrite clock_in_byte, run_master_nack.
  repeat split; reflexivity.
Qed.

Lemma read_nack_ends_transfer_witness :
  let c1 := snd (clock_in (B:=utc_backend) ticking 29 8
                   (run (B:=utc_backend) ticking 0 read_select fresh)) in
  state c1 = PCF8583_READ_ACK
  /\ state (run (B:=utc_backend) ticking 45 master_nack c1) = PCF8583_IDLE.
Proof.
  pose proof (read_nack_ends_transfer (B:=utc_backend) ticking 0 fresh
                eq_refl eq_refl) as Hnack.
  cbv zeta in Hnack. change (0 + 29)%nat with 29%nat in Hnack.
  change (0 + 45)%nat with 45%nat in Hnack.
  destruct (clock_in (B:=utc_backend) ticking 29 8
              (run (B:=utc_backend) ticking 0 read_select fresh))
    as [levels c1].
  destruct Hnack as (_ & Hack & Hidle & _). cbn [snd].
  split; [exact Hack | exact Hidle].
Defined.

(** ** Writing a byte and reading it back *)

Section RoundTrip.

Context {B : rtc_backend}.

Variable clk : nat -> host_clock.

Lemma write_transaction_split p v d1 d2 d3 :
  write_transaction p v d1 d2 d3
  = set_pointer p d1 d2 ++ send_bytes [v] d3.
Proof.
  unfold write_transaction, set_pointer, send_bytes. cbn [map concat].
  rewrite app_nil_r, <- !app_assoc. reflexivity.
Qed.

Lemma run_write_transaction n c p v d1 d2 d3 :
  sclk_line c = true -> data_line c = true -> is_byte p -> is_byte v ->
  run clk n (write_transaction p v d1 d2 d3) c
  = with_bus PCF8583_WRITE_REGS 0 (to_byte (p + 1)) 0 false d3
      (pcf8583_write_register (clk (n + 79)%nat)
         (pcf8583_i2c_start (clk n) c) p v).
Proof.
  intros Hclk Hdata Hp Hv. rewrite write_transaction_split, run_app.
  rewrite run_set_pointer by assumption.
  rewrite run_send_bytes
    by (first [apply Forall_cons; split; [exact Hv | apply Forall_nil_2]
              | exact Hp]).
  rewrite length_set_pointer. cbn [burst_bank length Z.of_nat Pos.of_succ_nat].
  replace (n + 56 + 23)%nat with (n + 79)%nat by lia. reflexivity.
Qed.

(** With the clock low, releasing both lines changes the levels only. *)
Lemma run_bus_release n st r rp k dl X :
  run clk n bus_release (with_bus st r rp k false dl X)
  = with_bus st r rp k true true X.
Proof.
  unfold bus_release. cbn [run step].
  rewrite (set_data_line_low _ _ 1) by reflexivity.
  rewrite (set_clk_line_rise _ _ 1) by reflexivity.
  reflexivity.
Qed.

Lemma buffers_sized_with_bus st r rp k cl dl X :
  buffers_sized X -> buffers_sized (with_bus st r rp k cl dl X).
Proof. intros H. exact H. Qed.

End RoundTrip.

(** X18: a byte written over the bus reads back over the bus. After the
    write transaction for [V] at [P] (the control register, an alarm
    register or a RAM address), the master sets the pointer to [P] again
    (START, 0xA0, ack, [P], ack), issues a repeated START with 0xA1, and
    clocks eight bits in: they are the bits of [V], most significant
    first. *)
Theorem write_then_read_round_trip {B : rtc_backend}
    clk n c P V d1 d2 d3 d4 d5 :
  sclk_line c = true -> data_line c = true -> buffers_sized c ->
  plain_address P -> is_byte V ->
  let es := write_transaction P V d1 d2 d3 ++ bus_release
              ++ set_pointer P d4 d5 ++ bus_release ++ read_select in
  fst (clock_in clk (n + length es) 8 (run clk n es c)) = levels_of_byte V.
Proof.
  intros Hclk Hdata Hsz HP HV es.
  assert (HPb : is_byte P).
  { unfold plain_address, is_byte, PCF8583_REG_CONTROL,
      PCF8583_REG_ALARM_CONTROL, PCF8583_REG_SIZE, PCF8583_RAM_SIZE in *.
    lia. }
  subst es. rewrite (run_app clk n (write_transaction P V d1 d2 d3)).
  rewrite run_write_transaction by assumption.
  rewrite run_app, run_bus_release.
  rewrite run_app, run_set_pointer by (reflexivity || assumption).
  rewrite run_app, run_bus_release.
  rewrite run_read_select by reflexivity.
  rewrite clock_in_byte. cbn [fst reg_ptr with_bus]. f_equal.
  set (w := pcf8583_write_register _ _ P V).
  assert (Hw : buffers_sized w).
  { apply write_register_buffers_sized, i2c_start_buffers_sized, Hsz. }
  rewrite read_after_start;
    [| apply buffers_sized_with_bus, i2c_start_buffers_sized,
         buffers_sized_with_bus, Hw
     | exact HP].
  change (stored_at w P = V).
  apply write_register_stores;
    [apply i2c_start_buffers_sized, Hsz | exact HPb|].
  unfold plain_address in HP. destruct HP as [HP|HP]; [left|right]; lia.
Qed.

Lemma write_then_read_round_trip_witness :
  let es := write_transaction 0x0c 0xa5 true true true ++ bus_release
              ++ set_pointer 0x0c true true ++ bus_release ++ read_select in
  fst (clock_in (B:=utc_backend) ticking (0 + length es) 8
         (run (B:=utc_backend) ticking 0 es fresh))
  = [1; 0; 1; 0; 0; 1; 0; 1].
Proof.
  apply (write_then_read_round_trip (B:=utc_backend) ticking 0 fresh
           0x0c 0xa5 true true true true true).
  - reflexivity.
  - reflexivity.
  - repeat split; reflexivity.
  - right. unfold PCF8583_REG_ALARM_CONTROL, PCF8583_REG_SIZE,
      PCF8583_RAM_SIZE. lia.
  - unfold is_byte. lia.
Defined.

(** ** Saving what changed *)

Lemma destroy_changed c save :
  buffers_sized c -> save <> 0 ->
  ram c <> old_ram c \/ clock_regs c <> old_clock_regs c ->
  pcf8583_destroy c save
  = Some (mk_save (ram c) PCF8583_RAM_SIZE (clock_regs c) PCF8583_REG_SIZE
            (device c) (offset c)).
Proof.
  intros (Hram & Hold_ram & Hregs & Hold_regs & _) Hsave Hchg.
  unfold pcf8583_destroy.
  destruct (Z.eqb_spec save 0) as [|_]; [contradiction|]. cbn [negb].
  destruct (Z.eqb_spec (memcmp (ram c) (old_ram c)
                          (Z.to_nat PCF8583_RAM_SIZE)) 0) as [E1|E1];
    [|reflexivity].
  destruct (Z.eqb_spec (memcmp (clock_regs c) (old_clock_regs c)
                          (Z.to_nat PCF8583_REG_SIZE)) 0) as [E2|E2];
    [|reflexivity].
  apply memcmp_zero_iff in E1; [|assumption..].
  apply memcmp_zero_iff in E2; [|assumption..].
  tauto.
Qed.

Lemma init_baseline_sized dev loaded :
  loaded_sized loaded ->
  old_ram (pcf8583_init dev loaded) = ram (pcf8583_init dev loaded)
  /\ old_clock_regs (pcf8583_init dev loaded)
     = clock_regs (pcf8583_init dev loaded).
Proof.
  unfold pcf8583_init, memcpy, loaded_sized, lib_calloc.
  destruct loaded as [l|]; cbn.
  - intros [Hram Hregs]. split; apply take_ge; lia.
  - intros _. split; reflexivity.
Qed.

(** X19: a chip that is created, receives one write transaction that
    stores at a plain address a byte different from the one held there,
    and is destroyed with saving requested calls [rtc_save_context] with
    the RAM, registers and offset it holds then and the device name it was
    created with. *)
Theorem changed_cell_is_saved {B : rtc_backend}
    clk n dev loaded P V d1 d2 d3 save :
  loaded_sized loaded -> plain_address P -> is_byte V ->
  V <> stored_at (pcf8583_init dev loaded) P ->
  save <> 0 ->
  let c' := run clk n (write_transaction P V d1 d2 d3)
              (pcf8583_init dev loaded) in
  pcf8583_destroy c' save
  = Some (mk_save (ram c') PCF8583_RAM_SIZE (clock_regs c') PCF8583_REG_SIZE
            dev (offset c')).
Proof.
  intros Hl HP HV Hne Hsave c'.
  set (c := pcf8583_init dev loaded) in *.
  assert (Hsz : buffers_sized c) by apply init_buffers_sized, Hl.
  assert (HPb : is_byte P).
  { unfold plain_address, is_byte, PCF8583_REG_CONTROL,
      PCF8583_REG_ALARM_CONTROL, PCF8583_REG_SIZE, PCF8583_RAM_SIZE in *.
    lia. }
  destruct (run_baseline clk n (write_transaction P V d1 d2 d3) c)
    as (E1 & E2 & _ & E4). fold c' in E1, E2, E4.
  destruct (init_baseline_sized dev loaded Hl) as [B1 B2]. fold c in B1, B2.
  assert (Hrun : c' = with_bus PCF8583_WRITE_REGS 0 (to_byte (P + 1)) 0 false
                        d3
                        (pcf8583_write_register (clk (n + 79)%nat)
                           (pcf8583_i2c_start (clk n) c) P V)).
  { subst c'. apply run_write_transaction; try assumption; reflexivity. }
  assert (Hcell : stored_at c' P = V).
  { rewrite Hrun.
    change (stored_at
              (pcf8583_write_register (clk (n + 79)%nat)
                 (pcf8583_i2c_start (clk n) c) P V) P = V).
    apply write_register_stores;
      [apply i2c_start_buffers_sized, Hsz | exact HPb|].
    unfold plain_address in HP. destruct HP as [HP|HP]; [left|right]; lia. }
  assert (Hsz' : buffers_sized c').
  { rewrite Hrun. apply buffers_sized_with_bus, write_register_buffers_sized,
      i2c_start_buffers_sized, Hsz. }
  replace dev with (device c') by (rewrite E4; reflexivity).
  apply destroy_changed; [exact Hsz' | exact Hsave|].
  rewrite E1, E2, B1, B2.
  destruct (list_eq_dec (ram c') (ram c)) as [Er|Er]; [|left; exact Er].
  destruct (list_eq_dec (clock_regs c') (clock_regs c)) as [Eg|Eg];
    [|right; exact Eg].
  exfalso. apply Hne. rewrite <- Hcell. unfold stored_at.
  rewrite Er, Eg. reflexivity.
Qed.

Lemma changed_cell_is_saved_witness :
  let c' := run (B:=utc_backend) ticking 0
              (write_transaction 0x20 0x99 true true true)
              (pcf8583_init "PCF8583" None) in
  pcf8583_destroy c' 1
  = Some (mk_save (ram c') PCF8583_RAM_SIZE (clock_regs c') PCF8583_REG_SIZE
            "PCF8583" (offset c')).
Proof.
  apply (changed_cell_is_saved (B:=utc_backend) ticking 0 "PCF8583" None
           0x20 0x99 true true true 1).
  - exact I.
  - right. unfold PCF8583_REG_ALARM_CONTROL, PCF8583_REG_SIZE,
      PCF8583_RAM_SIZE. lia.
  - unfold is_byte. lia.
  - vm_compute. discriminate.
  - lia.
Defined.

(** ** Control writes *)

(** X20: resuming a halted clock sets the offset to the halt latch minus
    [rtc_get_latch(0)]: the offset held before cancels out of the resume
    formula, so a time set in the latch while halted is the time the
    clock resumes from. *)
Theorem resume_offset_from_latch {B : rtc_backend} h c val :
  clock_halt c = true -> Z.land val 0x80 = 0 ->
  let c' := pcf8583_write_register h c PCF8583_REG_CONTROL val in
  clock_halt c' = false
  /\ offset c' = clock_halt_latch c - rtc_get_latch h 0
  /\ clock_halt_latch c' = clock_halt_latch c.
Proof.
  intros Hhalt Hbit. unfold pcf8583_write_register.
  cbn [Z.eqb PCF8583_REG_MINUTES PCF8583_REG_CONTROL]. rewrite Hhalt.
  change 128 with 0x80. rewrite Hbit. cbn. repeat split. lia.
Qed.

Lemma resume_offset_from_latch_witness :
  let c := pcf8583_write_register (B:=utc_backend) (ticking 7) 
             (pcf8583_write_register (B:=utc_backend) (ticking 0) fresh
                PCF8583_REG_CONTROL 0x80) PCF8583_REG_MINUTES 0x30 in
  let c' := pcf8583_write_register (B:=utc_backend) (ticking 900) c
              PCF8583_REG_CONTROL 0 in
  clock_halt c' = false
  /\ offset c' = clock_halt_latch c - rtc_get_latch (ticking 900) 0
  /\ clock_halt_latch c' = clock_halt_latch c.
Proof.
  apply (resume_offset_from_latch (B:=utc_backend) (ticking 900)
           (pcf8583_write_register (B:=utc_backend) (ticking 7)
              (pcf8583_write_register (B:=utc_backend) (ticking 0) fresh
                 PCF8583_REG_CONTROL 0x80) PCF8583_REG_MINUTES 0x30) 0).
  - reflexivity.
  - reflexivity.
Defined.

(** * The video glue *)

Lemma byte_testbit_high x n : is_byte x -> 8 <= n -> Z.testbit x n = false.
Proof.
  intros Hx Hn. rewrite <- (to_byte_id x Hx). unfold to_byte.
  change 256 with (2 ^ 8). apply Z.mod_pow2_bits_high. lia.
Qed.

(** The bits of three bytes packed as [r << 16 | g << 8 | b]. *)
Lemma packed_rgb_testbit r g b n :
  is_byte r -> is_byte g -> is_byte b -> 0 <= n ->
  Z.testbit (Z.lor (Z.lor (Z.shiftl r 16) (Z.shiftl g 8)) b) n
  = if n <? 8 then Z.testbit b n
    else if n <? 16 then Z.testbit g (n - 8)
    else Z.testbit r (n - 16).
Proof.
  intros Hr Hg Hb Hn. rewrite !Z.lor_spec, !Z.shiftl_spec by lia.
  destruct (Z.ltb_spec n 8).
  - rewrite (Z.testbit_neg_r r), (Z.testbit_neg_r g) by lia. reflexivity.
  - rewrite (byte_testbit_high b) by assumption. rewrite orb_false_r.
    destruct (Z.ltb_spec n 16).
    + rewrite (Z.testbit_neg_r r) by lia. reflexivity.
    + rewrite (byte_testbit_high g) by (assumption || lia).
      apply orb_false_r.
Qed.

Lemma mask_byte_testbit x n :
  0 <= n -> Z.testbit (Z.land x 0xff) n = Z.testbit x n && (n <? 8).
Proof.
  intros Hn. rewrite Z.land_spec. change 0xff with (Z.ones 8).
  destruct (Z.ltb_spec n 8).
  - rewrite Z.ones_spec_low by lia. reflexivity.
  - rewrite Z.ones_spec_high by lia. reflexivity.
Qed.

Module VideoFacts.

Import Video.

Section Arch.

Variable pix_bytes : Z.
Variable RGB565 : Z -> Z -> Z -> Z.
Variable VIDEO_RENDER_RGB_1X1 : Z.

Lemma physical_color_packed e :
  pix_bytes <> 2 ->
  is_byte (red e) -> is_byte (green e) -> is_byte (blue e) ->
  physical_color pix_bytes RGB565 e
  = Z.lor (Z.lor (Z.shiftl (red e) 16) (Z.shiftl (green e) 8)) (blue e).
Proof.
  intros Hpix Hr Hg Hb. unfold physical_color.
  destruct (Z.eqb_spec pix_bytes 2) as [|_]; [contradiction|].
  unfold to_u32. apply Z.bits_inj'. intros n Hn.
  destruct (Z.lt_ge_cases n 32).
  - apply Z.mod_pow2_bits_low. lia.
  - rewrite Z.mod_pow2_bits_high by lia.
    rewrite packed_rgb_testbit by assumption.
    destruct (Z.ltb_spec n 8); [lia|]. destruct (Z.ltb_spec n 16); [lia|].
    symmetry. apply byte_testbit_high; [assumption | lia].
Qed.

End Arch.

(** X21: outside the 16-bit mode ([pix_bytes] other than 2) the colour
    [video_canvas_set_palette] registers for palette entry [i] is the
    entry's three byte channels packed as 0xRRGGBB: the call at position
    [i] carries index [i] and the canvas depth, and its colour gives the
    red, green and blue channels back through shifts by 16, 8 and 0 and
    the mask 0xff. *)
Theorem set_palette_registers_rgb pix_bytes RGB565 canvas entries i e :
  pix_bytes <> 2 ->
  entries !! i = Some e ->
  is_byte (red e) -> is_byte (green e) -> is_byte (blue e) ->
  let '(ret, canvas', calls) :=
    video_canvas_set_palette pix_bytes RGB565 canvas (Some entries) in
  ret = 0
  /\ palette canvas' = Some entries
  /\ exists col,
       calls !! i
       = Some (video_render_setphysicalcolor (Z.of_nat i) col (depth canvas))
       /\ Z.land (Z.shiftr col 16) 0xff = red e
       /\ Z.land (Z.shiftr col 8) 0xff = green e
       /\ Z.land col 0xff = blue e.
Proof.
  intros Hpix Hi Hr Hg Hb. cbn [video_canvas_set_palette].
  split; [reflexivity | split; [reflexivity|]].
  exists (physical_color pix_bytes RGB565 e). split.
  - rewrite lookup_app_l
      by (rewrite length_imap; apply lookup_lt_Some in Hi; exact Hi).
    rewrite list_lookup_imap, Hi. reflexivity.
  - rewrite physical_color_packed by assumption.
    repeat split; apply Z.bits_inj'; intros n Hn;
      rewrite mask_byte_testbit, ?Z.shiftr_spec, packed_rgb_testbit
        by (assumption || lia).
    + destruct (Z.ltb_spec n 8) as [Hlt|Hge].
      * destruct (Z.ltb_spec (n + 16) 8); [lia|].
        destruct (Z.ltb_spec (n + 16) 16); [lia|].
        rewrite andb_true_r. f_equal. lia.
      * rewrite andb_false_r. symmetry. apply byte_testbit_high; assumption.
    + destruct (Z.ltb_spec n 8) as [Hlt|Hge].
      * destruct (Z.ltb_spec (n + 8) 8); [lia|].
        destruct (Z.ltb_spec (n + 8) 16); [|lia].
        rewrite andb_true_r. f_equal. lia.
      * rewrite andb_false_r. symmetry. apply byte_testbit_high; assumption.
    + destruct (Z.ltb_spec n 8) as [Hlt|Hge].
      * apply andb_true_r.
      * rewrite andb_false_r. symmetry. apply byte_testbit_high; assumption.
Qed.

Lemma set_palette_registers_rgb_witness :
  let '(ret, canvas', calls) :=
    video_canvas_set_palette 4 (fun _ _ _ => 0) (mk_video_canvas 0 32 None)
      (Some [mk_palette_entry 0x12 0x34 0x56; mk_palette_entry 0xff 0x80 0x01])
  in
  ret = 0
  /\ palette canvas'
     = Some [mk_palette_entry 0x12 0x34 0x56; mk_palette_entry 0xff 0x80 0x01]
  /\ exists col,
       calls !! 1%nat = Some (video_render_setphysicalcolor 1 col 32)
       /\ Z.land (Z.shiftr col 16) 0xff = 0xff
       /\ Z.land (Z.shiftr col 8) 0xff = 0x80
       /\ Z.land col 0xff = 0x01.
Proof.
  apply (set_palette_registers_rgb 4 (fun _ _ _ => 0)
           (mk_video_canvas 0 32 None)
           [mk_palette_entry 0x12 0x34 0x56; mk_palette_entry 0xff 0x80 0x01]
           1%nat (mk_palette_entry 0xff 0x80 0x01)).
  - lia.
  - reflexivity.
  - unfold is_byte. cbn. lia.
  - unfold is_byte. cbn. lia.
  - unfold is_byte. cbn. lia.
Defined.

(** X22: [video_canvas_create] sets the render mode and a depth of eight
    bits per pixel byte before it hands the canvas's own palette to the
    renderer: every colour it registers carries the new depth, whatever
    depth the canvas came with; the palette is kept; a canvas without a
    palette makes no renderer call at all, and one with [k] entries makes
    [k + 257] calls, the last of them [video_render_initraw]. *)
Theorem canvas_create_uses_new_depth
    pix_bytes RGB565 VIDEO_RENDER_RGB_1X1 canvas :
  let '(canvas', calls) :=
    video_canvas_create pix_bytes RGB565 VIDEO_RENDER_RGB_1X1 canvas in
  rendermode canvas' = VIDEO_RENDER_RGB_1X1
  /\ depth canvas' = 8 * pix_bytes
  /\ palette canvas' = palette canvas
  /\ (palette canvas = None -> calls = [])
  /\ (forall k idx col d,
        calls !! k = Some (video_render_setphysicalcolor idx col d) ->
        d = 8 * pix_bytes)
  /\ (forall entries,
        palette canvas = Some entries ->
        length calls = (length entries + 257)%nat
        /\ List.last calls video_render_initraw = video_render_initraw).
Proof.
  unfold video_canvas_create. cbn [rendermode depth palette].
  destruct (palette canvas) as [entries|] eqn:Hpal;
    cbn [video_canvas_set_palette rendermode depth palette].
  - split; [reflexivity | split; [reflexivity | split; [reflexivity|]]].
    split; [discriminate | split].
    + intros k idx col d Hcall.
      destruct (decide (k < length entries)%nat) as [Hlt|Hge].
      * rewrite lookup_app_l in Hcall by (rewrite length_imap; exact Hlt).
        rewrite list_lookup_imap in Hcall.
        destruct (entries !! k); cbn in Hcall; [|discriminate].
        injection Hcall as _ _ <-. reflexivity.
      * exfalso.
        rewrite lookup_app_r in Hcall by (rewrite length_imap; lia).
        rewrite length_imap in Hcall.
        destruct (decide (k - length entries < 256)%nat) as [Hraw|Hlast].
        -- rewrite lookup_app_l in Hcall
             by (rewrite length_map, length_seqZ; lia).
           rewrite list_lookup_fmap in Hcall.
           destruct (seqZ 0 256 !! (k - length entries)%nat);
             cbn in Hcall; [|discriminate].
           unfold raw_rgb_call in Hcall.
           destruct (pix_bytes =? 2); discriminate.
        -- rewrite lookup_app_r in Hcall
             by (rewrite length_map, length_seqZ; lia).
           destruct (k - length entries
                     - length (map (raw_rgb_call pix_bytes RGB565)
                                 (seqZ 0 256)))%nat;
             cbn in Hcall; discriminate.
    + intros entries' Heq. injection Heq as <-. split.
      * rewrite !length_app, length_imap, length_map, length_seqZ.
        cbn [length]. lia.
      * rewrite app_assoc. apply last_last.
  - split; [reflexivity | split; [reflexivity | split; [reflexivity|]]].
    split; [reflexivity | split; [|discriminate]].
    intros k idx col d Hcall. rewrite lookup_nil in Hcall. discriminate.
Qed.

End VideoFacts.
